(** * NeuroFlow: the daily schedule generator and its goal tracker

    A shallow embedding of the planning core of the NeuroFlow front-end:

    - time arithmetic ([parseInt], [toMinutes], [formatTime]);
    - the calendar event normaliser (date filter, minute conversion, sort);
    - the peak window resolver ([peakRanges]);
    - the schedule generator, a single left-to-right sweep, in the three
      versions the repository holds:
        [DashboardView]  src/components/DashboardView.tsx,
        [Part001]        src/unnamed/part_001 (per-day manual adjustment,
                         configurable breaks, goal tracker),
        [Part002]        src/unnamed/part_002 (hard day limits, breakfast and
                         lunch anchors, merging of rest blocks);
    - the goal tracker of part_001 ([calcForSchedule], [goalDiff],
      [handleAdjustGoal]);
    - the sessions: the set of completed blocks of DashboardView.tsx, the
      auto-play of part_001 and the countdown timer of part_002;
    - the calendar import of src/App.tsx ([parseICS], [formatTo12h]).

    Conventions.

    - JavaScript numbers are [Z]: every quantity the sweep handles is a whole
      number of minutes, and the focus goal a whole number of hours as the
      slider yields it (exact below 2^53).  [NaN] only arises from [parseInt]
      and is [None].
    - The mutable variables of a sweep are the fields of a [State] record; one
      iteration of the [while] loop is a function [step] on states.  The loop
      itself runs on an iteration budget; that the budget suffices is proved,
      not assumed.
    - An object literal used as a lookup table is a finite map of its own
      properties ([gmap]); the members it inherits from [Object.prototype],
      which a lookup by an arbitrary name also finds, are listed apart
      ([objectPrototypeMembers]).
    - A block keeps every field the source gives it.  The [id] template of
      DashboardView.tsx and part_001 is kept as its three interpolated parts,
      from which the start minute of a block is read.
    - A React effect is a function on the state it depends on, run once per
      render; a state updater that throws is an abrupt [Completion].
    - The conversion of a calendar date to the parts of an Indian Standard
      Time date ([Date], [Intl.DateTimeFormat]) is a parameter of the import.
    - Rendering, sound and persistence are outside. *)

From Stdlib Require Import ZArith List String Ascii Lia Bool.
From stdpp Require Import base gmap strings list pretty sorting.

Open Scope Z_scope.

(** ** Time arithmetic *)

(** [parseInt(s)] with no radix: leading white space is skipped, an optional
    sign is read, a [0x]/[0X] prefix selects radix 16, and the longest prefix
    of digits is converted; no digit at all gives [NaN] ([None]).  Strings are
    byte strings here, so only the ASCII white space characters are skipped. *)

Definition isWhiteSpace (c : ascii) : bool :=
  let n := nat_of_ascii c in
  ((9 <=? n)%nat && (n <=? 13)%nat) || (n =? 32)%nat.

Fixpoint trimStart (s : string) : string :=
  match s with
  | String c s' => if isWhiteSpace c then trimStart s' else s
  | EmptyString => EmptyString
  end.

Definition digitValue (c : ascii) : option Z :=
  let n := Z.of_nat (nat_of_ascii c) in
  if (48 <=? n) && (n <=? 57) then Some (n - 48)
  else if (97 <=? n) && (n <=? 122) then Some (n - 87)
  else if (65 <=? n) && (n <=? 90) then Some (n - 55)
  else None.

Definition radixDigit (R : Z) (c : ascii) : option Z :=
  match digitValue c with
  | Some d => if d <? R then Some d else None
  | None => None
  end.

(** Reads the longest prefix of radix-[R] digits; [acc] is the value read so
    far, [None] while no digit has been seen. *)
Fixpoint readDigits (R : Z) (acc : option Z) (s : string) : option Z :=
  match s with
  | String c s' =>
      match radixDigit R c with
      | Some d => readDigits R (Some (default 0 acc * R + d)) s'
      | None => acc
      end
  | EmptyString => acc
  end.

Definition parseInt (s : string) : option Z :=
  let str := trimStart s in
  let '(sign, str) :=
    match str with
    | String "-" r => (-1, r)
    | String "+" r => (1, r)
    | _ => (1, str)
    end in
  let '(R, str) :=
    match str with
    | String "0" (String "x" r) => (16, r)
    | String "0" (String "X" r) => (16, r)
    | _ => (10, str)
    end in
  match readDigits R None str with
  | Some v => Some (sign * v)
  | None => None
  end.

(** [toMinutes(h, m, p)]: 12-hour clock fields to minute of day.
<<
    const toMinutes = (h: string, m: string, p: string) => {
      let hours = parseInt(h);
      if (p === 'PM' && hours !== 12) hours += 12;
      if (p === 'AM' && hours === 12) hours = 0;
      return hours * 60 + parseInt(m);
    };
>>
    The result is [NaN] exactly when one of the two fields does not parse. *)
Definition toMinutes (h m p : string) : option Z :=
  match parseInt h, parseInt m with
  | Some hours, Some mins =>
      let hours := if String.eqb p "PM" && negb (hours =? 12) then hours + 12 else hours in
      let hours := if String.eqb p "AM" && (hours =? 12) then 0 else hours in
      Some (hours * 60 + mins)
  | _, _ => None
  end.

(** [String(n).padStart(2, '0')] *)
Definition padStart2 (s : string) : string :=
  match String.length s with
  | 0%nat => "00" +:+ s
  | 1%nat => "0" +:+ s
  | _ => s
  end.

(** [formatTime(mins)]: 24-hour [HH:MM]; [Math.floor] is [Z.div], the
    JavaScript [%] is [Z.rem].
<<
    const formatTime = (mins: number) => {
      const h = Math.floor(mins / 60);
      const m = mins % 60;
      return `${String(h).padStart(2, '0')}:${String(m).padStart(2, '0')}`;
    };
>> *)
Definition formatTime (mins : Z) : string :=
  let h := mins / 60 in
  let m := Z.rem mins 60 in
  padStart2 (pretty h) +:+ ":" +:+ padStart2 (pretty m).

(** ** Calendar events *)

Record CalendarEvent := {
  summary : string;
  startTime : string;        (* HH:mm *)
  endTime : string;          (* HH:mm *)
  durationMinutes : Z;
  date : string              (* YYYYMMDD *)
}.

(** An event of the active day with its minute-of-day interval (the object
    [{ ...e, startMins, endMins }] of the source). *)
Record DayEvent := {
  event : CalendarEvent;
  startMins : Z;
  endMins : Z
}.

(** [s.split(':')] *)
Fixpoint splitGo (sep : ascii) (cur : string) (s : string) : list string :=
  match s with
  | EmptyString => [String.rev cur]
  | String c s' =>
      if Ascii.eqb c sep then String.rev cur :: splitGo sep EmptyString s'
      else splitGo sep (String c cur) s'
  end.

Definition split (sep : ascii) (s : string) : list string := splitGo sep EmptyString s.

(** [const [h, m] = t.split(':'); parseInt(h) * 60 + parseInt(m)]; a missing
    second component is [undefined], whose [parseInt] is [NaN]. *)
Definition clockMinutes (t : string) : option Z :=
  match split ":" t with
  | h :: m :: _ =>
      match parseInt h, parseInt m with
      | Some a, Some b => Some (a * 60 + b)
      | _, _ => None
      end
  | _ => None
  end.

(** [Array.prototype.sort] with the comparator [a.startMins - b.startMins]:
    a stable sort by [startMins] (an element goes before the elements after
    it in the array that have the same start). *)
Fixpoint insertByStart (e : DayEvent) (l : list DayEvent) : list DayEvent :=
  match l with
  | [] => [e]
  | x :: l' => if startMins e <=? startMins x then e :: l else x :: insertByStart e l'
  end.

Definition sortByStart (l : list DayEvent) : list DayEvent :=
  foldr insertByStart [] l.

(** [dayEvents] of DashboardView.tsx and part_001: the events of the active
    day with their minute intervals, sorted by start.
<<
    const dayEvents = calendarEvents
      .filter(e => e.date === activeDay.yyyymmdd)
      .map(e => {
        const [h, m] = e.startTime.split(':');
        const [eh, em] = e.endTime.split(':');
        return { ...e,
          startMins: parseInt(h) * 60 + parseInt(m),
          endMins: parseInt(eh) * 60 + parseInt(em) };
      })
      .sort((a, b) => a.startMins - b.startMins);
>>
    [None] when a time string of one of them parses to [NaN] (the order [sort]
    leaves such events in is implementation-defined). *)
Definition eventStartMins (e : CalendarEvent) : option Z := clockMinutes (startTime e).
Definition eventEndMins (e : CalendarEvent) : option Z := clockMinutes (endTime e).

Definition toDayEvent (e : CalendarEvent) : option DayEvent :=
  match eventStartMins e, eventEndMins e with
  | Some s, Some t => Some {| event := e; startMins := s; endMins := t |}
  | _, _ => None
  end.

Definition dayEventsOf (calendarEvents : list CalendarEvent) (yyyymmdd : string)
  : option (list DayEvent) :=
  sortByStart <$>
    mapM toDayEvent (List.filter (fun e => String.eqb (date e) yyyymmdd) calendarEvents).

(** The clock value of the time pickers. *)
Record ClockTime := { hour : string; minute : string; period : string }.

(** ** Object lookups *)

(** How an expression completes: normally with a value, or abruptly with a
    [TypeError] (here: array destructuring of a value that is not iterable). *)
Inductive Completion (A : Type) : Type :=
| Normal (a : A)
| TypeError.

Arguments Normal {A} a.
Arguments TypeError {A}.

(** The member names every object literal inherits from [Object.prototype]:
    for these, [obj[name]] is the inherited member (a function, or the
    prototype itself for [__proto__]), which is truthy and not iterable. *)
Definition objectPrototypeMembers : list string :=
  ["constructor"; "hasOwnProperty"; "isPrototypeOf"; "propertyIsEnumerable";
   "toLocaleString"; "toString"; "valueOf"; "__proto__";
   "__defineGetter__"; "__defineSetter__"; "__lookupGetter__"; "__lookupSetter__"].

Definition inheritedMember (name : string) : bool :=
  existsb (String.eqb name) objectPrototypeMembers.

(** ** Schedule items *)

(** The block kinds of the three versions; ['transition'] belongs to the
    type of part_002 only (no version ever emits it). *)
Inductive ItemType := focus | meeting | break | wellness | lunch | hobby | transition.

Definition ItemType_eqb (a b : ItemType) : bool :=
  match a, b with
  | focus, focus | meeting, meeting | break, break | wellness, wellness
  | lunch, lunch | hobby, hobby | transition, transition => true
  | _, _ => false
  end.

Arguments ItemType_eqb !a !b : simpl nomatch.

(** Exertion blocks, in the words of the glossary: Focus or Meeting. *)
Definition isExertion (t : ItemType) : bool :=
  match t with focus | meeting => true | _ => false end.

Definition sumZ (l : list Z) : Z := foldr Z.add 0 l.

(** The [id] template [`${yyyymmdd}-${type}-${currentTime}`] of
    DashboardView.tsx and part_001, kept as its three interpolated parts. *)
Record ItemId := { id_date : string; id_type : ItemType; id_time : Z }.

Definition eventColors : list string :=
  ["bg-[#A9C5D3]"; "bg-[#FADCD5]"; "bg-[#D9CCE8]"; "bg-[#F5D5B8]"].

(** [isBreakType(t)], applied to [lastType || '']. *)
Definition isBreakType (t : option ItemType) : bool :=
  match t with
  | Some break | Some hobby | Some lunch | Some wellness => true
  | _ => false
  end.

(** * src/components/DashboardView.tsx *)

Module DashboardView.

Record ScheduleItem := {
  id : ItemId;
  type : ItemType;
  label : string;
  startTime : string;        (* HH:mm *)
  duration : Z;              (* in minutes *)
  color : string
}.

(** The minute of day at which a block starts: the value of [currentTime]
    when the block was pushed, which the source records in the [id] (and,
    formatted, in [startTime]). *)
Definition startMinute (it : ScheduleItem) : Z := id_time (id it).

(** The [peakRanges] object literal: its own properties. *)
Definition peakRanges : gmap string (Z * Z) :=
  {[ "Morning"%string := (480, 720);
     "Afternoon"%string := (720, 1020);
     "Evening"%string := (1020, 1260);
     "Late Night"%string := (1260, 1440) ]}.

(** [const [peakStart, peakEnd] = peakRanges[peakWindow] || [480, 720]] *)
Definition peakRange (peakWindow : string) : Completion (Z * Z) :=
  match peakRanges !! peakWindow with
  | Some r => Normal r
  | None => if inheritedMember peakWindow then TypeError else Normal (480, 720)
  end.

(** The mutable variables of the sweep. *)
Record State := {
  items : list ScheduleItem;
  currentTime : Z;
  focusRemaining : Z;
  lastType : option ItemType;
  hasLongBreakAnchor : bool;
  dayEvents : list DayEvent;
  colorIdx : nat
}.

Section Sweep.

Variable yyyymmdd : string.
Variable dayEndMins : Z.
Variables peakStart peakEnd : Z.

(** [addSession(type, label, duration, color?)]
<<
    const addSession = (type, label, duration, color?) => {
      if (duration <= 0) return;
      items.push({
        id: `${activeDay.yyyymmdd}-${type}-${currentTime}`,
        type, label, duration,
        color: color || eventColors[colorIdx++ % eventColors.length],
        startTime: formatTime(currentTime)
      });
      currentTime += duration;
      lastType = type;
    };
>> *)
Definition addSession (st : State) (ty : ItemType) (lbl : string) (dur : Z)
    (col : option string) : State :=
  if dur <=? 0 then st
  else
    {| items := items st ++
         [{| id := {| id_date := yyyymmdd; id_type := ty; id_time := currentTime st |};
             type := ty; label := lbl; duration := dur;
             color := match col with
                      | Some c => c
                      | None => nth (colorIdx st mod 4) eventColors ""
                      end;
             startTime := formatTime (currentTime st) |}];
       currentTime := currentTime st + dur;
       focusRemaining := focusRemaining st;
       lastType := Some ty;
       hasLongBreakAnchor := hasLongBreakAnchor st;
       dayEvents := dayEvents st;
       colorIdx := match col with Some _ => colorIdx st | None => S (colorIdx st) end |}.

Definition setAnchor (st : State) : State :=
  {| items := items st; currentTime := currentTime st;
     focusRemaining := focusRemaining st; lastType := lastType st;
     hasLongBreakAnchor := true; dayEvents := dayEvents st; colorIdx := colorIdx st |}.

(** [dayEvents.shift()] *)
Definition shiftEvents (st : State) : State :=
  {| items := items st; currentTime := currentTime st;
     focusRemaining := focusRemaining st; lastType := lastType st;
     hasLongBreakAnchor := hasLongBreakAnchor st; dayEvents := tail (dayEvents st);
     colorIdx := colorIdx st |}.

Definition setFocusRemaining (st : State) (f : Z) : State :=
  {| items := items st; currentTime := currentTime st;
     focusRemaining := f; lastType := lastType st;
     hasLongBreakAnchor := hasLongBreakAnchor st; dayEvents := dayEvents st;
     colorIdx := colorIdx st |}.

Definition setCurrentTime (st : State) (t : Z) : State :=
  {| items := items st; currentTime := t;
     focusRemaining := focusRemaining st; lastType := lastType st;
     hasLongBreakAnchor := hasLongBreakAnchor st; dayEvents := dayEvents st;
     colorIdx := colorIdx st |}.

(** [dayEvents.find(e => e.startMins >= currentTime)] *)
Definition nextMeetingOf (st : State) : option DayEvent :=
  List.find (fun e => currentTime st <=? startMins e) (dayEvents st).

(** The part of the loop body after the meeting test: fill the gap.
<<
      const gap = nextMeeting ? nextMeeting.startMins - currentTime
                              : dayEndMins - currentTime;
      if (gap > 0) {
        if (lastType === 'focus' || lastType === 'meeting' || !lastType) {
          const breakDur = Math.min(gap >= 45 ? 45 : 15, gap);
          addSession('break', breakDur >= 45 ? 'Wellness Break' : 'Short break', breakDur);
        } else {
          const inPeak = currentTime >= peakStart && currentTime < peakEnd;
          let focusDur = Math.min(inPeak ? 90 : 45, gap);
          if (focusRemaining > 0) {
            focusDur = Math.min(focusDur, focusRemaining);
            addSession('focus', inPeak ? 'Peak Focus Session' : 'Standard Focus',
                       focusDur, 'bg-white');
            focusRemaining -= focusDur;
          } else {
            addSession('hobby', 'Creative Hobby Block', Math.min(gap, 60), 'bg-[#E1EED9]');
          }
        }
      } else {
        if (nextMeeting) { currentTime = nextMeeting.endMins; }
        else { currentTime = dayEndMins; }
      }
>> *)
Definition fillGap (st : State) (nextMeeting : option DayEvent) : State :=
  let gap := match nextMeeting with
             | Some e => startMins e - currentTime st
             | None => dayEndMins - currentTime st
             end in
  if 0 <? gap then
    match lastType st with
    | Some focus | Some meeting | None =>
        let breakDur := Z.min (if 45 <=? gap then 45 else 15) gap in
        addSession st break
          (if 45 <=? breakDur then "Wellness Break" else "Short break") breakDur None
    | _ =>
        let inPeak := (peakStart <=? currentTime st) && (currentTime st <? peakEnd) in
        let focusDur := Z.min (if inPeak then 90 else 45) gap in
        if 0 <? focusRemaining st then
          let focusDur := Z.min focusDur (focusRemaining st) in
          let st' := addSession st focus
                       (if inPeak then "Peak Focus Session" else "Standard Focus")
                       focusDur (Some "bg-white") in
          setFocusRemaining st' (focusRemaining st' - focusDur)
        else
          addSession st hobby "Creative Hobby Block" (Z.min gap 60) (Some "bg-[#E1EED9]")
    end
  else
    match nextMeeting with
    | Some e => setCurrentTime st (endMins e)
    | None => setCurrentTime st dayEndMins
    end.

(** One iteration of the [while] loop.
<<
      if (currentTime >= 780 && currentTime < 840 && !hasLongBreakAnchor) {
        if (!isBreakType(lastType || '')) {
          addSession('break', 'Lunch Break', 60);
          hasLongBreakAnchor = true;
          continue;
        }
      }
      const nextMeeting = dayEvents.find(e => e.startMins >= currentTime);
      if (nextMeeting && nextMeeting.startMins === currentTime) {
        addSession('meeting', nextMeeting.summary, nextMeeting.durationMinutes);
        dayEvents.shift();
        continue;
      }
      (gap filling, see [fillGap])
>> *)
Definition step (st : State) : State :=
  if (780 <=? currentTime st) && (currentTime st <? 840) && negb (hasLongBreakAnchor st)
     && negb (isBreakType (lastType st))
  then setAnchor (addSession st break "Lunch Break" 60 None)
  else
    let nextMeeting := nextMeetingOf st in
    match nextMeeting with
    | Some e =>
        if startMins e =? currentTime st
        then shiftEvents (addSession st meeting (summary (event e))
                            (durationMinutes (event e)) None)
        else fillGap st nextMeeting
    | None => fillGap st nextMeeting
    end.

(** [while (currentTime < dayEndMins) { ... }], with an iteration budget:
    [None] when the budget runs out before the loop condition fails. *)
Fixpoint sweep (fuel : nat) (st : State) : option State :=
  if currentTime st <? dayEndMins then
    match fuel with
    | O => None
    | S fuel' => sweep fuel' (step st)
    end
  else Some st.

(** A budget that always suffices (see [sweep_fuelFor]). *)
Definition fuelFor (st : State) : nat :=
  (Z.to_nat (dayEndMins - currentTime st) + length (dayEvents st)
   + (if hasLongBreakAnchor st then 0 else 1))%nat.

End Sweep.

Definition initial (dayStartMins focusGoal : Z) (evs : list DayEvent) : State :=
  {| items := []; currentTime := dayStartMins; focusRemaining := focusGoal * 60;
     lastType := None; hasLongBreakAnchor := false; dayEvents := evs; colorIdx := 0 |}.

(** The generator on normalised inputs: day boundaries in minutes, the
    sorted events of the day, the focus goal in hours, the peak range.
    [None] when the iteration budget runs out (it never does, see
    [generate_returns]). *)
Definition generate (yyyymmdd : string) (dayStartMins dayEndMins : Z)
    (evs : list DayEvent) (focusGoal : Z) (peak : Z * Z)
  : option (list ScheduleItem) :=
  let st := initial dayStartMins focusGoal evs in
  items <$> sweep yyyymmdd dayEndMins (fst peak) (snd peak) (fuelFor dayEndMins st) st.

(** The [schedule] memo of the component, from its props.  A [NaN] day
    boundary makes the loop condition false: no block is generated.  The
    outer [None] stands for what lies outside the model (a [NaN] event time). *)
Definition schedule (startTime endTime : ClockTime) (focusGoal : Z)
    (peakWindow : string) (calendarEvents : list CalendarEvent) (yyyymmdd : string)
  : option (Completion (list ScheduleItem)) :=
  match dayEventsOf calendarEvents yyyymmdd with
  | None => None
  | Some evs =>
      match peakRange peakWindow with
      | TypeError => Some TypeError
      | Normal peak =>
          match toMinutes (hour startTime) (minute startTime) (period startTime),
                toMinutes (hour endTime) (minute endTime) (period endTime) with
          | Some dayStartMins, Some dayEndMins =>
              Normal <$> generate yyyymmdd dayStartMins dayEndMins evs focusGoal peak
          | _, _ => Some (Normal [])
          end
      end
  end.

End DashboardView.


(** * src/unnamed/part_001: manual adjustment and goal tracker *)

Module Part001.

Record ScheduleItem := {
  id : ItemId;
  type : ItemType;
  label : string;
  startTime : string;        (* HH:mm *)
  duration : Z;              (* in minutes *)
  color : string;
  isNew : bool
}.

Definition startMinute (it : ScheduleItem) : Z := id_time (id it).

(** The [peakRanges] object literal: its own properties. *)
Definition peakRanges : gmap string (Z * Z) :=
  {[ "Morning"%string := (480, 720);
     "Afternoon"%string := (840, 1020);
     "Evening"%string := (1080, 1260);
     "Late Night"%string := (1260, 1440) ]}.

(** [const [peakStart, peakEnd] = peakRanges[peakWindow] || [840, 1020]] *)
Definition peakRange (peakWindow : string) : Completion (Z * Z) :=
  match peakRanges !! peakWindow with
  | Some r => Normal r
  | None => if inheritedMember peakWindow then TypeError else Normal (840, 1020)
  end.

Definition ItemId_eqb (a b : ItemId) : bool :=
  String.eqb (id_date a) (id_date b) && ItemType_eqb (id_type a) (id_type b)
  && (id_time a =? id_time b).

Record State := {
  items : list ScheduleItem;
  currentTime : Z;
  focusRemaining : Z;
  lastType : option ItemType;
  hasLongBreakAnchor : bool;
  dayEvents : list DayEvent;
  colorIdx : nat
}.

Section Sweep.

Variable yyyymmdd : string.
Variable dayEndMins : Z.
Variables peakStart peakEnd : Z.
Variables shortBreak longBreak : Z.
Variables focusGoal currentAdj : Z.
Variable newSessionIds : list ItemId.

(** [addSession(type, label, duration, color?)] *)
Definition addSession (st : State) (ty : ItemType) (lbl : string) (dur : Z)
    (col : option string) : State :=
  if dur <=? 0 then st
  else
    let id0 := {| id_date := yyyymmdd; id_type := ty; id_time := currentTime st |} in
    {| items := items st ++
         [{| id := id0;
             type := ty; label := lbl; duration := dur;
             color := match col with
                      | Some c => c
                      | None => nth (colorIdx st mod 4) eventColors ""
                      end;
             startTime := formatTime (currentTime st);
             isNew := existsb (ItemId_eqb id0) newSessionIds |}];
       currentTime := currentTime st + dur;
       focusRemaining := focusRemaining st;
       lastType := Some ty;
       hasLongBreakAnchor := hasLongBreakAnchor st;
       dayEvents := dayEvents st;
       colorIdx := match col with Some _ => colorIdx st | None => S (colorIdx st) end |}.

Definition setAnchor (st : State) : State :=
  {| items := items st; currentTime := currentTime st;
     focusRemaining := focusRemaining st; lastType := lastType st;
     hasLongBreakAnchor := true; dayEvents := dayEvents st; colorIdx := colorIdx st |}.

Definition shiftEvents (st : State) : State :=
  {| items := items st; currentTime := currentTime st;
     focusRemaining := focusRemaining st; lastType := lastType st;
     hasLongBreakAnchor := hasLongBreakAnchor st; dayEvents := tail (dayEvents st);
     colorIdx := colorIdx st |}.

Definition setFocusRemaining (st : State) (f : Z) : State :=
  {| items := items st; currentTime := currentTime st;
     focusRemaining := f; lastType := lastType st;
     hasLongBreakAnchor := hasLongBreakAnchor st; dayEvents := dayEvents st;
     colorIdx := colorIdx st |}.

Definition setCurrentTime (st : State) (t : Z) : State :=
  {| items := items st; currentTime := t;
     focusRemaining := focusRemaining st; lastType := lastType st;
     hasLongBreakAnchor := hasLongBreakAnchor st; dayEvents := dayEvents st;
     colorIdx := colorIdx st |}.

Definition nextMeetingOf (st : State) : option DayEvent :=
  List.find (fun e => currentTime st <=? startMins e) (dayEvents st).

(** The gap filling of part_001: the short break is a setting, and the cap
    of a Focus block in the peak window depends on the adjustment of the day.
<<
        if (lastType === 'focus' || lastType === 'meeting' || !lastType) {
          const breakDur = Math.min(gap >= 45 ? 45 : shortBreak, gap);
          addSession('break', breakDur >= 45 ? 'Wellness Break' : 'Short break', breakDur);
        } else {
          const inPeak = currentTime >= peakStart && currentTime < peakEnd;
          let focusDur = gap;
          if (inPeak) {
             if (currentAdj > 0) {
               focusDur = Math.min(focusRemaining >= 60 &&
                 (focusGoal + currentAdj - focusGoal) < 1 ? 60 : 45, gap);
             } else {
               focusDur = Math.min(90, gap);
             }
          } else {
             focusDur = Math.min(45, gap);
          }
          if (focusRemaining > 0) {
            focusDur = Math.min(focusDur, focusRemaining);
            const isPeak = inPeak && focusDur >= 45;
            addSession('focus', isPeak ? 'Peak Focus Session' : 'Standard Focus',
                       focusDur, isPeak ? 'bg-[#FADCD5]' : 'bg-white');
            focusRemaining -= focusDur;
          } else {
            addSession('hobby', 'Creative Hobby Block', Math.min(gap, 60), 'bg-[#E1EED9]');
          }
        }
>> *)
Definition fillGap (st : State) (nextMeeting : option DayEvent) : State :=
  let gap := match nextMeeting with
             | Some e => startMins e - currentTime st
             | None => dayEndMins - currentTime st
             end in
  if 0 <? gap then
    match lastType st with
    | Some focus | Some meeting | None =>
        let breakDur := Z.min (if 45 <=? gap then 45 else shortBreak) gap in
        addSession st break
          (if 45 <=? breakDur then "Wellness Break" else "Short break") breakDur None
    | _ =>
        let inPeak := (peakStart <=? currentTime st) && (currentTime st <? peakEnd) in
        let focusDur :=
          if inPeak then
            if 0 <? currentAdj then
              Z.min (if (60 <=? focusRemaining st)
                        && (focusGoal + currentAdj - focusGoal <? 1)
                     then 60 else 45) gap
            else Z.min 90 gap
          else Z.min 45 gap in
        if 0 <? focusRemaining st then
          let focusDur := Z.min focusDur (focusRemaining st) in
          let isPeak := inPeak && (45 <=? focusDur) in
          let st' := addSession st focus
                       (if isPeak then "Peak Focus Session" else "Standard Focus")
                       focusDur (Some (if isPeak then "bg-[#FADCD5]" else "bg-white")) in
          setFocusRemaining st' (focusRemaining st' - focusDur)
        else
          addSession st hobby "Creative Hobby Block" (Z.min gap 60) (Some "bg-[#E1EED9]")
    end
  else
    match nextMeeting with
    | Some e => setCurrentTime st (endMins e)
    | None => setCurrentTime st dayEndMins
    end.

(** One iteration of the loop: as in DashboardView.tsx, with
    [addSession('break', 'Lunch Break', longBreak)] for the lunch anchor. *)
Definition step (st : State) : State :=
  if (780 <=? currentTime st) && (currentTime st <? 840) && negb (hasLongBreakAnchor st)
     && negb (isBreakType (lastType st))
  then setAnchor (addSession st break "Lunch Break" longBreak None)
  else
    let nextMeeting := nextMeetingOf st in
    match nextMeeting with
    | Some e =>
        if startMins e =? currentTime st
        then shiftEvents (addSession st meeting (summary (event e))
                            (durationMinutes (event e)) None)
        else fillGap st nextMeeting
    | None => fillGap st nextMeeting
    end.

Fixpoint sweep (fuel : nat) (st : State) : option State :=
  if currentTime st <? dayEndMins then
    match fuel with
    | O => None
    | S fuel' => sweep fuel' (step st)
    end
  else Some st.

(** A budget that suffices whenever [shortBreak] is positive. *)
Definition fuelFor (st : State) : nat :=
  (Z.to_nat (dayEndMins - currentTime st) + length (dayEvents st)
   + (if hasLongBreakAnchor st then 0 else 1))%nat.

End Sweep.

Definition initial (dayStartMins effectiveFocusGoal : Z) (evs : list DayEvent) : State :=
  {| items := []; currentTime := dayStartMins; focusRemaining := effectiveFocusGoal * 60;
     lastType := None; hasLongBreakAnchor := false; dayEvents := evs; colorIdx := 0 |}.

(** The props and component state [generateSchedule] closes over. *)
Record Props := {
  startTime_ : ClockTime;
  endTime_ : ClockTime;
  focusGoal : Z;
  peakWindow : string;
  shortBreak : Z;
  longBreak : Z;
  calendarEvents : list CalendarEvent;
  manualAdjustment : gmap string Z;
  newSessionIds : list ItemId
}.

(** [manualAdjustment[yyyymmdd] || 0] *)
Definition adjustmentOf (m : gmap string Z) (yyyymmdd : string) : Z :=
  default 0 (m !! yyyymmdd).

(** [focusGoal + currentAdj], the goal (in hours) a day is generated for. *)
Definition effectiveGoal (focusGoal : Z) (m : gmap string Z) (yyyymmdd : string) : Z :=
  focusGoal + adjustmentOf m yyyymmdd.

(** The generator on normalised inputs.  [None] when the iteration budget
    runs out; it suffices whenever [shortBreak] is positive (with a
    [shortBreak] that is not positive the loop of the source can stall: a
    break of no length leaves every variable as it was). *)
Definition generate (yyyymmdd : string) (dayStartMins dayEndMins : Z)
    (evs : list DayEvent) (focusGoal currentAdj : Z) (overrideGoal : option Z)
    (peak : Z * Z) (shortBreak longBreak : Z) (newSessionIds : list ItemId)
  : option (list ScheduleItem) :=
  let effectiveFocusGoal :=
    match overrideGoal with Some g => g | None => focusGoal + currentAdj end in
  let st := initial dayStartMins effectiveFocusGoal evs in
  items <$> sweep yyyymmdd dayEndMins (fst peak) (snd peak) shortBreak longBreak
              focusGoal currentAdj newSessionIds (fuelFor dayEndMins st) st.

(** [generateSchedule(targetDay, overrideGoal?)] *)
Definition generateSchedule (P : Props) (yyyymmdd : string) (overrideGoal : option Z)
  : option (Completion (list ScheduleItem)) :=
  match dayEventsOf (calendarEvents P) yyyymmdd with
  | None => None
  | Some evs =>
      match peakRange (peakWindow P) with
      | TypeError => Some TypeError
      | Normal peak =>
          match toMinutes (hour (startTime_ P)) (minute (startTime_ P))
                  (period (startTime_ P)),
                toMinutes (hour (endTime_ P)) (minute (endTime_ P))
                  (period (endTime_ P)) with
          | Some dayStartMins, Some dayEndMins =>
              Normal <$> generate yyyymmdd dayStartMins dayEndMins evs (focusGoal P)
                           (adjustmentOf (manualAdjustment P) yyyymmdd) overrideGoal
                           peak (shortBreak P) (longBreak P) (newSessionIds P)
          | _, _ => Some (Normal [])
          end
      end
  end.

(** ** Goal tracker *)

Record Stats := { focusMins : Z; breakMins : Z }.

(** [calcForSchedule(s)]: Focus and Meeting minutes against all others.
<<
      s.forEach(item => {
        if (item.type === 'focus' || item.type === 'meeting') {
          focusMins += item.duration;
        } else {
          breakMins += item.duration;
        }
      });
>> *)
Definition calcForSchedule (s : list ScheduleItem) : Stats :=
  fold_left
    (fun acc item =>
       match type item with
       | focus | meeting =>
           {| focusMins := focusMins acc + duration item; breakMins := breakMins acc |}
       | _ =>
           {| focusMins := focusMins acc; breakMins := breakMins acc + duration item |}
       end)
    s {| focusMins := 0; breakMins := 0 |}.

Inductive StatsMode := daily | weekly.

(** The [stats] memo, from the schedule of the active day and the schedules
    [generateSchedule(d)] of the seven [days]. *)
Definition stats (statsMode : StatsMode) (schedule : list ScheduleItem)
    (weekSchedules : list (list ScheduleItem)) : Stats :=
  match statsMode with
  | daily => calcForSchedule schedule
  | weekly =>
      fold_left
        (fun acc s =>
           let c := calcForSchedule s in
           {| focusMins := focusMins acc + focusMins c;
              breakMins := breakMins acc + breakMins c |})
        weekSchedules {| focusMins := 0; breakMins := 0 |}
  end.

Inductive GoalDiff := match_ | under | over.

(** The [goalDiff] memo; [None] is the source's [null].
<<
    if (statsMode !== 'daily') return null;
    const currentMins = stats.focusMins;
    const goalMins = focusGoal * 60;
    const diff = currentMins - goalMins;
    if (Math.abs(diff) < 15) return 'match';
    return diff < 0 ? 'under' : 'over';
>> *)
Definition goalDiff (statsMode : StatsMode) (focusMins focusGoal : Z) : option GoalDiff :=
  match statsMode with
  | weekly => None
  | daily =>
      let currentMins := focusMins in
      let goalMins := focusGoal * 60 in
      let diff := currentMins - goalMins in
      if Z.abs diff <? 15 then Some match_
      else Some (if diff <? 0 then under else over)
  end.

(** The guard of the adjustment banner:
    [statsMode === 'daily' && goalDiff && goalDiff !== 'match']. *)
Definition adjustmentOffered (statsMode : StatsMode) (g : option GoalDiff) : bool :=
  match statsMode, g with
  | daily, Some under | daily, Some over => true
  | _, _ => false
  end.

Inductive Direction := add | reduce.

(** [Math.ceil(n / d)] for integers [n] and positive [d]. *)
Definition ceilDiv (n d : Z) : Z := - ((- n) / d).

(** The signed number of hours [handleAdjustGoal] adds to the entry of the
    active day; [diffHours + 0.5] is [(diffMins + 30) / 60].
<<
    const diffMins = Math.abs(currentMins - goalMins);
    const diffHours = diffMins / 60;
    if (direction === 'add') {
      const adjustment = diffMins < 60 ? 1 : Math.ceil(diffHours + 0.5);
      setManualAdjustment(prev => ({ ...prev,
        [activeDay.yyyymmdd]: (prev[activeDay.yyyymmdd] || 0) + adjustment }));
      ...
    } else {
      const reduction = Math.ceil(diffHours);
      setManualAdjustment(prev => ({ ...prev,
        [activeDay.yyyymmdd]: (prev[activeDay.yyyymmdd] || 0) - reduction }));
    }
>> *)
Definition adjustmentStep (direction : Direction) (focusMins focusGoal : Z) : Z :=
  let currentMins := focusMins in
  let goalMins := focusGoal * 60 in
  let diffMins := Z.abs (currentMins - goalMins) in
  match direction with
  | add => if diffMins <? 60 then 1 else ceilDiv (diffMins + 30) 60
  | reduce => - ceilDiv diffMins 60
  end.

(** [handleAdjustGoal(direction)]: the update of [manualAdjustment].  (The
    deferred highlighting of the first open focus block only touches
    [newSessionIds].) *)
Definition handleAdjustGoal (direction : Direction) (focusMins focusGoal : Z)
    (activeDay : string) (prev : gmap string Z) : gmap string Z :=
  <[activeDay := adjustmentOf prev activeDay + adjustmentStep direction focusMins focusGoal]> prev.

End Part001.

(** * src/unnamed/part_002: hard day limits, anchors, merged rest blocks *)

Module Part002.

Record ScheduleItem := {
  id : string;
  type : ItemType;
  label : string;
  startTime : string;
  startTimeMins : Z;
  duration : Z;
  subLabel : option string;
  color : string;
  stripeColor : string
}.

Record AppSettings := {
  shortBreakDuration : Z;
  hobbyBreakDuration : Z;
  isMuted : bool
}.

(** Hard boundaries. *)
Definition DAY_START_LIMIT : Z := 7 * 60.   (* 7:00 AM *)
Definition DAY_END_LIMIT : Z := 23 * 60.    (* 11:00 PM *)

Definition BREAK_TYPES : list ItemType := [break; lunch; wellness; hobby; transition].

Definition includesType (l : list ItemType) (t : ItemType) : bool :=
  existsb (ItemType_eqb t) l.

(** [formatMinutes(m)]: 12-hour clock with an am/pm suffix. *)
Definition formatMinutes (m : Z) : string :=
  let hours := m / 60 in
  let mins := Z.rem m 60 in
  let p := if 12 <=? hours then "pm" else "am" in
  let hours := if Z.rem hours 12 =? 0 then 12 else Z.rem hours 12 in
  padStart2 (pretty hours) +:+ ":" +:+ padStart2 (pretty mins) +:+ " " +:+ p.

(** [activeDayEvents]: here [endMins] is [startMins + durationMinutes]. *)
Definition toDayEvent (e : CalendarEvent) : option DayEvent :=
  match eventStartMins e with
  | Some s => Some {| event := e; startMins := s; endMins := s + durationMinutes e |}
  | None => None
  end.

Definition activeDayEventsOf (calendarEvents : list CalendarEvent) (yyyymmdd : string)
  : option (list DayEvent) :=
  sortByStart <$>
    mapM toDayEvent (List.filter (fun e => String.eqb (date e) yyyymmdd) calendarEvents).

(** [summary.toLowerCase()] (ASCII letters) and [s.includes(t)]. *)
Definition lowerAscii (c : ascii) : ascii :=
  let n := nat_of_ascii c in
  if (65 <=? n)%nat && (n <=? 90)%nat then ascii_of_nat (n + 32) else c.

Fixpoint toLowerCase (s : string) : string :=
  match s with
  | EmptyString => EmptyString
  | String c s' => String (lowerAscii c) (toLowerCase s')
  end.

Fixpoint includes (s t : string) : bool :=
  String.prefix t s ||
  match s with
  | EmptyString => false
  | String _ s' => includes s' t
  end.

Definition getEventTypeFromSummary (summary : string) : ItemType :=
  let s := toLowerCase summary in
  if includes s "lunch" then lunch
  else if includes s "wellness" || includes s "gym" then wellness
  else if includes s "hobby" then hobby
  else if includes s "break" then break
  else meeting.

(** [getTypeStyles(type)]: (color, stripe). *)
Definition getTypeStyles (t : ItemType) : string * string :=
  match t with
  | focus => ("bg-[#FEF1EE] border-[#FADCD5]", "bg-[#ED6A45]")
  | meeting => ("bg-[#FEF6F0] border-[#FADCD5]", "bg-[#8E6043]")
  | lunch => ("bg-blue-50 border-blue-100", "bg-blue-400")
  | wellness => ("bg-green-50 border-green-100", "bg-green-400")
  | hobby => ("bg-purple-50 border-purple-100", "bg-purple-400")
  | break => ("bg-gray-50 border-gray-100", "bg-gray-200")
  | transition => ("bg-gray-50 border-gray-100", "bg-gray-300")
  end.

(** The [peakRanges] object literal: its own properties. *)
Definition peakRanges : gmap string (Z * Z) :=
  {[ "Morning"%string := (420, 720);         (* 7 AM - 12 PM *)
     "Afternoon"%string := (720, 1020);      (* 12 PM - 5 PM *)
     "Evening"%string := (1020, 1260);       (* 5 PM - 9 PM *)
     "Late Night"%string := (1260, 1380) ]}. (* 9 PM - 11 PM *)

(** [const currentPeak = peakRanges[peakWindow] || [420, 720]]; for an
    inherited member, [currentPeak[0]] and [currentPeak[1]] are [undefined]
    ([None]). *)
Definition currentPeakOf (peakWindow : string) : option (Z * Z) :=
  match peakRanges !! peakWindow with
  | Some r => Some r
  | None => if inheritedMember peakWindow then None else Some (420, 720)
  end.

(** [dayStartMins] and [dayEndMins]: the user's window clamped to the hard
    limits, then widened to the first and last event of the day.
<<
    let dayStartMins = Math.max(DAY_START_LIMIT, userDayStart);
    let dayEndMins = Math.min(DAY_END_LIMIT, userDayEnd);
    if (activeDayEvents.length > 0) {
      dayStartMins = Math.min(dayStartMins,
        Math.max(DAY_START_LIMIT, activeDayEvents[0].startMins));
      dayEndMins = Math.max(dayEndMins,
        Math.min(DAY_END_LIMIT, activeDayEvents[activeDayEvents.length - 1].endMins));
    }
>> *)
Definition dayWindow (userDayStart userDayEnd : Z) (activeDayEvents : list DayEvent)
  : Z * Z :=
  let dayStartMins := Z.max DAY_START_LIMIT userDayStart in
  let dayEndMins := Z.min DAY_END_LIMIT userDayEnd in
  match activeDayEvents, last activeDayEvents with
  | e0 :: _, Some eN =>
      (Z.min dayStartMins (Z.max DAY_START_LIMIT (startMins e0)),
       Z.max dayEndMins (Z.min DAY_END_LIMIT (endMins eN)))
  | _, _ => (dayStartMins, dayEndMins)
  end.

Definition totalMeetingsMinutes (activeDayEvents : list DayEvent) : Z :=
  fold_left (fun acc curr => acc + durationMinutes (event curr))
    (List.filter
       (fun e => ItemType_eqb (getEventTypeFromSummary (summary (event e))) meeting)
       activeDayEvents)
    0.

Record State := {
  items : list ScheduleItem;
  currentTime : Z;
  remainingFocusMinutes : Z;
  hasBreakfastBeenAdded : bool;
  hasLunchBeenAdded : bool
}.

(** [addItem(item)]: no rest block opens the day; a rest block after a rest
    block is merged into it when of the same type and discarded otherwise.
<<
    const addItem = (item: ScheduleItem) => {
      if (items.length === 0) {
        if (['hobby', 'wellness', 'break'].includes(item.type)) { return; }
        items.push(item);
        return;
      }
      const last = items[items.length - 1];
      const isCurrentBreak = BREAK_TYPES.includes(item.type);
      const isLastBreak = BREAK_TYPES.includes(last.type);
      if (isCurrentBreak && isLastBreak) {
        if (item.type === last.type) { last.duration += item.duration; }
      } else {
        items.push(item);
      }
    };
>> *)
Definition addDuration (it : ScheduleItem) (d : Z) : ScheduleItem :=
  {| id := id it; type := type it; label := label it; startTime := startTime it;
     startTimeMins := startTimeMins it; duration := duration it + d;
     subLabel := subLabel it; color := color it; stripeColor := stripeColor it |}.

Definition addItem (items : list ScheduleItem) (item : ScheduleItem)
  : list ScheduleItem :=
  match last items with
  | None =>
      if includesType [hobby; wellness; break] (type item) then items
      else items ++ [item]
  | Some lastItem =>
      let isCurrentBreak := includesType BREAK_TYPES (type item) in
      let isLastBreak := includesType BREAK_TYPES (type lastItem) in
      if isCurrentBreak && isLastBreak then
        if ItemType_eqb (type item) (type lastItem)
        then removelast items ++ [addDuration lastItem (duration item)]
        else items
      else items ++ [item]
  end.

Definition mkItem (i : string) (t : ItemType) (lbl : string) (sub : option string)
    (start : Z) (dur : Z) : ScheduleItem :=
  let styles := getTypeStyles t in
  {| id := i; type := t; label := lbl; subLabel := sub;
     startTime := formatMinutes start; startTimeMins := start; duration := dur;
     color := fst styles; stripeColor := snd styles |}.

Section Sweep.

Variable settings : AppSettings.
Variable activeDayEvents : list DayEvent.
Variables dayStartMins dayEndMins : Z.
Variable currentPeak : option (Z * Z).

(** [currentTime >= currentPeak[0] && currentTime <= currentPeak[1]]; a
    comparison with [undefined] is false. *)
Definition inPeak (t : Z) : bool :=
  match currentPeak with
  | Some (peakStart, peakEnd) => (peakStart <=? t) && (t <=? peakEnd)
  | None => false
  end.

(** [activeDayEvents.find(e => e.startMins <= currentTime && e.endMins > currentTime)] *)
Definition eventAt (t : Z) : option DayEvent :=
  List.find (fun e => (startMins e <=? t) && (t <? endMins e)) activeDayEvents.

Definition isMorningStart : bool := (420 <=? dayStartMins) && (dayStartMins <? 540).

Definition setItemsTime (st : State) (its : list ScheduleItem) (t : Z) : State :=
  {| items := its; currentTime := t;
     remainingFocusMinutes := remainingFocusMinutes st;
     hasBreakfastBeenAdded := hasBreakfastBeenAdded st;
     hasLunchBeenAdded := hasLunchBeenAdded st |}.

(** The gap-filling part of the loop body.
<<
      const gapDuration = gapEnd - currentTime;
      if (gapDuration > 0) {
        const isPeak = currentTime >= currentPeak[0] && currentTime <= currentPeak[1];
        if (remainingFocusMinutes > 0 && gapDuration >= 20) {
          const focusBlock = isPeak
            ? Math.min(90, gapDuration, remainingFocusMinutes)
            : Math.min(45, gapDuration, remainingFocusMinutes);
          addItem({ id: `focus-${currentTime}`, type: 'focus', ...,
                    startTimeMins: currentTime, duration: focusBlock });
          currentTime += focusBlock;
          remainingFocusMinutes -= focusBlock;
          if (currentTime < gapEnd) {
             const wellnessDuration = isPeak ? 15 : 10;
             if (gapEnd - currentTime >= wellnessDuration) {
               addItem({ id: `well-${currentTime}`, type: 'wellness', ...,
                         startTimeMins: currentTime, duration: wellnessDuration });
               currentTime += wellnessDuration;
             }
          }
        } else if (gapDuration > 90 && items.length > 0) {
           addItem({ id: `hobby-${currentTime}`, type: 'hobby', ...,
                     startTimeMins: currentTime, duration: settings.hobbyBreakDuration });
           currentTime += settings.hobbyBreakDuration;
        } else {
          const breakDur = Math.min(gapDuration, settings.shortBreakDuration);
          addItem({ id: `break-${currentTime}`, type: 'break', ...,
                    startTimeMins: currentTime, duration: breakDur });
          currentTime = gapEnd;
        }
      } else {
        currentTime = gapEnd;
      }
>> *)
Definition fillGap (st : State) (gapEnd : Z) : State :=
  let currentTime0 := currentTime st in
  let gapDuration := gapEnd - currentTime0 in
  if 0 <? gapDuration then
    let isPeak := inPeak currentTime0 in
    if (0 <? remainingFocusMinutes st) && (20 <=? gapDuration) then
      let focusBlock :=
        if isPeak then Z.min (Z.min 90 gapDuration) (remainingFocusMinutes st)
        else Z.min (Z.min 45 gapDuration) (remainingFocusMinutes st) in
      let items1 :=
        addItem (items st)
          (mkItem ("focus-" +:+ pretty currentTime0) focus
             (if isPeak then "Peak Window Deep Work" else "Focus Sprint")
             (Some (if isPeak then "High-impact productivity" else "Execution focus"))
             currentTime0 focusBlock) in
      let currentTime1 := currentTime0 + focusBlock in
      let remaining1 := remainingFocusMinutes st - focusBlock in
      let wellnessDuration := if isPeak then 15 else 10 in
      let '(items2, currentTime2) :=
        if (currentTime1 <? gapEnd) && (wellnessDuration <=? gapEnd - currentTime1) then
          (addItem items1
             (mkItem ("well-" +:+ pretty currentTime1) wellness "Wellness Buffer"
                (Some "Hydrate & Context Reset") currentTime1 wellnessDuration),
           currentTime1 + wellnessDuration)
        else (items1, currentTime1) in
      {| items := items2; currentTime := currentTime2;
         remainingFocusMinutes := remaining1;
         hasBreakfastBeenAdded := hasBreakfastBeenAdded st;
         hasLunchBeenAdded := hasLunchBeenAdded st |}
    else if (90 <? gapDuration) && (0 <? length (items st))%nat then
      setItemsTime st
        (addItem (items st)
           (mkItem ("hobby-" +:+ pretty currentTime0) hobby "Creative Hobby Break"
              (Some "Personal exploration") currentTime0 (hobbyBreakDuration settings)))
        (currentTime0 + hobbyBreakDuration settings)
    else
      let breakDur := Z.min gapDuration (shortBreakDuration settings) in
      setItemsTime st
        (addItem (items st)
           (mkItem ("break-" +:+ pretty currentTime0) break "Mental Pivot"
              (Some "Strategic pause") currentTime0 breakDur))
        gapEnd
  else setItemsTime st (items st) gapEnd.

(** One iteration of the loop (after [safety++]).
<<
      if (isMorningStart && !hasBreakfastBeenAdded && currentTime >= 420 && currentTime < 540) {
        const morningMeeting = activeDayEvents.find(
          e => e.startMins <= currentTime && e.endMins > currentTime);
        if (!morningMeeting) {
          addItem({ id: 'breakfast-mandatory', type: 'lunch', ..., duration: 30 });
          currentTime += 30;
          hasBreakfastBeenAdded = true;
          continue;
        }
      }
      if (!hasLunchBeenAdded && currentTime >= 720 && currentTime < 840) {
        const lunchMeeting = activeDayEvents.find(
          e => e.startMins <= currentTime && e.endMins > currentTime);
        if (!lunchMeeting) {
          addItem({ id: 'lunch-auto', type: 'lunch', ..., duration: 45 });
          currentTime += 45;
          hasLunchBeenAdded = true;
          continue;
        }
      }
      const currentEvent = activeDayEvents.find(
        e => e.startMins <= currentTime && e.endMins > currentTime);
      const nextEvent = activeDayEvents.find(e => e.startMins > currentTime);
      if (currentEvent) {
        const type = getEventTypeFromSummary(currentEvent.summary);
        addItem({ id: `event-${currentEvent.startMins}-${currentEvent.summary}`, type,
                  label: currentEvent.summary, startTimeMins: currentEvent.startMins,
                  duration: currentEvent.durationMinutes, ... });
        currentTime = currentEvent.endMins;
        continue;
      }
      const gapEnd = nextEvent ? Math.min(nextEvent.startMins, dayEndMins) : dayEndMins;
      (gap filling, see [fillGap])
>> *)
Definition step (st : State) : State :=
  let t := currentTime st in
  (* 1. Mandatory Breakfast check *)
  if isMorningStart && negb (hasBreakfastBeenAdded st) && (420 <=? t) && (t <? 540)
     && negb (bool_decide (is_Some (eventAt t)))
  then
    {| items := addItem (items st)
                  (mkItem "breakfast-mandatory" lunch "Fuel & Prep: Breakfast"
                     (Some "Nutritional anchor") t 30);
       currentTime := t + 30;
       remainingFocusMinutes := remainingFocusMinutes st;
       hasBreakfastBeenAdded := true;
       hasLunchBeenAdded := hasLunchBeenAdded st |}
  (* 2. Lunch suggestion if not in calendar *)
  else if negb (hasLunchBeenAdded st) && (720 <=? t) && (t <? 840)
          && negb (bool_decide (is_Some (eventAt t)))
  then
    {| items := addItem (items st)
                  (mkItem "lunch-auto" lunch "Lunch Break" (Some "Mid-day reset") t 45);
       currentTime := t + 45;
       remainingFocusMinutes := remainingFocusMinutes st;
       hasBreakfastBeenAdded := hasBreakfastBeenAdded st;
       hasLunchBeenAdded := true |}
  else
    let currentEvent := eventAt t in
    let nextEvent := List.find (fun e => t <? startMins e) activeDayEvents in
    match currentEvent with
    | Some ce =>
        let ty := getEventTypeFromSummary (summary (event ce)) in
        setItemsTime st
          (addItem (items st)
             (mkItem ("event-" +:+ pretty (startMins ce) +:+ "-" +:+ summary (event ce))
                ty (summary (event ce)) None (startMins ce)
                (durationMinutes (event ce))))
          (endMins ce)
    | None =>
        let gapEnd := match nextEvent with
                      | Some ne => Z.min (startMins ne) dayEndMins
                      | None => dayEndMins
                      end in
        fillGap st gapEnd
    end.

(** [while (currentTime < dayEndMins && safety < 150) { safety++; ... }];
    [budget] is [150 - safety]. *)
Fixpoint sweep (budget : nat) (st : State) : State :=
  match budget with
  | O => st
  | S budget' =>
      if currentTime st <? dayEndMins then sweep budget' (step st) else st
  end.

End Sweep.

(** [items.sort((a, b) => a.startTimeMins - b.startTimeMins)] *)
Fixpoint insertItem (x : ScheduleItem) (l : list ScheduleItem) : list ScheduleItem :=
  match l with
  | [] => [x]
  | y :: l' => if startTimeMins x <=? startTimeMins y then x :: l else y :: insertItem x l'
  end.

Definition sortItems (l : list ScheduleItem) : list ScheduleItem := foldr insertItem [] l.

(** The generator on normalised inputs: the user's day boundaries in
    minutes, the sorted events of the day, the goal in hours. *)
Definition generate (settings : AppSettings) (userDayStart userDayEnd : Z)
    (activeDayEvents : list DayEvent) (focusGoal : Z) (peakWindow : string)
  : list ScheduleItem :=
  let '(dayStartMins, dayEndMins) := dayWindow userDayStart userDayEnd activeDayEvents in
  let st :=
    {| items := []; currentTime := dayStartMins;
       remainingFocusMinutes :=
         Z.max 0 (focusGoal * 60 - totalMeetingsMinutes activeDayEvents);
       hasBreakfastBeenAdded := false;
       hasLunchBeenAdded :=
         existsb (fun e => ItemType_eqb (getEventTypeFromSummary (summary (event e))) lunch)
           activeDayEvents |} in
  sortItems
    (items (sweep settings activeDayEvents dayStartMins dayEndMins
              (currentPeakOf peakWindow) 150 st)).

(** The [schedule] memo of the component. *)
Definition schedule (settings : AppSettings) (startTime endTime : ClockTime)
    (focusGoal : Z) (peakWindow : string) (calendarEvents : list CalendarEvent)
    (yyyymmdd : string) : option (list ScheduleItem) :=
  match activeDayEventsOf calendarEvents yyyymmdd with
  | None => None
  | Some evs =>
      match toMinutes (hour startTime) (minute startTime) (period startTime),
            toMinutes (hour endTime) (minute endTime) (period endTime) with
      | Some userDayStart, Some userDayEnd =>
          Some (generate settings userDayStart userDayEnd evs focusGoal peakWindow)
      | _, _ => Some []
      end
  end.

End Part002.

(** * Specification vocabulary *)

(** The minutes the fixed events of a day take, and the free time of a day:
    its span minus the fixed events minus the rest. *)
Definition eventMinutes (evs : list DayEvent) : Z :=
  sumZ (map (fun e => durationMinutes (event e)) evs).


(** Sample inputs for the scenarios worked below. *)
Module Scenario.

Definition day : string := "20260105".

Definition calendarEvent (s : string) (a b : Z) : CalendarEvent :=
  {| summary := s; startTime := formatTime a; endTime := formatTime b;
     durationMinutes := b - a; date := day |}.

Definition dayEvent (s : string) (a b : Z) : DayEvent :=
  {| event := calendarEvent s a b; startMins := a; endMins := b |}.

Definition clock (h m p : string) : ClockTime :=
  {| hour := h; minute := m; period := p |}.

End Scenario.

(** ** Schedules of DashboardView.tsx *)

Module DashboardViewSpec.
Import DashboardView.

(** No gaps and no overlaps between neighbours. *)
Definition contiguous (l : list ScheduleItem) : Prop :=
  forall i a b, l !! i = Some a -> l !! (S i) = Some b ->
    startMinute a + duration a = startMinute b.

Definition strictlyAscending (l : list ScheduleItem) : Prop :=
  forall i j a b, (i < j)%nat -> l !! i = Some a -> l !! j = Some b ->
    startMinute a < startMinute b.

(** Minutes of the blocks of one kind, and of the blocks selected by [f]. *)
Definition minutesWhere (f : ItemType -> bool) (l : list ScheduleItem) : Z :=
  sumZ (map duration (List.filter (fun it => f (type it)) l)).

Definition focusMinutes : list ScheduleItem -> Z := minutesWhere (ItemType_eqb focus).
Definition meetingMinutes : list ScheduleItem -> Z := minutesWhere (ItemType_eqb meeting).
Definition hobbyMinutes : list ScheduleItem -> Z := minutesWhere (ItemType_eqb hobby).

(** Rest blocks, in the words of the glossary: Break, Wellness, Lunch or Hobby. *)
Definition isRest (t : ItemType) : bool :=
  match t with break | wellness | lunch | hobby => true | _ => false end.

Definition restMinutes : list ScheduleItem -> Z := minutesWhere isRest.

(** The rest the policy imposes (breaks and the lunch anchor), as opposed to
    the hobby blocks that fill the time left once the goal is met. *)
Definition isRequiredRest (t : ItemType) : bool :=
  match t with break | wellness | lunch => true | _ => false end.

Definition requiredRestMinutes : list ScheduleItem -> Z := minutesWhere isRequiredRest.

(** The half-open interval of a block lies within the day. *)
Definition withinDay (dayStartMins dayEndMins : Z) (it : ScheduleItem) : Prop :=
  dayStartMins <= startMinute it /\ startMinute it + duration it <= dayEndMins.

(** A block that is the event, verbatim. *)
Definition isMeetingOf (e : DayEvent) (it : ScheduleItem) : Prop :=
  type it = meeting /\ startMinute it = startMins e /\
  startMinute it + duration it = endMins e /\ label it = summary (event e).

(** The input contract of the generator: the events are sorted, they do not
    overlap, each lies within the day with its duration equal to its length. *)
Fixpoint validEventsFrom (t dayEndMins : Z) (evs : list DayEvent) : Prop :=
  match evs with
  | [] => True
  | e :: evs' =>
      t <= startMins e /\ startMins e < endMins e /\ endMins e <= dayEndMins /\
      durationMinutes (event e) = endMins e - startMins e /\
      validEventsFrom (endMins e) dayEndMins evs'
  end.

Definition validInput (dayStartMins dayEndMins : Z) (evs : list DayEvent) : Prop :=
  dayStartMins < dayEndMins /\ validEventsFrom dayStartMins dayEndMins evs.

(** No two consecutive exertion blocks. *)
Definition noConsecutiveExertion (l : list ScheduleItem) : Prop :=
  forall i a b, l !! i = Some a -> l !! (S i) = Some b ->
    isExertion (type a) = true -> isExertion (type b) = false.

(** The (kind, start, duration) of each block. *)
Definition outline (l : list ScheduleItem) : list (ItemType * Z * Z) :=
  map (fun it => (type it, startMinute it, duration it)) l.

(** The appending branch of [addSession]. *)
Definition push (yyyymmdd : string) (st : State) (ty : ItemType) (lbl : string)
    (dur : Z) (col : option string) : State :=
  {| items := items st ++
       [{| id := {| id_date := yyyymmdd; id_type := ty; id_time := currentTime st |};
           type := ty; label := lbl; duration := dur;
           color := match col with
                    | Some c => c
                    | None => nth (colorIdx st mod 4) eventColors ""
                    end;
           startTime := formatTime (currentTime st) |}];
     currentTime := currentTime st + dur;
     focusRemaining := focusRemaining st;
     lastType := Some ty;
     hasLongBreakAnchor := hasLongBreakAnchor st;
     dayEvents := dayEvents st;
     colorIdx := match col with Some _ => colorIdx st | None => S (colorIdx st) end |}.

(** The distance to the next fixed event, or to the end of the day. *)
Definition gapOf (dayEndMins : Z) (st : State) : Z :=
  match nextMeetingOf st with
  | Some e => startMins e - currentTime st
  | None => dayEndMins - currentTime st
  end.

(** [lastType === 'focus' || lastType === 'meeting' || !lastType] *)
Definition afterExertion (t : option ItemType) : bool :=
  match t with Some focus | Some meeting | None => true | _ => false end.

(** The transitions of the sweep, one per live branch of the loop body. *)
Inductive Transition (yyyymmdd : string) (dayEndMins : Z) (st : State) : State -> Prop :=
| T_lunch :
    780 <= currentTime st < 840 ->
    hasLongBreakAnchor st = false ->
    isBreakType (lastType st) = false ->
    Transition yyyymmdd dayEndMins st
      (setAnchor (push yyyymmdd st break "Lunch Break" 60 None))
| T_meeting_void e :
    nextMeetingOf st = Some e -> startMins e = currentTime st ->
    durationMinutes (event e) <= 0 ->
    Transition yyyymmdd dayEndMins st (shiftEvents st)
| T_meeting e :
    nextMeetingOf st = Some e -> startMins e = currentTime st ->
    0 < durationMinutes (event e) ->
    Transition yyyymmdd dayEndMins st
      (shiftEvents (push yyyymmdd st meeting (summary (event e))
                      (durationMinutes (event e)) None))
| T_break d lbl :
    0 < d <= gapOf dayEndMins st ->
    afterExertion (lastType st) = true ->
    Transition yyyymmdd dayEndMins st (push yyyymmdd st break lbl d None)
| T_focus d lbl col :
    0 < d <= gapOf dayEndMins st ->
    d <= focusRemaining st ->
    afterExertion (lastType st) = false ->
    Transition yyyymmdd dayEndMins st
      (setFocusRemaining (push yyyymmdd st focus lbl d col) (focusRemaining st - d))
| T_hobby d :
    0 < d <= gapOf dayEndMins st ->
    focusRemaining st <= 0 ->
    afterExertion (lastType st) = false ->
    Transition yyyymmdd dayEndMins st
      (push yyyymmdd st hobby "Creative Hobby Block" d (Some "bg-[#E1EED9]")).

(** Blocks laid end to end from minute [t], each of positive length. *)
Fixpoint chain (t : Z) (l : list ScheduleItem) : Prop :=
  match l with
  | [] => True
  | x :: l' => startMinute x = t /\ 0 < duration x /\ chain (t + duration x) l'
  end.

Definition totalMinutes (l : list ScheduleItem) : Z := sumZ (map duration l).

(** The kind of the last block, [None] for the empty schedule. *)
Definition lastKind (l : list ScheduleItem) : option ItemType := type <$> last l.

End DashboardViewSpec.

(** ** Invariants of the sweep of DashboardView.tsx *)

Module DashboardViewInv.
Import DashboardView DashboardViewSpec.

(** After a Focus or Meeting block comes a Meeting or a rest block.  *)
Definition exertionThenRestOrMeeting (l : list ScheduleItem) : Prop :=
  forall i a b, l !! i = Some a -> l !! (S i) = Some b ->
    isExertion (type a) = true -> type b = meeting \/ isRest (type b) = true.

(** The kinds this version emits. *)
Definition emittedKind (t : ItemType) : bool :=
  match t with focus | meeting | break | hobby => true | _ => false end.

(** The events still ahead of the cursor. *)
Definition pendingMinutes (t : Z) (evs : list DayEvent) : Z :=
  eventMinutes (List.filter (fun e => t <=? startMins e) evs).

Record Inv (dayStartMins focusGoal : Z) (st : State) : Prop := {
  inv_chain : chain dayStartMins (items st);
  inv_time : currentTime st = dayStartMins + totalMinutes (items st);
  inv_last : lastType st = lastKind (items st);
  inv_focus : focusMinutes (items st) + focusRemaining st = focusGoal * 60;
  inv_remaining : Z.min 0 (focusGoal * 60) <= focusRemaining st;
  inv_hobby : hobbyMinutes (items st) = 0 \/ focusRemaining st <= 0;
  inv_adjacent : exertionThenRestOrMeeting (items st);
  inv_split : totalMinutes (items st) =
              focusMinutes (items st) + meetingMinutes (items st)
              + requiredRestMinutes (items st) + hobbyMinutes (items st);
  inv_kinds : Forall (fun it => emittedKind (type it) = true) (items st)
}.

(** Meeting blocks are paid for by distinct events. *)
Record MeetingInv (evs0 : list DayEvent) (st : State) : Prop := {
  minv_nonneg : Forall (fun e => 0 <= durationMinutes (event e)) (dayEvents st);
  minv_budget : meetingMinutes (items st) + pendingMinutes (currentTime st) (dayEvents st)
                <= eventMinutes evs0
}.

(** The Meeting blocks of a schedule and the events of a day, each as
    (start, duration, summary). *)
Definition meetingBlocks (l : list ScheduleItem) : list (Z * Z * string) :=
  map (fun it => (startMinute it, duration it, label it))
    (List.filter (fun it => ItemType_eqb meeting (type it)) l).

Definition eventBlocks (evs : list DayEvent) : list (Z * Z * string) :=
  map (fun e => (startMins e, durationMinutes (event e), summary (event e))) evs.

(** No event starts where the lunch anchor may lie: the anchor is placed at
    a minute of [780, 840) and lasts 60 minutes. *)
Definition lunchClear (evs : list DayEvent) : Prop :=
  Forall (fun e => startMins e < 780 \/ 900 <= startMins e) evs.

(** The day does not end where the lunch anchor may lie. *)
Definition lunchFits (dayEndMins : Z) : Prop :=
  dayEndMins <= 780 \/ 900 <= dayEndMins.

(** Under the input contract and with the lunch window clear: the events
    behind the cursor are the Meeting blocks, the others are still ahead, and
    (if the lunch anchor fits) no block ends after the day. *)
Record EventInv (evs0 : list DayEvent) (dayEndMins : Z) (st : State) : Prop := {
  einv_done : exists done,
      evs0 = done ++ dayEvents st /\ meetingBlocks (items st) = eventBlocks done;
  einv_ahead : validEventsFrom (currentTime st) dayEndMins (dayEvents st);
  einv_clear : lunchClear (dayEvents st);
  einv_ends : lunchFits dayEndMins ->
              Forall (fun it => startMinute it + duration it <= dayEndMins) (items st)
}.

End DashboardViewInv.

(** ** Schedules of part_001 *)

Module Part001Spec.
Import Part001.

Definition positive (l : list ScheduleItem) : Prop :=
  Forall (fun it => 0 < duration it) l.

End Part001Spec.

(** ** Schedules of part_002 *)

Module Part002Spec.
Import Part002.

Definition positive (l : list ScheduleItem) : Prop :=
  Forall (fun it => 0 < duration it) l.

Definition minutesWhere (f : ItemType -> bool) (l : list ScheduleItem) : Z :=
  sumZ (map duration (List.filter (fun it => f (type it)) l)).

Definition focusMinutes : list ScheduleItem -> Z := minutesWhere (ItemType_eqb focus).

Definition restMinutes : list ScheduleItem -> Z :=
  minutesWhere (fun t => negb (isExertion t)).



Definition outline (l : list ScheduleItem) : list (ItemType * Z * Z) :=
  map (fun it => (type it, startTimeMins it, duration it)) l.

(** The initial settings of the component. *)
Definition defaultSettings : AppSettings :=
  {| shortBreakDuration := 15; hobbyBreakDuration := 45; isMuted := false |}.


(** What the normaliser of this version guarantees of every event. *)
Definition normalised (evs : list DayEvent) : Prop :=
  Forall (fun e => endMins e = startMins e + durationMinutes (event e)) evs.

Definition positiveSettings (s : AppSettings) : Prop :=
  0 < shortBreakDuration s /\ 0 < hobbyBreakDuration s.



End Part002Spec.

(** * Sessions: identifiers, completion, timers *)

(** The string of an [ItemType] in the source. *)
Definition typeName (t : ItemType) : string :=
  match t with
  | focus => "focus" | meeting => "meeting" | break => "break"
  | wellness => "wellness" | lunch => "lunch" | hobby => "hobby"
  | transition => "transition"
  end.

(** The [id] of a block of DashboardView.tsx and part_001, as the string the
    template [`${yyyymmdd}-${type}-${currentTime}`] builds. *)
Definition idString (i : ItemId) : string :=
  id_date i +:+ "-" +:+ typeName (id_type i) +:+ "-" +:+ pretty (id_time i).

(** ** DashboardView.tsx: the set of completed sessions *)

Module DashboardViewSessions.
Import DashboardView.

(** [handleSessionComplete(id)]: completion is a toggle.
<<
    setCompletedSessions(prev => {
      const next = new Set(prev);
      if (next.has(id)) next.delete(id);
      else next.add(id);
      return next;
    });
>> *)
Definition handleSessionComplete (id : string) (prev : gset string) : gset string :=
  if decide (id ∈ prev) then prev ∖ {[ id ]} else prev ∪ {[ id ]}.

(** [const isDone = completedSessions.has(item.id)] *)
Definition isDone (completedSessions : gset string) (item : ScheduleItem) : bool :=
  bool_decide (idString (id item) ∈ completedSessions).

End DashboardViewSessions.

(** ** part_001: completion and auto-play *)

Module Part001Sessions.
Import Part001.

Record Sessions := {
  completedSessions : gset string;
  activeSessionId : option string
}.


(** [schedule.findIndex(item => item.id === id)]; [None] is [-1]. *)
Definition findIndex (schedule : list ScheduleItem) (id : string) : option nat :=
  fst <$> list_find (fun item => idString (Part001.id item) = id) schedule.

(** [handleSessionComplete(id)]: the session is marked done and the session
    after it in the schedule becomes the active one.
<<
    setCompletedSessions(prev => { const next = new Set(prev); next.add(id); return next; });
    const currentIndex = schedule.findIndex(item => item.id === id);
    if (currentIndex !== -1 && currentIndex < schedule.length - 1) {
      setActiveSessionId(schedule[currentIndex + 1].id);
    } else {
      setActiveSessionId(null);
    }
>> *)
Definition handleSessionComplete (schedule : list ScheduleItem) (id : string)
    (s : Sessions) : Sessions :=
  {| completedSessions := completedSessions s ∪ {[ id ]};
     activeSessionId :=
       match findIndex schedule id with
       | Some currentIndex =>
           if (S currentIndex <? length schedule)%nat
           then (fun item => idString (Part001.id item)) <$> schedule !! S currentIndex
           else None
       | None => None
       end |}.


(** [formatHours(mins)] *)
Definition formatHours (mins : Z) : string :=
  let h := mins / 60 in
  let m := Z.rem mins 60 in
  if 0 <? h then pretty h +:+ "h " +:+ pretty m +:+ "m" else pretty m +:+ "m".

End Part001Sessions.

(** ** part_002: the timer of the active block *)

Module Part002Timer.
Import Part002.

Record Player := {
  activeItemIndex : option nat;
  timeLeft : Z;                  (* seconds *)
  isPaused : bool;
  completedIds : gset string
}.

(** The initial state of the component. *)
Definition idle : Player :=
  {| activeItemIndex := None; timeLeft := 0; isPaused := true; completedIds := ∅ |}.

(** The timer effect, run on the state it depends on.  With the timer running
    the interval fires after a second and takes one second off; at zero the
    active block is marked done and the block after it starts, or the timer
    stops after the last block.  [schedule[activeItemIndex]] is [undefined]
    for an index past the end; the updater handed to [setCompletedIds] reads
    its [id], which throws a TypeError when the state update is applied.
<<
    if (!isPaused && timeLeft > 0) {
      timerRef.current = setInterval(() => { setTimeLeft((prev) => prev - 1); }, 1000);
    } else if (timeLeft === 0 && activeItemIndex !== null && !isPaused) {
      playNotificationSound(settings.isMuted);
      const finishedItem = schedule[activeItemIndex];
      setCompletedIds((prev) => new Set(prev).add(finishedItem.id));
      if (activeItemIndex < schedule.length - 1) {
        const nextIndex = activeItemIndex + 1;
        setActiveItemIndex(nextIndex);
        setTimeLeft(schedule[nextIndex].duration * 60);
        setIsPaused(false);
      } else {
        setActiveItemIndex(null);
        setIsPaused(true);
      }
    }
>> *)
Definition effect (schedule : list ScheduleItem) (st : Player) : Completion Player :=
  if negb (isPaused st) && (0 <? timeLeft st) then
    Normal {| activeItemIndex := activeItemIndex st; timeLeft := timeLeft st - 1;
              isPaused := isPaused st; completedIds := completedIds st |}
  else
    match activeItemIndex st with
    | Some i =>
        if (timeLeft st =? 0) && negb (isPaused st) then
          match schedule !! i with
          | None => TypeError
          | Some finishedItem =>
              let done := completedIds st ∪ {[ id finishedItem ]} in
              if (S i <? length schedule)%nat then
                let nextIndex := S i in
                match schedule !! nextIndex with
                | Some nextItem =>
                    Normal {| activeItemIndex := Some nextIndex;
                              timeLeft := duration nextItem * 60;
                              isPaused := false; completedIds := done |}
                | None => TypeError
                end
              else
                Normal {| activeItemIndex := None; timeLeft := timeLeft st;
                          isPaused := true; completedIds := done |}
          end
        else Normal st
    | None => Normal st
    end.

(** [toggleTimer(index)]
<<
    if (activeItemIndex === index) {
      setIsPaused(!isPaused);
    } else {
      setActiveItemIndex(index);
      setTimeLeft(schedule[index].duration * 60);
      setIsPaused(false);
    }
>> *)
Definition toggleTimer (schedule : list ScheduleItem) (index : nat) (st : Player)
  : Completion Player :=
  if bool_decide (activeItemIndex st = Some index) then
    Normal {| activeItemIndex := activeItemIndex st; timeLeft := timeLeft st;
              isPaused := negb (isPaused st); completedIds := completedIds st |}
  else
    match schedule !! index with
    | Some item =>
        Normal {| activeItemIndex := Some index; timeLeft := duration item * 60;
                  isPaused := false; completedIds := completedIds st |}
    | None => TypeError
    end.

(** The effect, [n] times over. *)
Fixpoint run (schedule : list ScheduleItem) (n : nat) (st : Player) : Completion Player :=
  match n with
  | O => Normal st
  | S n' =>
      match effect schedule st with
      | Normal st' => run schedule n' st'
      | TypeError => TypeError
      end
  end.

(** The seconds it takes to play a list of blocks through, one more than its
    length for each block (the effect runs once more at zero). *)
Definition secondsToPlay (l : list ScheduleItem) : nat :=
  foldr (fun it n => (S (Z.to_nat (duration it * 60)) + n)%nat) 0%nat l.

(** [formatTimeLeft(seconds)] *)
Definition formatTimeLeft (seconds : Z) : string :=
  let m := seconds / 60 in
  let s := Z.rem seconds 60 in
  padStart2 (pretty m) +:+ ":" +:+ padStart2 (pretty s).

End Part002Timer.

(** * src/App.tsx: the 12-hour display and the calendar import *)

Module App.

(** [formatTo12h(time24)]: a missing second component is [undefined], which
    the template prints as such; [NaN >= 12] is false and [NaN % 12 || 12]
    is 12.
<<
    const formatTo12h = (time24: string) => {
      const [h, m] = time24.split(':');
      let hours = parseInt(h);
      const period = hours >= 12 ? 'PM' : 'AM';
      hours = hours % 12 || 12;
      return `${String(hours).padStart(2, '0')}:${m} ${period}`;
    };
>> *)
Definition formatTo12h (time24 : string) : string :=
  let parts := split ":" time24 in
  let h := nth 0 parts "undefined" in
  let m := nth 1 parts "undefined" in
  let hours := parseInt h in
  let period :=
    match hours with
    | Some x => if 12 <=? x then "PM" else "AM"
    | None => "AM"
    end in
  let hours :=
    match hours with
    | Some x => if Z.rem x 12 =? 0 then 12 else Z.rem x 12
    | None => 12
    end in
  padStart2 (pretty hours) +:+ ":" +:+ m +:+ " " +:+ period.

(** What [getISTDateParts] returns: the fields of a date in the time zone of
    the application, as strings. *)
Record DateParts := {
  year : string;
  month : string;
  day : string;
  hour : string;
  minute : string;
  yyyymmdd : string
}.

(** The event under construction between [BEGIN:VEVENT] and [END:VEVENT]. *)
Module Pending.
Record t := { summary : string; dtStart : string; dtEnd : string }.
End Pending.

(** [String(n)] of a number that may be [NaN]. *)
Definition numberToString (n : option Z) : string :=
  match n with
  | Some z => pretty z
  | None => "NaN"
  end.

(** The event [parseICS] pushes for a [VEVENT] whose start date was read.
<<
    const startH = startParts.hour;
    const startM = startParts.minute;
    let endH = "23", endM = "59";
    if (endParts) {
      endH = endParts.hour;
      endM = endParts.minute;
    } else {
      const h = (parseInt(startH) + 1) % 24;
      endH = String(h).padStart(2, '0');
      endM = startM;
    }
    const startTotal = parseInt(startH) * 60 + parseInt(startM);
    let endTotal = parseInt(endH) * 60 + parseInt(endM);
    if (endParts && endParts.yyyymmdd !== startParts.yyyymmdd) {
      endTotal += 1440;
    }
    events.push({
      summary: currentEvent.summary,
      startTime: `${startH}:${startM}`,
      endTime: `${endH}:${endM}`,
      durationMinutes: Math.max(0, endTotal - startTotal) || 60,
      date: startParts.yyyymmdd
    });
>>
    Arithmetic on [NaN] gives [NaN], [Math.max(0, NaN)] is [NaN], and
    [NaN || 60] is 60. *)
Definition startTotalOf (startParts : DateParts) : option Z :=
  a ← parseInt (hour startParts); b ← parseInt (minute startParts); Some (a * 60 + b).

Definition endFieldsOf (startParts : DateParts) (endParts : option DateParts)
  : string * string :=
  match endParts with
  | Some ep => (hour ep, minute ep)
  | None =>
      let h := (fun x => Z.rem (x + 1) 24) <$> parseInt (hour startParts) in
      (padStart2 (numberToString h), minute startParts)
  end.

Definition endTotalOf (startParts : DateParts) (endParts : option DateParts) : option Z :=
  let '(endH, endM) := endFieldsOf startParts endParts in
  endTotal ← (a ← parseInt endH; b ← parseInt endM; Some (a * 60 + b));
  match endParts with
  | Some ep =>
      if String.eqb (yyyymmdd ep) (yyyymmdd startParts) then Some endTotal
      else Some (endTotal + 1440)
  | None => Some endTotal
  end.

Definition eventOf (title : string) (startParts : DateParts)
    (endParts : option DateParts) : CalendarEvent :=
  let '(endH, endM) := endFieldsOf startParts endParts in
  {| summary := title;
     startTime := hour startParts +:+ ":" +:+ minute startParts;
     endTime := endH +:+ ":" +:+ endM;
     durationMinutes :=
       match startTotalOf startParts, endTotalOf startParts endParts with
       | Some startTotal, Some endTotal =>
           let d := Z.max 0 (endTotal - startTotal) in
           if d =? 0 then 60 else d
       | _, _ => 60
       end;
     date := yyyymmdd startParts |}.

(** [data.replace(/\r?\n[ \t]/g, '')]: a line break followed by a space or
    a tab is the fold of a long line, and is removed. *)
Definition isCR (c : ascii) : bool := Ascii.eqb c "013".
Definition isLF (c : ascii) : bool := Ascii.eqb c "010".
Definition isFoldBlank (c : ascii) : bool := Ascii.eqb c " " || Ascii.eqb c "009".

Fixpoint unfoldData (data : string) : string :=
  match data with
  | EmptyString => EmptyString
  | String c r =>
      if isCR c then
        match r with
        | String l (String b r') =>
            if isLF l && isFoldBlank b then unfoldData r' else String c (unfoldData r)
        | _ => String c (unfoldData r)
        end
      else if isLF c then
        match r with
        | String b r' => if isFoldBlank b then unfoldData r' else String c (unfoldData r)
        | EmptyString => String c EmptyString
        end
      else String c (unfoldData r)
  end.

(** [unfoldedData.split(/\r?\n/)] *)
Fixpoint splitLinesGo (cur : string) (s : string) : list string :=
  match s with
  | EmptyString => [String.rev cur]
  | String c r =>
      if isCR c then
        match r with
        | String l r' =>
            if isLF l then String.rev cur :: splitLinesGo EmptyString r'
            else splitLinesGo (String c cur) r
        | EmptyString => splitLinesGo (String c cur) r
        end
      else if isLF c then String.rev cur :: splitLinesGo EmptyString r
      else splitLinesGo (String c cur) r
  end.

Definition splitLines (s : string) : list string := splitLinesGo EmptyString s.

(** [s.trim()], for the ASCII white space characters. *)
Definition trim (s : string) : string :=
  String.rev (trimStart (String.rev (trimStart s))).

(** [s.toUpperCase()], for the ASCII letters. *)
Definition upperAscii (c : ascii) : ascii :=
  let n := nat_of_ascii c in
  if (97 <=? n)%nat && (n <=? 122)%nat then ascii_of_nat (n - 32) else c.

Fixpoint toUpperCase (s : string) : string :=
  match s with
  | EmptyString => EmptyString
  | String c s' => String (upperAscii c) (toUpperCase s')
  end.

(** [line.indexOf(c)] with the two [substring]s around it: the text before
    the first [c] and the text after it; [None] is the index [-1]. *)
Fixpoint cut (c : ascii) (line : string) : option (string * string) :=
  match line with
  | EmptyString => None
  | String x r =>
      if Ascii.eqb x c then Some (EmptyString, r)
      else
        match cut c r with
        | Some (a, b) => Some (String x a, b)
        | None => None
        end
  end.

Record Parser := {
  events : list CalendarEvent;
  currentEvent : option Pending.t
}.

Section ParseICS.

(** [parseToISTDate]: the date fields of a [DTSTART] or [DTEND] value in the
    time zone of the application, [None] ([null]) for a value that holds no
    date.  It is built on [Date] and [Intl.DateTimeFormat], which lie outside
    this development: [parseICS] is read for every such function. *)
Variable parseToISTDate : string -> option DateParts.

(** What [END:VEVENT] does with the event under construction. *)
Definition finish (evs : list CalendarEvent) (currentEvent : option Pending.t)
  : list CalendarEvent :=
  match currentEvent with
  | Some ce =>
      if String.eqb (Pending.dtStart ce) "" then evs
      else
        let startParts := parseToISTDate (Pending.dtStart ce) in
        let endParts :=
          if String.eqb (Pending.dtEnd ce) "" then None
          else parseToISTDate (Pending.dtEnd ce) in
        match startParts with
        | Some sp => evs ++ [eventOf (Pending.summary ce) sp endParts]
        | None => evs
        end
  | None => evs
  end.

(** The body of the loop over the lines.
<<
      if (!line.trim()) continue;
      const colonIndex = line.indexOf(':');
      if (colonIndex === -1) continue;
      const keyPart = line.substring(0, colonIndex);
      const value = line.substring(colonIndex + 1).trim();
      const baseKey = keyPart.split(';')[0].toUpperCase();
      if (baseKey === 'BEGIN' && value === 'VEVENT') {
        currentEvent = { summary: 'Unnamed Event', dtStart: '', dtEnd: '' };
      } else if (baseKey === 'END' && value === 'VEVENT') {
        if (currentEvent && currentEvent.dtStart) { ... events.push(...) ... }
        currentEvent = null;
      } else if (currentEvent) {
        if (baseKey === 'SUMMARY') { currentEvent.summary = value; }
        else if (baseKey === 'DTSTART') { currentEvent.dtStart = value; }
        else if (baseKey === 'DTEND') { currentEvent.dtEnd = value; }
      }
>> *)
Definition processLine (st : Parser) (line : string) : Parser :=
  if String.eqb (trim line) "" then st
  else
    match cut ":" line with
    | None => st
    | Some (keyPart, rest) =>
        let value := trim rest in
        let baseKey := toUpperCase (hd EmptyString (split ";" keyPart)) in
        if String.eqb baseKey "BEGIN" && String.eqb value "VEVENT" then
          {| events := events st;
             currentEvent := Some {| Pending.summary := "Unnamed Event";
                                     Pending.dtStart := ""; Pending.dtEnd := "" |} |}
        else if String.eqb baseKey "END" && String.eqb value "VEVENT" then
          {| events := finish (events st) (currentEvent st); currentEvent := None |}
        else
          match currentEvent st with
          | Some ce =>
              if String.eqb baseKey "SUMMARY" then
                {| events := events st;
                   currentEvent := Some {| Pending.summary := value;
                                           Pending.dtStart := Pending.dtStart ce;
                                           Pending.dtEnd := Pending.dtEnd ce |} |}
              else if String.eqb baseKey "DTSTART" then
                {| events := events st;
                   currentEvent := Some {| Pending.summary := Pending.summary ce;
                                           Pending.dtStart := value;
                                           Pending.dtEnd := Pending.dtEnd ce |} |}
              else if String.eqb baseKey "DTEND" then
                {| events := events st;
                   currentEvent := Some {| Pending.summary := Pending.summary ce;
                                           Pending.dtStart := Pending.dtStart ce;
                                           Pending.dtEnd := value |} |}
              else st
          | None => st
          end
    end.

Definition parseLines (lines : list string) : list CalendarEvent :=
  events (fold_left processLine lines {| events := []; currentEvent := None |}).

(** [parseICS(data)] *)
Definition parseICS (data : string) : list CalendarEvent :=
  parseLines (splitLines (unfoldData data)).

End ParseICS.

End App.

(** * Strings of digits *)

Definition isDigit (c : ascii) : bool :=
  let n := nat_of_ascii c in (48 <=? n)%nat && (n <=? 57)%nat.

Fixpoint allDigits (s : string) : bool :=
  match s with
  | EmptyString => true
  | String c s' => isDigit c && allDigits s'
  end.

Fixpoint decimalValue (acc : Z) (s : string) : Z :=
  match s with
  | EmptyString => acc
  | String c s' => decimalValue (acc * 10 + (Z.of_nat (nat_of_ascii c) - 48)) s'
  end.

(** [s] holds no occurrence of the character [c]. *)
Fixpoint lacks (c : ascii) (s : string) : bool :=
  match s with
  | EmptyString => true
  | String x s' => negb (Ascii.eqb x c) && lacks c s'
  end.


(** A field of a date as [Intl.DateTimeFormat] prints it: decimal digits, at
    least one; and the number it stands for. *)
Definition clockField (s : string) : Prop := allDigits s = true /\ s <> EmptyString.

Definition fieldValue (s : string) : Z := decimalValue 0 s.

(** ** Further vocabulary for the schedules of DashboardView.tsx *)

Module DashboardViewBlocks.
Import DashboardView DashboardViewSpec.

(** What [addSession] stamps on a block besides its kind and length. *)
Definition stamped (yyyymmdd : string) (it : ScheduleItem) : Prop :=
  id_date (id it) = yyyymmdd /\ id_type (id it) = type it /\
  startTime it = formatTime (startMinute it).

(** No Focus block comes after a Hobby block. *)
Definition focusBeforeHobby (l : list ScheduleItem) : Prop :=
  forall i j a b, (i < j)%nat -> l !! i = Some a -> l !! j = Some b ->
    type a = hobby -> type b <> focus.

Definition hasHobby (l : list ScheduleItem) : Prop :=
  Exists (fun it => type it = hobby) l.

(** The catalogue of the blocks the sweep places: a Meeting block is an event
    of the day at its start; the lunch anchor is an hour placed at a minute of
    [780, 840); a Wellness Break is 45 minutes, a Short break at most 15; a
    Focus block is at most 90 minutes within the peak window and at most 45
    outside; a Hobby block is at most an hour. *)
Definition catalogued (evs : list DayEvent) (peakStart peakEnd : Z)
    (it : ScheduleItem) : Prop :=
  match type it with
  | meeting =>
      exists e, In e evs /\ startMinute it = startMins e /\
                label it = summary (event e) /\ duration it = durationMinutes (event e)
  | break =>
      (label it = "Lunch Break"%string /\ duration it = 60 /\ 780 <= startMinute it < 840) \/
      (label it = "Wellness Break"%string /\ duration it = 45) \/
      (label it = "Short break"%string /\ 0 < duration it <= 15)
  | focus =>
      (label it = "Peak Focus Session"%string /\ peakStart <= startMinute it < peakEnd /\
       0 < duration it <= 90) \/
      (label it = "Standard Focus"%string /\ ~ (peakStart <= startMinute it < peakEnd) /\
       0 < duration it <= 45)
  | hobby => label it = "Creative Hobby Block"%string /\ 0 < duration it <= 60
  | _ => False
  end.

(** Kept by the sweep: once a Hobby block is placed the focus budget is spent. *)
Definition HobbyInv (st : State) : Prop :=
  focusBeforeHobby (items st) /\ (hasHobby (items st) -> focusRemaining st <= 0).

(** Kept by the sweep: the blocks are catalogued and the events still to
    come are events of the day. *)
Definition CatalogueInv (evs : list DayEvent) (peakStart peakEnd : Z) (st : State) : Prop :=
  Forall (catalogued evs peakStart peakEnd) (items st) /\
  (forall e, In e (dayEvents st) -> In e evs).

End DashboardViewBlocks.

(** ** Further vocabulary for the schedules of part_001 *)

Module Part001Timeline.
Import Part001.

(** Blocks laid end to end from minute [t], each of positive length. *)
Fixpoint chain (t : Z) (l : list ScheduleItem) : Prop :=
  match l with
  | [] => True
  | x :: l' => startMinute x = t /\ 0 < duration x /\ chain (t + duration x) l'
  end.

Definition totalMinutes (l : list ScheduleItem) : Z := sumZ (map duration l).

Definition minutesWhere (f : ItemType -> bool) (l : list ScheduleItem) : Z :=
  sumZ (map duration (List.filter (fun it => f (type it)) l)).

Definition focusMinutes : list ScheduleItem -> Z := minutesWhere (ItemType_eqb focus).
Definition meetingMinutes : list ScheduleItem -> Z := minutesWhere (ItemType_eqb meeting).

Definition contiguous (l : list ScheduleItem) : Prop :=
  forall i a b, l !! i = Some a -> l !! (S i) = Some b ->
    startMinute a + duration a = startMinute b.

Definition strictlyAscending (l : list ScheduleItem) : Prop :=
  forall i j a b, (i < j)%nat -> l !! i = Some a -> l !! j = Some b ->
    startMinute a < startMinute b.

(** What [addSession] stamps on a block besides its kind and length. *)
Definition stamped (yyyymmdd : string) (newSessionIds : list ItemId)
    (it : ScheduleItem) : Prop :=
  id_date (id it) = yyyymmdd /\ id_type (id it) = type it /\
  startTime it = formatTime (startMinute it) /\
  isNew it = existsb (ItemId_eqb (id it)) newSessionIds.

(** The goal, in hours, a day is generated for. *)
Definition goalOf (focusGoal currentAdj : Z) (overrideGoal : option Z) : Z :=
  match overrideGoal with Some g => g | None => focusGoal + currentAdj end.

(** Kept by the sweep. *)
Record Inv (yyyymmdd : string) (newSessionIds : list ItemId) (dayStartMins goal : Z)
    (st : State) : Prop := {
  inv_chain : chain dayStartMins (items st);
  inv_time : currentTime st = dayStartMins + totalMinutes (items st);
  inv_stamped : Forall (stamped yyyymmdd newSessionIds) (items st);
  inv_focus : focusMinutes (items st) + focusRemaining st = goal * 60;
  inv_remaining : Z.min 0 (goal * 60) <= focusRemaining st
}.

End Part001Timeline.

(** ** Further vocabulary for the schedules of part_002 *)

Module Part002Order.
Import Part002.

(** The blocks in the order the sweep places them, before the final sort. *)
Definition sweepItems (settings : AppSettings) (userDayStart userDayEnd : Z)
    (activeDayEvents : list DayEvent) (focusGoal : Z) (peakWindow : string)
  : list ScheduleItem :=
  let '(dayStartMins, dayEndMins) := dayWindow userDayStart userDayEnd activeDayEvents in
  let st :=
    {| items := []; currentTime := dayStartMins;
       remainingFocusMinutes :=
         Z.max 0 (focusGoal * 60 - totalMeetingsMinutes activeDayEvents);
       hasBreakfastBeenAdded := false;
       hasLunchBeenAdded :=
         existsb (fun e => ItemType_eqb (getEventTypeFromSummary (summary (event e))) lunch)
           activeDayEvents |} in
  items (sweep settings activeDayEvents dayStartMins dayEndMins
           (currentPeakOf peakWindow) 150 st).

(** Ascending by start, neighbours compared. *)
Definition ascending (l : list ScheduleItem) : Prop :=
  Sorted Z.le (map startTimeMins l).

(** The events as the normaliser leaves them: ascending by start. *)
Definition sortedEvents (evs : list DayEvent) : Prop :=
  StronglySorted (fun a b => startMins a <= startMins b) evs.

(** [BREAK_TYPES.includes(item.type)] *)
Definition isBreak (it : ScheduleItem) : bool := includesType BREAK_TYPES (type it).

(** No two neighbours are both rest blocks. *)
Definition noAdjacentRest (l : list ScheduleItem) : Prop :=
  forall i a b, l !! i = Some a -> l !! (S i) = Some b ->
    ~ (isBreak a = true /\ isBreak b = true).

(** The day does not open with a Hobby, Wellness or Break block. *)
Definition startsWithWork (l : list ScheduleItem) : Prop :=
  match l with
  | [] => True
  | x :: _ => includesType [hobby; wellness; break] (type x) = false
  end.

(** Kept by the sweep when the events are sorted: the blocks are in order,
    none starts after the cursor, and none starts after an event that is not
    over yet. *)
Record OrderInv (evs : list DayEvent) (st : State) : Prop := {
  oinv_sorted : ascending (items st);
  oinv_behind : Forall (fun it => startTimeMins it <= currentTime st) (items st);
  oinv_events : forall e, In e evs -> currentTime st < endMins e ->
                  Forall (fun it => startTimeMins it <= startMins e) (items st)
}.

(** Kept by [addItem]. *)
Definition MergeInv (l : list ScheduleItem) : Prop :=
  noAdjacentRest l /\ startsWithWork l.

End Part002Order.

(** ** Sample inputs for the import and the timer *)

Module Instances.

(** A start at 09:30 and an end at 10:15 of the same day, as the date
    conversion returns them. *)
Definition at0930 : App.DateParts :=
  {| App.year := "2026"; App.month := "01"; App.day := "05";
     App.hour := "09"; App.minute := "30"; App.yyyymmdd := Scenario.day |}.

Definition at1015 : App.DateParts :=
  {| App.year := "2026"; App.month := "01"; App.day := "05";
     App.hour := "10"; App.minute := "15"; App.yyyymmdd := Scenario.day |}.

Definition at2330 : App.DateParts :=
  {| App.year := "2026"; App.month := "01"; App.day := "05";
     App.hour := "23"; App.minute := "30"; App.yyyymmdd := Scenario.day |}.


(** Two blocks of part_002: a minute of focus and a minute of rest. *)
Definition twoBlocks : list Part002.ScheduleItem :=
  [ Part002.mkItem "focus-480" focus "Focus Block" None 480 1;
    Part002.mkItem "break-481" break "Short Break" None 481 1 ].

End Instances.

(** * Facts about DashboardView.tsx *)

Lemma sumZ_app l1 l2 : sumZ (l1 ++ l2) = sumZ l1 + sumZ l2.
Proof. induction l1 as [|x l1 IH]; simpl; [reflexivity | rewrite IH; lia]. Qed.

Lemma ItemType_eqb_eq a b : ItemType_eqb a b = true <-> a = b.
Proof. destruct a, b; simpl; split; intros H; congruence. Qed.

Module DashboardViewFacts.
Import DashboardView DashboardViewSpec DashboardViewInv.

(** Lists of blocks. *)
Lemma totalMinutes_app l1 l2 :
  totalMinutes (l1 ++ l2) = totalMinutes l1 + totalMinutes l2.
Proof. unfold totalMinutes. rewrite map_app. apply sumZ_app. Qed.

Lemma minutesWhere_snoc f l x :
  minutesWhere f (l ++ [x]) =
  minutesWhere f l + (if f (type x) then duration x else 0).
Proof.
  unfold minutesWhere. rewrite List.filter_app, map_app, sumZ_app. simpl.
  destruct (f (type x)); simpl; lia.
Qed.

Lemma chain_app t l1 l2 :
  chain t (l1 ++ l2) <-> chain t l1 /\ chain (t + totalMinutes l1) l2.
Proof.
  revert t. induction l1 as [|x l1 IH]; intros t; simpl.
  - unfold totalMinutes; simpl. rewrite Z.add_0_r. tauto.
  - rewrite IH. unfold totalMinutes; simpl.
    replace (t + duration x + sumZ (map duration l1))
      with (t + (duration x + sumZ (map duration l1))) by lia.
    tauto.
Qed.

Lemma chain_snoc t l x :
  chain t l -> startMinute x = t + totalMinutes l -> 0 < duration x ->
  chain t (l ++ [x]).
Proof. intros. apply chain_app. simpl. auto. Qed.

Lemma chain_positive t l : chain t l -> Forall (fun it => 0 < duration it) l.
Proof.
  revert t. induction l as [|x l IH]; intros t; simpl; [constructor|].
  intros (_ & Hd & Hc). constructor; eauto.
Qed.

Lemma chain_lower t l : chain t l -> Forall (fun it => t <= startMinute it) l.
Proof.
  revert t. induction l as [|x l IH]; intros t; simpl; [constructor|].
  intros (Hs & Hd & Hc). constructor; [lia|].
  eapply Forall_impl; [apply (IH _ Hc)|]. simpl. intros; lia.
Qed.

Lemma chain_contiguous t l : chain t l -> contiguous l.
Proof.
  revert t. induction l as [|x l IH]; intros t Hc i a b Ha Hb.
  - discriminate.
  - simpl in Hc. destruct Hc as (Hs & Hd & Hc). destruct i as [|i]; simpl in Ha, Hb.
    + injection Ha as <-. destruct l as [|y l]; [discriminate|].
      simpl in Hb. injection Hb as <-. simpl in Hc. lia.
    + eapply IH; eauto.
Qed.

Lemma chain_ascending t l : chain t l -> strictlyAscending l.
Proof.
  revert t. induction l as [|x l IH]; intros t Hc i j a b Hij Ha Hb.
  - discriminate.
  - simpl in Hc. destruct Hc as (Hs & Hd & Hc).
    destruct j as [|j]; [lia|]. simpl in Hb. destruct i as [|i]; simpl in Ha.
    + injection Ha as <-.
      pose proof (chain_lower _ _ Hc) as Hl.
      rewrite Forall_forall in Hl.
      assert (Hin : b ∈ l) by (eapply list_elem_of_lookup_2; eauto).
      specialize (Hl b Hin). simpl in Hl. lia.
    + eapply (IH _ Hc i j); eauto. lia.
Qed.

(** A property of neighbours extends to a list with one more block when it
    holds between the last block and the new one. *)
Lemma lookup_snoc_pair {A} (l : list A) x i a b :
  (l ++ [x]) !! i = Some a -> (l ++ [x]) !! (S i) = Some b ->
  (l !! i = Some a /\ l !! (S i) = Some b) \/ (last l = Some a /\ b = x).
Proof.
  intros Ha Hb.
  destruct (decide (S i < length l)%nat) as [Hlt|Hge].
  - left. rewrite lookup_app_l in Ha by lia. rewrite lookup_app_l in Hb by lia. auto.
  - right. assert (Hi : S i = length l).
    { apply lookup_lt_Some in Hb. rewrite length_app in Hb. simpl in Hb. lia. }
    rewrite lookup_app_l in Ha by lia.
    rewrite lookup_app_r in Hb by lia. rewrite Hi, Nat.sub_diag in Hb. simpl in Hb.
    injection Hb as <-. split; [|reflexivity].
    rewrite last_lookup. rewrite <- Hi. simpl. exact Ha.
Qed.



Lemma pendingMinutes_le_all t evs :
  Forall (fun e => 0 <= durationMinutes (event e)) evs ->
  pendingMinutes t evs <= eventMinutes evs.
Proof.
  unfold pendingMinutes, eventMinutes.
  induction 1 as [|e evs He _ IH]; simpl; [lia|].
  destruct (t <=? startMins e); simpl; lia.
Qed.

Lemma pendingMinutes_mono t t' evs :
  t <= t' -> Forall (fun e => 0 <= durationMinutes (event e)) evs ->
  pendingMinutes t' evs <= pendingMinutes t evs.
Proof.
  intros Ht. unfold pendingMinutes, eventMinutes.
  induction 1 as [|e evs He _ IH]; simpl; [lia|].
  destruct (Z.leb_spec t' (startMins e)); destruct (Z.leb_spec t (startMins e)); simpl;
    lia.
Qed.

Lemma pendingMinutes_tail t evs :
  Forall (fun e => 0 <= durationMinutes (event e)) evs ->
  pendingMinutes t (tail evs) <= pendingMinutes t evs.
Proof.
  intros H. destruct H as [|e evs He H]; simpl; [lia|].
  unfold pendingMinutes, eventMinutes. simpl.
  destruct (t <=? startMins e); simpl; lia.
Qed.

Lemma pendingMinutes_passed t t' e evs :
  In e evs -> t <= startMins e < t' ->
  Forall (fun e => 0 <= durationMinutes (event e)) evs ->
  pendingMinutes t' evs + durationMinutes (event e) <= pendingMinutes t evs.
Proof.
  intros Hin Hte H. induction H as [|x evs Hx H IH]; [destruct Hin|].
  unfold pendingMinutes, eventMinutes in *. simpl.
  destruct Hin as [->|Hin].
  - assert (Hm := pendingMinutes_mono t t' evs ltac:(lia) H).
    unfold pendingMinutes, eventMinutes in Hm.
    destruct (Z.leb_spec t' (startMins e)); destruct (Z.leb_spec t (startMins e));
      simpl; lia.
  - specialize (IH Hin).
    destruct (Z.leb_spec t' (startMins x)); destruct (Z.leb_spec t (startMins x));
      simpl; lia.
Qed.

Lemma Forall_tail {A} (P : A -> Prop) l : Forall P l -> Forall P (tail l).
Proof. intros H. destruct H; simpl; [constructor | assumption]. Qed.

Section Sweep.

Variable yyyymmdd : string.
Variable dayEndMins : Z.
Variables peakStart peakEnd : Z.

Local Abbreviation addSession := (addSession yyyymmdd).
Local Abbreviation push := (push yyyymmdd).
Local Abbreviation fillGap := (fillGap yyyymmdd dayEndMins peakStart peakEnd).
Local Abbreviation step := (step yyyymmdd dayEndMins peakStart peakEnd).
Local Abbreviation sweep := (sweep yyyymmdd dayEndMins peakStart peakEnd).
Local Abbreviation Transition := (Transition yyyymmdd dayEndMins).

Lemma addSession_pos st ty lbl d col :
  0 < d -> addSession st ty lbl d col = push st ty lbl d col.
Proof.
  intros Hd. unfold addSession, DashboardViewSpec.push.
  destruct (d <=? 0) eqn:E; [apply Z.leb_le in E; lia | reflexivity].
Qed.

Lemma addSession_nonpos st ty lbl d col :
  d <= 0 -> addSession st ty lbl d col = st.
Proof.
  intros Hd. unfold addSession.
  destruct (d <=? 0) eqn:E; [reflexivity | apply Z.leb_gt in E; lia].
Qed.

Lemma nextMeetingOf_Some st e :
  nextMeetingOf st = Some e -> In e (dayEvents st) /\ currentTime st <= startMins e.
Proof.
  unfold nextMeetingOf. intros H. apply find_some in H as [H1 H2].
  split; [exact H1 | lia].
Qed.

(** Every iteration of the loop takes one of the transitions: the branch
    for an empty gap is never reached. *)
Lemma fillGap_Transition st :
  currentTime st < dayEndMins ->
  (forall e, nextMeetingOf st = Some e -> startMins e <> currentTime st) ->
  Transition st (fillGap st (nextMeetingOf st)).
Proof.
  intros Hlt Hne.
  assert (Hgap : 0 < gapOf dayEndMins st).
  { unfold gapOf. destruct (nextMeetingOf st) as [e|] eqn:E; [|lia].
    pose proof (nextMeetingOf_Some _ _ E) as [_ Hle].
    specialize (Hne e eq_refl). lia. }
  unfold DashboardView.fillGap.
  change (match nextMeetingOf st with
          | Some e => startMins e - currentTime st
          | None => dayEndMins - currentTime st
          end) with (gapOf dayEndMins st).
  set (gap := gapOf dayEndMins st) in *.
  destruct (0 <? gap) eqn:Eg; [|apply Z.ltb_ge in Eg; lia].
  destruct (afterExertion (lastType st)) eqn:Eex.
  - assert (Hb : forall lbl d, 0 < d <= gap ->
               Transition st (addSession st break lbl d None)).
    { intros lbl d Hd. rewrite addSession_pos by lia.
      apply T_break; [exact Hd | exact Eex]. }
    destruct (lastType st) as [[]|]; simpl in Eex; try discriminate;
      apply Hb; destruct (45 <=? gap) eqn:E45;
      try apply Z.leb_le in E45; try apply Z.leb_gt in E45; lia.
  - assert (Hf : Transition st
        (if 0 <? focusRemaining st
         then
           let focusDur :=
             Z.min (Z.min (if (peakStart <=? currentTime st) && (currentTime st <? peakEnd)
                           then 90 else 45) gap) (focusRemaining st) in
           let st' := addSession st focus
               (if (peakStart <=? currentTime st) && (currentTime st <? peakEnd)
                then "Peak Focus Session" else "Standard Focus")
               focusDur (Some "bg-white") in
           setFocusRemaining st' (focusRemaining st' - focusDur)
         else addSession st hobby "Creative Hobby Block" (Z.min gap 60)
                (Some "bg-[#E1EED9]"))).
    { destruct (0 <? focusRemaining st) eqn:Ef.
      - apply Z.ltb_lt in Ef. cbv zeta.
        set (d := Z.min _ (focusRemaining st)).
        assert (Hd : 0 < d <= gap /\ d <= focusRemaining st).
        { subst d. destruct (_ && _); lia. }
        rewrite addSession_pos by lia.
        change (focusRemaining (push st focus _ d (Some "bg-white")))
          with (focusRemaining st).
        apply T_focus; [tauto | tauto | exact Eex].
      - apply Z.ltb_ge in Ef. rewrite addSession_pos by lia.
        apply T_hobby; [lia | exact Ef | exact Eex]. }
    destruct (lastType st) as [[]|]; simpl in Eex; try discriminate; exact Hf.
Qed.

Lemma step_Transition st :
  currentTime st < dayEndMins -> Transition st (step st).
Proof.
  intros Hlt. unfold DashboardView.step.
  destruct ((780 <=? currentTime st) && (currentTime st <? 840)
            && negb (hasLongBreakAnchor st) && negb (isBreakType (lastType st))) eqn:E.
  - repeat (apply andb_prop in E as [E ?]).
    rewrite addSession_pos by lia.
    apply T_lunch;
      [ apply Z.leb_le in E; apply Z.ltb_lt in H1; lia
      | destruct (hasLongBreakAnchor st); [discriminate | reflexivity]
      | destruct (isBreakType (lastType st)); [discriminate | reflexivity] ].
  - cbv zeta. destruct (nextMeetingOf st) as [e|] eqn:En.
    + destruct (startMins e =? currentTime st) eqn:Ee.
      * apply Z.eqb_eq in Ee.
        destruct (Z_lt_le_dec 0 (durationMinutes (event e))) as [Hd|Hd].
        -- rewrite addSession_pos by exact Hd. eapply T_meeting; eauto.
        -- rewrite addSession_nonpos by exact Hd. eapply T_meeting_void; eauto.
      * apply Z.eqb_neq in Ee. rewrite <- En. apply fillGap_Transition; [exact Hlt|].
        intros e' He'. rewrite En in He'. injection He' as <-. exact Ee.
    + rewrite <- En. apply fillGap_Transition; [exact Hlt|].
      intros e' He'. rewrite En in He'. discriminate.
Qed.

(** Termination: each transition lowers the budget [fuelFor]. *)
Lemma nextMeetingOf_length st e :
  nextMeetingOf st = Some e -> (0 < length (dayEvents st))%nat.
Proof.
  intros H. apply nextMeetingOf_Some in H as [H _].
  destruct (dayEvents st); [destruct H | simpl; lia].
Qed.

Lemma length_tail {A} (l : list A) : length (tail l) = (length l - 1)%nat.
Proof. destruct l; simpl; lia. Qed.

Lemma Transition_fuel st st' :
  currentTime st < dayEndMins -> Transition st st' ->
  (fuelFor dayEndMins st' < fuelFor dayEndMins st)%nat.
Proof.
  intros Hlt T. unfold fuelFor.
  destruct T as [Hc Ha Hb | e He Hs Hd | e He Hs Hd | d lbl Hd Hx
                | d lbl col Hd Hr Hx | d Hd Hr Hx]; simpl.
  - rewrite Ha. lia.
  - apply nextMeetingOf_length in He. rewrite length_tail. lia.
  - apply nextMeetingOf_length in He. rewrite length_tail. lia.
  - lia.
  - lia.
  - lia.
Qed.

Lemma sweep_fuel fuel : forall st,
  (fuelFor dayEndMins st <= fuel)%nat -> exists st', sweep fuel st = Some st'.
Proof.
  induction fuel as [|fuel IH]; intros st Hf; simpl.
  - destruct (currentTime st <? dayEndMins) eqn:E; [|eauto].
    apply Z.ltb_lt in E. unfold fuelFor in Hf. lia.
  - destruct (currentTime st <? dayEndMins) eqn:E; [|eauto].
    apply Z.ltb_lt in E. apply IH.
    pose proof (Transition_fuel st _ E (step_Transition st E)). lia.
Qed.

(** Invariants: what holds initially and is kept by every transition taken
    before the end of the day holds when the loop exits. *)
Lemma sweep_invariant (P : State -> Prop) :
  (forall st st', P st -> currentTime st < dayEndMins -> Transition st st' -> P st') ->
  forall fuel st st', P st -> sweep fuel st = Some st' ->
    P st' /\ dayEndMins <= currentTime st'.
Proof.
  intros Hstep. induction fuel as [|fuel IH]; intros st st' HP; simpl;
    destruct (currentTime st <? dayEndMins) eqn:E.
  - discriminate.
  - intros [= <-]. apply Z.ltb_ge in E. auto.
  - apply Z.ltb_lt in E. apply IH.
    eapply Hstep; [exact HP | exact E | apply step_Transition; exact E].
  - intros [= <-]. apply Z.ltb_ge in E. auto.
Qed.

(** The invariant holds initially and every transition keeps it. *)
Lemma Inv_initial dayStartMins focusGoal evs :
  Inv dayStartMins focusGoal (initial dayStartMins focusGoal evs).
Proof.
  constructor; simpl;
    unfold totalMinutes, focusMinutes, meetingMinutes, requiredRestMinutes,
      hobbyMinutes, minutesWhere; simpl;
    first [ exact I | reflexivity | lia | left; reflexivity | apply Forall_nil | idtac ].
  intros i a b Ha. discriminate.
Qed.

Lemma adjacent_snoc l x :
  exertionThenRestOrMeeting l ->
  (afterExertion (lastKind l) = true -> type x = meeting \/ isRest (type x) = true) ->
  exertionThenRestOrMeeting (l ++ [x]).
Proof.
  intros Hl Hx i a b Ha Hb Hex.
  destruct (lookup_snoc_pair _ _ _ _ _ Ha Hb) as [[Ha' Hb'] | [Hlast ->]].
  - exact (Hl i a b Ha' Hb' Hex).
  - apply Hx. unfold lastKind. rewrite Hlast. simpl.
    destruct (type a); simpl in Hex; try discriminate Hex; reflexivity.
Qed.

Lemma lastKind_snoc l x : lastKind (l ++ [x]) = Some (type x).
Proof. unfold lastKind. rewrite last_snoc. reflexivity. Qed.

Lemma Inv_push dayStartMins focusGoal st ty lbl d col rem :
  Inv dayStartMins focusGoal st ->
  0 < d ->
  (afterExertion (lastType st) = true -> ty = meeting \/ isRest ty = true) ->
  emittedKind ty = true ->
  rem = (if ItemType_eqb focus ty then focusRemaining st - d else focusRemaining st) ->
  (ty = focus -> d <= focusRemaining st) ->
  (ty = hobby -> focusRemaining st <= 0) ->
  Inv dayStartMins focusGoal (setFocusRemaining (push st ty lbl d col) rem).
Proof.
  intros [Hc Ht Hl Hf Hr Hh Ha Hs Hk] Hd Hadj Hty -> Hfo Hho.
  constructor; simpl.
  - apply chain_snoc; [exact Hc | unfold startMinute; simpl; lia | exact Hd].
  - rewrite totalMinutes_app. unfold totalMinutes at 2; simpl. lia.
  - symmetry. apply lastKind_snoc.
  - unfold focusMinutes in *. rewrite minutesWhere_snoc. simpl.
    destruct ty; simpl; lia.
  - destruct ty; simpl; try exact Hr. specialize (Hfo eq_refl). lia.
  - unfold hobbyMinutes in *. rewrite minutesWhere_snoc. simpl.
    destruct ty; simpl; try (destruct Hh; [left|right]; lia).
    right. auto.
  - apply adjacent_snoc; [exact Ha|]. simpl. rewrite <- Hl. exact Hadj.
  - unfold focusMinutes, meetingMinutes, requiredRestMinutes, hobbyMinutes in *.
    rewrite totalMinutes_app, !minutesWhere_snoc. unfold totalMinutes at 2. simpl.
    destruct ty; simpl; try lia; discriminate Hty.
  - apply Forall_app. split; [exact Hk|]. constructor; [exact Hty | constructor].
Qed.


Lemma setFocusRemaining_id st : setFocusRemaining st (focusRemaining st) = st.
Proof. destruct st; reflexivity. Qed.

Lemma Inv_ext dayStartMins focusGoal st1 st2 :
  items st2 = items st1 -> currentTime st2 = currentTime st1 ->
  lastType st2 = lastType st1 -> focusRemaining st2 = focusRemaining st1 ->
  Inv dayStartMins focusGoal st1 -> Inv dayStartMins focusGoal st2.
Proof.
  intros E1 E2 E3 E4 [? ? ? ? ? ? ? ? ?].
  constructor; rewrite ?E1, ?E2, ?E3, ?E4; assumption.
Qed.

Lemma Inv_push_same dayStartMins focusGoal st ty lbl d col :
  Inv dayStartMins focusGoal st ->
  0 < d ->
  (afterExertion (lastType st) = true -> ty = meeting \/ isRest ty = true) ->
  ty = meeting \/ ty = break \/ (ty = hobby /\ focusRemaining st <= 0) ->
  Inv dayStartMins focusGoal (push st ty lbl d col).
Proof.
  intros HI Hd Hadj Hty.
  rewrite <- (setFocusRemaining_id (push st ty lbl d col)).
  apply Inv_push; try assumption.
  - destruct Hty as [->|[->|[-> _]]]; reflexivity.
  - destruct Hty as [->|[->|[-> _]]]; reflexivity.
  - destruct Hty as [->|[->|[-> _]]]; discriminate.
  - destruct Hty as [->|[->|[-> H]]]; try discriminate. auto.
Qed.

Lemma Inv_Transition dayStartMins focusGoal st st' :
  Inv dayStartMins focusGoal st -> Transition st st' -> Inv dayStartMins focusGoal st'.
Proof.
  intros HI T.
  destruct T as [Hc Ha Hb | e He Hs Hd | e He Hs Hd | d lbl Hd Hx
                | d lbl col Hd Hr Hx | d Hd Hr Hx].
  - apply (Inv_ext _ _ (push st break "Lunch Break" 60 None)); try reflexivity.
    apply Inv_push_same; [exact HI | lia | simpl; auto | auto].
  - apply (Inv_ext _ _ st); try reflexivity. exact HI.
  - apply (Inv_ext _ _ (push st meeting (summary (event e))
                          (durationMinutes (event e)) None)); try reflexivity.
    apply Inv_push_same; [exact HI | lia | simpl; auto | auto].
  - apply Inv_push_same; [exact HI | lia | simpl; auto | auto].
  - apply Inv_push;
      [ exact HI | lia | intros Hae; rewrite Hae in Hx; discriminate Hx
      | reflexivity | reflexivity | intros _; lia | discriminate ].
  - apply Inv_push_same; [exact HI | lia | simpl; auto | auto].
Qed.

Lemma sweep_Inv dayStartMins focusGoal fuel st st' :
  Inv dayStartMins focusGoal st -> sweep fuel st = Some st' ->
  Inv dayStartMins focusGoal st' /\ dayEndMins <= currentTime st'.
Proof.
  apply (sweep_invariant (Inv dayStartMins focusGoal)).
  intros s s' HI _ T. eapply Inv_Transition; eauto.
Qed.

(** Meeting blocks never outweigh the events of the day. *)
Lemma MeetingInv_initial dayStartMins focusGoal evs :
  Forall (fun e => 0 <= durationMinutes (event e)) evs ->
  MeetingInv evs (initial dayStartMins focusGoal evs).
Proof.
  intros H. constructor; simpl; [exact H|].
  pose proof (pendingMinutes_le_all dayStartMins evs H).
  unfold meetingMinutes, minutesWhere; simpl. lia.
Qed.

Lemma MeetingInv_Transition evs0 st st' :
  MeetingInv evs0 st -> Transition st st' -> MeetingInv evs0 st'.
Proof.
  intros [Hn Hb] T.
  destruct T as [Hc Ha Hx | e He Hs Hd | e He Hs Hd | d lbl Hd Hx
                | d lbl col Hd Hr Hx | d Hd Hr Hx];
    constructor; simpl; auto using Forall_tail;
    unfold meetingMinutes in *; rewrite ?minutesWhere_snoc; simpl.
  - pose proof (pendingMinutes_mono (currentTime st) (currentTime st + 60)
                  (dayEvents st) ltac:(lia) Hn). lia.
  - pose proof (pendingMinutes_tail (currentTime st) (dayEvents st) Hn). lia.
  - apply nextMeetingOf_Some in He as [Hin Hle].
    pose proof (pendingMinutes_passed (currentTime st)
                  (currentTime st + durationMinutes (event e)) e (dayEvents st)
                  Hin ltac:(lia) Hn).
    pose proof (pendingMinutes_tail (currentTime st + durationMinutes (event e))
                  (dayEvents st) Hn). lia.
  - pose proof (pendingMinutes_mono (currentTime st) (currentTime st + d)
                  (dayEvents st) ltac:(lia) Hn). lia.
  - pose proof (pendingMinutes_mono (currentTime st) (currentTime st + d)
                  (dayEvents st) ltac:(lia) Hn). lia.
  - pose proof (pendingMinutes_mono (currentTime st) (currentTime st + d)
                  (dayEvents st) ltac:(lia) Hn). lia.
Qed.

Lemma sweep_MeetingInv evs0 fuel st st' :
  MeetingInv evs0 st -> sweep fuel st = Some st' -> MeetingInv evs0 st'.
Proof.
  intros HI H.
  apply (sweep_invariant (MeetingInv evs0)) with (fuel := fuel) (st := st) (st' := st');
    [|exact HI|exact H].
  intros s s' HM _ T. eapply MeetingInv_Transition; eauto.
Qed.

(** Under the contract the next meeting is the head of the pending events. *)
Lemma nextMeetingOf_valid st :
  validEventsFrom (currentTime st) dayEndMins (dayEvents st) ->
  nextMeetingOf st = head (dayEvents st).
Proof.
  unfold nextMeetingOf. destruct (dayEvents st) as [|e evs]; simpl; [reflexivity|].
  intros (Hs & _). destruct (Z.leb_spec (currentTime st) (startMins e)); [reflexivity|lia].
Qed.

Lemma validEventsFrom_earlier t t' evs :
  (forall e, head evs = Some e -> t' <= startMins e) ->
  validEventsFrom t dayEndMins evs -> validEventsFrom t' dayEndMins evs.
Proof.
  destruct evs as [|e evs]; simpl; [auto|].
  intros H (_ & H1 & H2 & H3 & H4). specialize (H e eq_refl). auto.
Qed.

Lemma meetingBlocks_snoc l x :
  meetingBlocks (l ++ [x]) =
  meetingBlocks l ++
  (if ItemType_eqb meeting (type x) then [(startMinute x, duration x, label x)] else []).
Proof.
  unfold meetingBlocks. rewrite List.filter_app, map_app. simpl.
  destruct (ItemType_eqb meeting (type x)); reflexivity.
Qed.

Lemma EventInv_initial dayStartMins focusGoal evs :
  validInput dayStartMins dayEndMins evs -> lunchClear evs ->
  EventInv evs dayEndMins (initial dayStartMins focusGoal evs).
Proof.
  intros [Hlt Hv] Hc. constructor; simpl; try assumption.
  - exists []. split; reflexivity.
  - intros _. constructor.
Qed.

(** A block that is not a Meeting and ends before the next pending event
    (or the end of the day) keeps the invariant. *)
Lemma EventInv_push evs0 st ty lbl d col :
  EventInv evs0 dayEndMins st ->
  currentTime st < dayEndMins ->
  ty <> meeting ->
  (forall e, head (dayEvents st) = Some e -> currentTime st + d <= startMins e) ->
  (lunchFits dayEndMins -> dayEvents st = [] -> currentTime st + d <= dayEndMins) ->
  EventInv evs0 dayEndMins (push st ty lbl d col).
Proof.
  intros [(done & Hd & Hm) Ha Hc He] Hlt Hty Hhead Hnil.
  constructor; simpl.
  - exists done. split; [exact Hd|]. rewrite meetingBlocks_snoc. simpl.
    destruct ty; simpl; try (rewrite app_nil_r; exact Hm). congruence.
  - eapply validEventsFrom_earlier; [exact Hhead | exact Ha].
  - exact Hc.
  - intros Hfit. apply Forall_app. split; [exact (He Hfit)|]. constructor; [|constructor].
    unfold startMinute; simpl.
    destruct (dayEvents st) as [|e evs] eqn:E; [auto|].
    specialize (Hhead e eq_refl). simpl in Ha. lia.
Qed.

Lemma EventInv_ext evs0 st1 st2 :
  items st2 = items st1 -> currentTime st2 = currentTime st1 ->
  dayEvents st2 = dayEvents st1 ->
  EventInv evs0 dayEndMins st1 -> EventInv evs0 dayEndMins st2.
Proof.
  intros E1 E2 E3 [? ? ? ?]. constructor; rewrite ?E1, ?E2, ?E3; assumption.
Qed.

Lemma EventInv_Transition evs0 st st' :
  EventInv evs0 dayEndMins st -> currentTime st < dayEndMins ->
  Transition st st' -> EventInv evs0 dayEndMins st'.
Proof.
  intros HI Hlt T.
  assert (Hnext := nextMeetingOf_valid st (einv_ahead _ _ _ HI)).
  assert (Hgap : forall d, d <= gapOf dayEndMins st ->
            (forall e, head (dayEvents st) = Some e -> currentTime st + d <= startMins e) /\
            (lunchFits dayEndMins -> dayEvents st = [] ->
             currentTime st + d <= dayEndMins)).
  { intros d Hd. unfold gapOf in Hd. rewrite Hnext in Hd. split.
    - intros e He. rewrite He in Hd. lia.
    - intros _ Hn. rewrite Hn in Hd. simpl in Hd. lia. }
  destruct T as [Hc Ha Hb | e He Hs Hd | e He Hs Hd | d lbl Hd Hx
                | d lbl col Hd Hr Hx | d Hd Hr Hx].
  - apply (EventInv_ext _ (push st break "Lunch Break" 60 None)); try reflexivity.
    apply EventInv_push; try assumption; [discriminate | |].
    + intros e He. pose proof (einv_ahead _ _ _ HI) as Hv.
      pose proof (einv_clear _ _ _ HI) as Hcl.
      destruct (dayEvents st) as [|e' evs]; [discriminate|].
      injection He as ->. simpl in Hv. inversion Hcl; subst. lia.
    + intros Hfit Hn. unfold lunchFits in Hfit. lia.
  - exfalso. rewrite Hnext in He. pose proof (einv_ahead _ _ _ HI) as Hv.
    destruct (dayEvents st) as [|e' evs]; [discriminate|].
    injection He as ->. simpl in Hv. lia.
  - rewrite Hnext in He. destruct HI as [(done & Hdone & Hm) Hv Hcl Hends].
    destruct (dayEvents st) as [|e' evs] eqn:E; [discriminate|].
    injection He as ->. simpl in Hv. destruct Hv as (Hv1 & Hv2 & Hv3 & Hv4 & Hv5).
    constructor; simpl.
    + exists (done ++ [e]). rewrite E. simpl. split.
      * rewrite <- app_assoc. exact Hdone.
      * rewrite meetingBlocks_snoc. simpl. unfold eventBlocks. rewrite map_app. simpl.
        unfold eventBlocks in Hm. rewrite Hm. unfold startMinute. simpl.
        rewrite Hs. reflexivity.
    + rewrite E. simpl. replace (currentTime st + durationMinutes (event e))
        with (endMins e) by lia. exact Hv5.
    + rewrite E. simpl. inversion Hcl; assumption.
    + intros Hfit. apply Forall_app. split; [exact (Hends Hfit)|].
      constructor; [|constructor]. unfold startMinute; simpl. lia.
  - destruct (Hgap d ltac:(lia)). apply EventInv_push; try assumption. discriminate.
  - destruct (Hgap d ltac:(lia)).
    apply (EventInv_ext _ (push st focus lbl d col)); try reflexivity.
    apply EventInv_push; try assumption. discriminate.
  - destruct (Hgap d ltac:(lia)). apply EventInv_push; try assumption. discriminate.
Qed.

Lemma sweep_EventInv evs0 fuel st st' :
  EventInv evs0 dayEndMins st -> sweep fuel st = Some st' ->
  EventInv evs0 dayEndMins st' /\ dayEndMins <= currentTime st'.
Proof.
  apply (sweep_invariant (EventInv evs0 dayEndMins)).
  intros s s' HI Hlt T. eapply EventInv_Transition; eauto.
Qed.

End Sweep.

(** The generator always returns: its budget suffices. *)
Lemma generate_returns yyyymmdd dayStartMins dayEndMins evs focusGoal peak :
  exists st',
    sweep yyyymmdd dayEndMins (fst peak) (snd peak)
      (fuelFor dayEndMins (initial dayStartMins focusGoal evs))
      (initial dayStartMins focusGoal evs) = Some st' /\
    generate yyyymmdd dayStartMins dayEndMins evs focusGoal peak = Some (items st').
Proof.
  unfold generate.
  destruct (sweep_fuel yyyymmdd dayEndMins (fst peak) (snd peak) _
              (initial dayStartMins focusGoal evs) (Nat.le_refl _)) as [st' H].
  exists st'. rewrite H. split; reflexivity.
Qed.

End DashboardViewFacts.

(** * Facts about part_001 *)

Module Part001Facts.
Import Part001 Part001Spec.

Section Sweep.

Variable yyyymmdd : string.
Variable dayEndMins : Z.
Variables peakStart peakEnd : Z.
Variables shortBreak longBreak : Z.
Variables focusGoal currentAdj : Z.
Variable newSessionIds : list ItemId.

Local Abbreviation addSession := (addSession yyyymmdd newSessionIds).
Local Abbreviation fillGap :=
  (fillGap yyyymmdd dayEndMins peakStart peakEnd shortBreak focusGoal currentAdj
     newSessionIds).
Local Abbreviation step :=
  (step yyyymmdd dayEndMins peakStart peakEnd shortBreak longBreak focusGoal currentAdj
     newSessionIds).
Local Abbreviation sweep :=
  (sweep yyyymmdd dayEndMins peakStart peakEnd shortBreak longBreak focusGoal currentAdj
     newSessionIds).

Lemma p1_addSession_positive st ty lbl d col :
  positive (items st) -> positive (items (addSession st ty lbl d col)).
Proof.
  intros H. unfold Part001.addSession.
  destruct (Z.leb_spec d 0); [exact H|]. simpl.
  apply Forall_app. split; [exact H|]. constructor; [simpl; lia | constructor].
Qed.

Lemma p1_fillGap_positive st nm :
  positive (items st) -> positive (items (fillGap st nm)).
Proof.
  intros H. unfold Part001.fillGap.
  repeat case_match; simpl; auto using p1_addSession_positive.
Qed.

Lemma p1_step_positive st : positive (items st) -> positive (items (step st)).
Proof.
  intros H. unfold Part001.step.
  repeat case_match; simpl; auto using p1_addSession_positive, p1_fillGap_positive.
Qed.

Lemma p1_sweep_positive fuel : forall st st',
  positive (items st) -> sweep fuel st = Some st' -> positive (items st').
Proof.
  induction fuel as [|fuel IH]; intros st st' H; simpl;
    destruct (currentTime st <? dayEndMins); try discriminate;
    try (intros [= <-]; exact H).
  apply IH. apply p1_step_positive. exact H.
Qed.

(** Termination, for a positive short break. *)
Lemma p1_addSession_time st ty lbl d col :
  currentTime (addSession st ty lbl d col) = currentTime st + Z.max 0 d /\
  dayEvents (addSession st ty lbl d col) = dayEvents st /\
  hasLongBreakAnchor (addSession st ty lbl d col) = hasLongBreakAnchor st.
Proof.
  unfold Part001.addSession. destruct (Z.leb_spec d 0); simpl; repeat split; lia.
Qed.

Lemma p1_nextMeetingOf_Some st e :
  nextMeetingOf st = Some e ->
  (0 < length (dayEvents st))%nat /\ currentTime st <= startMins e.
Proof.
  unfold nextMeetingOf. intros H. apply find_some in H as [H1 H2].
  split; [destruct (dayEvents st); [destruct H1 | simpl; lia] | lia].
Qed.

Lemma p1_fillGap_fuel st :
  0 < shortBreak -> currentTime st < dayEndMins ->
  (forall e, nextMeetingOf st = Some e -> startMins e <> currentTime st) ->
  (fuelFor dayEndMins (fillGap st (nextMeetingOf st)) < fuelFor dayEndMins st)%nat.
Proof.
  intros Hsb Hlt Hne. unfold Part001.fillGap.
  set (gap := match nextMeetingOf st with
              | Some e => startMins e - currentTime st
              | None => dayEndMins - currentTime st
              end).
  assert (Hgap : 0 < gap).
  { subst gap. destruct (nextMeetingOf st) as [e|] eqn:E; [|lia].
    pose proof (p1_nextMeetingOf_Some _ _ E) as [_ Hle].
    specialize (Hne e eq_refl). lia. }
  clearbody gap.
  destruct (Z.ltb_spec 0 gap); [|lia].
  assert (Hadd : forall ty lbl d col, 0 < d ->
    (fuelFor dayEndMins (addSession st ty lbl d col) < fuelFor dayEndMins st)%nat).
  { intros ty lbl d col Hd. unfold fuelFor.
    destruct (p1_addSession_time st ty lbl d col) as (-> & -> & ->). lia. }
  assert (Hbreak : 0 < Z.min (if 45 <=? gap then 45 else shortBreak) gap).
  { destruct (45 <=? gap); lia. }
  assert (Hhobby : 0 < Z.min gap 60) by lia.
  destruct (lastType st) as [[]|]; try (apply Hadd; assumption);
    (destruct (Z.ltb_spec 0 (focusRemaining st)); [|apply Hadd; assumption]);
    cbv zeta; unfold fuelFor; simpl;
    match goal with
    | |- context [addSession st focus ?l ?d ?c] =>
        destruct (p1_addSession_time st focus l d c) as (-> & -> & ->);
        assert (0 < d) by (repeat case_match; lia)
    end; lia.
Qed.

Lemma p1_step_fuel st :
  0 < shortBreak -> currentTime st < dayEndMins ->
  (fuelFor dayEndMins (step st) < fuelFor dayEndMins st)%nat.
Proof.
  intros Hsb Hlt. unfold Part001.step.
  destruct ((780 <=? currentTime st) && (currentTime st <? 840)
            && negb (hasLongBreakAnchor st) && negb (isBreakType (lastType st))) eqn:E.
  - repeat (apply andb_prop in E as [E ?]).
    unfold fuelFor. simpl.
    destruct (p1_addSession_time st break "Lunch Break" longBreak None) as (-> & -> & _).
    destruct (hasLongBreakAnchor st); [discriminate|]. lia.
  - cbv zeta. destruct (nextMeetingOf st) as [e|] eqn:En.
    + destruct (Z.eqb_spec (startMins e) (currentTime st)) as [Ee|Ee].
      * apply p1_nextMeetingOf_Some in En as [Hlen _]. unfold fuelFor. simpl.
        destruct (p1_addSession_time st meeting (summary (event e))
                    (durationMinutes (event e)) None) as (-> & -> & ->).
        destruct (dayEvents st); simpl in *; lia.
      * rewrite <- En. apply p1_fillGap_fuel; [exact Hsb | exact Hlt |].
        intros e' He'. rewrite En in He'. injection He' as <-. exact Ee.
    + rewrite <- En. apply p1_fillGap_fuel; [exact Hsb | exact Hlt |].
      intros e' He'. rewrite En in He'. discriminate.
Qed.

Lemma p1_sweep_fuel fuel : forall st,
  0 < shortBreak -> (fuelFor dayEndMins st <= fuel)%nat ->
  exists st', sweep fuel st = Some st'.
Proof.
  induction fuel as [|fuel IH]; intros st Hsb Hf; simpl.
  - destruct (Z.ltb_spec (currentTime st) dayEndMins); [|eauto].
    unfold fuelFor in Hf. lia.
  - destruct (Z.ltb_spec (currentTime st) dayEndMins); [|eauto].
    apply IH; [exact Hsb|]. pose proof (p1_step_fuel st Hsb ltac:(assumption)). lia.
Qed.

End Sweep.

Lemma p1_generate_positive yyyymmdd dayStartMins dayEndMins evs focusGoal currentAdj
    overrideGoal peak shortBreak longBreak newSessionIds its :
  generate yyyymmdd dayStartMins dayEndMins evs focusGoal currentAdj overrideGoal
    peak shortBreak longBreak newSessionIds = Some its ->
  Forall (fun it => 0 < duration it) its.
Proof.
  unfold generate.
  destruct (sweep _ _ _ _ _ _ _ _ _ _ _) as [st'|] eqn:E; simpl; [|discriminate].
  intros [= <-]. eapply p1_sweep_positive; [|exact E]. constructor.
Qed.

Lemma p1_generate_returns yyyymmdd dayStartMins dayEndMins evs focusGoal currentAdj
    overrideGoal peak shortBreak longBreak newSessionIds :
  0 < shortBreak ->
  exists its,
    generate yyyymmdd dayStartMins dayEndMins evs focusGoal currentAdj overrideGoal
      peak shortBreak longBreak newSessionIds = Some its.
Proof.
  intros Hsb. unfold generate.
  edestruct (p1_sweep_fuel yyyymmdd dayEndMins (fst peak) (snd peak) shortBreak longBreak focusGoal
               currentAdj newSessionIds) as [st' H]; [exact Hsb | apply Nat.le_refl |].
  rewrite H. simpl. eauto.
Qed.

End Part001Facts.

(** * Facts about part_002 *)

Module Part002Facts.
Import Part002 Part002Spec.

Lemma p2_last_split {A} (l : list A) x :
  last l = Some x -> l = removelast l ++ [x].
Proof.
  intros H. apply last_Some in H as [l' ->].
  rewrite removelast_last. reflexivity.
Qed.


(** [addItem] keeps durations positive and never touches a Focus block. *)
Lemma p2_addItem_positive l x :
  positive l -> 0 < duration x -> positive (addItem l x).
Proof.
  intros Hl Hx. unfold addItem. destruct (last l) as [y|] eqn:E.
  - repeat case_match; try exact Hl.
    + pose proof (p2_last_split _ _ E) as El. rewrite El in Hl.
      apply Forall_app in Hl as [Hl1 Hl2]. apply Forall_app. split; [exact Hl1|].
      constructor; [|constructor]. inversion Hl2; subst. simpl. lia.
    + apply Forall_app. split; [exact Hl | constructor; [exact Hx|constructor]].
  - case_match; [exact Hl|].
    apply Forall_app. split; [exact Hl | constructor; [exact Hx|constructor]].
Qed.



(** The final sort rearranges the blocks only. *)
Lemma p2_insertItem_Forall (P : ScheduleItem -> Prop) x l :
  P x -> Forall P l -> Forall P (insertItem x l).
Proof.
  intros Hx Hl. induction Hl as [|y l Hy Hl IH]; simpl.
  - constructor; [exact Hx|constructor].
  - destruct (startTimeMins x <=? startTimeMins y); repeat constructor; auto.
Qed.

Lemma p2_sortItems_Forall (P : ScheduleItem -> Prop) l :
  Forall P l -> Forall P (sortItems l).
Proof.
  unfold sortItems. induction 1 as [|x l Hx Hl IH]; simpl; [constructor|].
  apply p2_insertItem_Forall; assumption.
Qed.





Section Sweep.

Variable settings : AppSettings.
Variable activeDayEvents : list DayEvent.
Variables dayStartMins dayEndMins : Z.
Variable currentPeak : option (Z * Z).

Local Abbreviation eventAt := (eventAt activeDayEvents).
Local Abbreviation fillGap := (fillGap settings currentPeak).
Local Abbreviation step := (step settings activeDayEvents dayStartMins dayEndMins currentPeak).
Local Abbreviation sweep := (sweep settings activeDayEvents dayStartMins dayEndMins currentPeak).

Lemma p2_eventAt_duration t e :
  normalised activeDayEvents -> eventAt t = Some e -> 0 < durationMinutes (event e).
Proof.
  intros Hn H. unfold Part002.eventAt in H. apply find_some in H as [Hin Hc].
  unfold normalised in Hn. rewrite List.Forall_forall in Hn. specialize (Hn e Hin).
  apply andb_prop in Hc as [H1 H2]. lia.
Qed.

(** Positive durations. *)
Lemma p2_fillGap_positive st gapEnd :
  positiveSettings settings -> positive (items st) ->
  positive (items (fillGap st gapEnd)).
Proof.
  intros [Hs Hh] Hp. unfold Part002.fillGap.
  destruct (Z.ltb_spec 0 (gapEnd - currentTime st)); [|exact Hp].
  destruct ((0 <? remainingFocusMinutes st) && (20 <=? gapEnd - currentTime st)) eqn:Ef.
  - apply andb_prop in Ef as [Ef1 Ef2].
    destruct (inPeak currentPeak (currentTime st));
      match goal with
      | |- context [if ?c then (_, _) else _] => destruct c
      end; simpl;
      repeat (apply p2_addItem_positive; simpl); try exact Hp; lia.
  - destruct ((90 <? gapEnd - currentTime st) && (0 <? length (items st))%nat); simpl;
      apply p2_addItem_positive; try exact Hp; simpl; lia.
Qed.

Lemma p2_step_positive st :
  positiveSettings settings -> normalised activeDayEvents ->
  positive (items st) -> positive (items (step st)).
Proof.
  intros Hs Hn Hp. unfold Part002.step. cbv zeta.
  repeat (case_match; simpl); try (apply p2_addItem_positive; [exact Hp | simpl; lia]).
  - apply p2_addItem_positive; [exact Hp|]. simpl.
    eapply p2_eventAt_duration; eauto.
  - apply p2_fillGap_positive; assumption.
  - apply p2_fillGap_positive; assumption.
Qed.

Lemma p2_sweep_positive budget : forall st,
  positiveSettings settings -> normalised activeDayEvents ->
  positive (items st) -> positive (items (sweep budget st)).
Proof.
  induction budget as [|budget IH]; intros st Hs Hn Hp; simpl; [exact Hp|].
  destruct (currentTime st <? dayEndMins); [|exact Hp].
  apply IH; try assumption. apply p2_step_positive; assumption.
Qed.







End Sweep.

Lemma p2_generate_positive settings userDayStart userDayEnd evs focusGoal peakWindow :
  positiveSettings settings -> normalised evs ->
  positive (generate settings userDayStart userDayEnd evs focusGoal peakWindow).
Proof.
  intros Hs Hn. unfold generate. destruct (dayWindow _ _ _) as [ds de].
  apply p2_sortItems_Forall. apply p2_sweep_positive; try assumption. constructor.
Qed.



End Part002Facts.

(** * The claims *)

Section Claims.
Import DashboardView DashboardViewSpec DashboardViewInv DashboardViewFacts.

(** What the invariants give for a generated schedule. *)
Lemma generate_Inv yyyymmdd dayStartMins dayEndMins evs focusGoal peak :
  exists st',
    generate yyyymmdd dayStartMins dayEndMins evs focusGoal peak = Some (items st') /\
    Inv dayStartMins focusGoal st' /\ dayEndMins <= currentTime st' /\
    (Forall (fun e => 0 <= durationMinutes (event e)) evs -> MeetingInv evs st').
Proof.
  destruct (generate_returns yyyymmdd dayStartMins dayEndMins evs focusGoal peak)
    as (st' & Hs & Hg).
  exists st'. split; [exact Hg|].
  destruct (sweep_Inv _ _ _ _ dayStartMins focusGoal _ _ _
              (Inv_initial dayStartMins focusGoal evs) Hs) as [HI Hend].
  split; [exact HI|]. split; [exact Hend|].
  intros Hn. eapply sweep_MeetingInv; [|exact Hs].
  apply MeetingInv_initial. exact Hn.
Qed.

(** C1: for every input (valid or not), the generator of DashboardView.tsx
    returns a schedule whose blocks are contiguous
    ([startMinute + duration] of a block is the [startMinute] of the next: no
    gaps, no overlaps) and strictly ascending by [startMinute]. *)
Theorem C1_contiguous_strictly_ordered yyyymmdd dayStartMins dayEndMins evs focusGoal peak :
  exists its,
    generate yyyymmdd dayStartMins dayEndMins evs focusGoal peak = Some its /\
    contiguous its /\ strictlyAscending its.
Proof.
  destruct (generate_Inv yyyymmdd dayStartMins dayEndMins evs focusGoal peak)
    as (st' & Hg & HI & _).
  exists (items st'). split; [exact Hg|].
  destruct HI as [Hc _ _ _ _ _ _ _ _].
  split; [eapply chain_contiguous | eapply chain_ascending]; exact Hc.
Qed.

(** C2 (failing input): a day from 08:00 to 18:00 with a meeting from 12:00 to
    13:00 and one from 13:20 to 13:50.  The input is valid, yet the schedule
    holds one Meeting block only: the lunch anchor placed at 13:00 runs for a
    fixed 60 minutes, past the start of the second meeting, which is never
    emitted.  The last part states the same of the [schedule] memo, from the
    props of the component. *)
Theorem C2_lunch_anchor_drops_meeting :
  let evs := [Scenario.dayEvent "Team sync" 720 780;
              Scenario.dayEvent "Client call" 800 830] in
  validInput 480 1080 evs /\
  (exists its,
    generate Scenario.day 480 1080 evs 7 (480, 720) = Some its /\
    outline its =
      [(break, 480, 45); (focus, 525, 90); (break, 615, 45); (focus, 660, 60);
       (meeting, 720, 60); (break, 780, 60); (focus, 840, 45); (break, 885, 45);
       (focus, 930, 45); (break, 975, 45); (focus, 1020, 45); (break, 1065, 15)] /\
    Forall (fun it => ~ isMeetingOf (Scenario.dayEvent "Client call" 800 830) it) its) /\
  schedule (Scenario.clock "08" "00" "AM") (Scenario.clock "06" "00" "PM") 7 "Morning"
    [Scenario.calendarEvent "Client call" 800 830;
     Scenario.calendarEvent "Team sync" 720 780] Scenario.day
  = Normal <$> generate Scenario.day 480 1080 evs 7 (480, 720).
Proof.
  cbv zeta. split; [|split].
  - unfold validInput; simpl. lia.
  - eexists. split; [vm_compute; reflexivity|]. split; [reflexivity|].
    repeat constructor; intros (Ht & Hs & _); vm_compute in Ht, Hs; congruence.
  - vm_compute. reflexivity.
Qed.

(** C4 (failing input): a day from 08:00 to 13:30 with a meeting from 12:00 to
    13:00.  The last block is the lunch anchor from 13:00 to 14:00: it ends
    after the end of the day (also stated of the [schedule] memo, from the
    props of the component).  The lunch anchor of part_002 (a fixed 45
    minutes) does the same in a day from 10:00 to 12:20 with a meeting from
    10:00 to 12:00. *)
Theorem C4_lunch_anchor_overruns_day :
  (let evs := [Scenario.dayEvent "Team sync" 720 780] in
   validInput 480 810 evs /\
   (exists its it,
     generate Scenario.day 480 810 evs 7 (480, 720) = Some its /\
     last its = Some it /\
     label it = "Lunch Break"%string /\ startMinute it = 780 /\ duration it = 60 /\
     ~ withinDay 480 810 it) /\
   schedule (Scenario.clock "08" "00" "AM") (Scenario.clock "01" "30" "PM") 7 "Morning"
     [Scenario.calendarEvent "Team sync" 720 780] Scenario.day
   = Normal <$> generate Scenario.day 480 810 evs 7 (480, 720)) /\
  (let evs := [Scenario.dayEvent "Standup" 600 720] in
   Part002.dayWindow 600 740 evs = (600, 740) /\
   Part002Spec.outline
     (Part002.generate Part002Spec.defaultSettings 600 740 evs 7 "Morning")
   = [(meeting, 600, 120); (lunch, 720, 45)]).
Proof.
  cbv zeta. split; [split; [|split]|split].
  - unfold validInput; simpl. lia.
  - eexists. eexists. split; [vm_compute; reflexivity|].
    split; [reflexivity|]. repeat split.
    unfold withinDay. vm_compute. intros [_ H]. apply H. reflexivity.
  - vm_compute. reflexivity.
  - reflexivity.
  - vm_compute. reflexivity.
Qed.

(** C5 (counterexample): with a meeting from 09:30 to 10:30 in a day from
    08:00 to 18:00, the Focus block from 08:45 to 09:30 is directly followed
    by the Meeting block: two consecutive exertion blocks. *)
Lemma C5_focus_directly_before_meeting :
  let evs := [Scenario.dayEvent "Standup" 570 630] in
  validInput 480 1080 evs /\
  exists its,
    generate Scenario.day 480 1080 evs 7 (480, 720) = Some its /\
    ~ noConsecutiveExertion its.
Proof.
  cbv zeta. split.
  - unfold validInput; simpl. lia.
  - eexists. split; [vm_compute; reflexivity|].
    intros H. specialize (H 1%nat _ _ eq_refl eq_refl eq_refl). discriminate H.
Qed.

(** C5 (amended): for every input, in the schedule DashboardView.tsx
    generates a Focus or Meeting block is directly followed by a Meeting or
    by a rest block, never by a Focus block. *)
Theorem C5_exertion_then_rest_or_meeting yyyymmdd dayStartMins dayEndMins evs focusGoal peak :
  exists its,
    generate yyyymmdd dayStartMins dayEndMins evs focusGoal peak = Some its /\
    exertionThenRestOrMeeting its /\
    (forall i a b, its !! i = Some a -> its !! (S i) = Some b ->
       isExertion (type a) = true -> type b <> focus).
Proof.
  destruct (generate_Inv yyyymmdd dayStartMins dayEndMins evs focusGoal peak)
    as (st' & Hg & HI & _).
  exists (items st'). split; [exact Hg|].
  destruct HI as [_ _ _ _ _ _ Ha _ _]. split; [exact Ha|].
  intros i a b Hia Hib Hex Hf.
  destruct (Ha i a b Hia Hib Hex) as [H|H]; rewrite Hf in H; discriminate H.
Qed.

(** C5 (witness): in the schedule of the counterexample the pair of blocks at
    positions 1 and 2 is a Focus block followed by a Meeting. *)
Lemma C5_exertion_then_rest_or_meeting_witness :
  exists its,
    generate Scenario.day 480 1080 [Scenario.dayEvent "Standup" 570 630] 7 (480, 720)
      = Some its /\
    exists a b, its !! 1%nat = Some a /\ its !! 2%nat = Some b /\
      type a = focus /\ type b = meeting.
Proof.
  destruct (C5_exertion_then_rest_or_meeting Scenario.day 480 1080
              [Scenario.dayEvent "Standup" 570 630] 7 (480, 720)) as (its & Hg & Ha & _).
  exists its. split; [exact Hg|].
  vm_compute in Hg. injection Hg as <-.
  eexists. eexists. repeat split.
Defined.









(** C7 (counterexample): hour 0, hour 13 and minute 75 are converted, not
    rejected; a day that ends before it starts, or when it starts, yields the
    empty schedule, not an error (the last line: from the props of the
    component, a day from 06:00 PM to 08:00 AM). *)
Lemma C7_out_of_range_inputs_accepted :
  toMinutes "0" "00" "AM" = Some 0 /\
  toMinutes "13" "00" "PM" = Some 1500 /\
  toMinutes "08" "75" "AM" = Some 555 /\
  generate Scenario.day 1080 480 [] 7 (480, 720) = Some [] /\
  generate Scenario.day 600 600 [] 7 (480, 720) = Some [] /\
  schedule (Scenario.clock "06" "00" "PM") (Scenario.clock "08" "00" "AM") 7 "Morning"
    [] Scenario.day = Some (Normal []).
Proof. repeat split; vm_compute; reflexivity. Qed.

(** C7 (amended): no input is rejected.  The clock conversion yields a number
    whenever both fields start with digits (and NaN otherwise), computed
    without any range check: the hour is shifted by 12 for PM unless it is
    12, replaced by 0 for 12 AM, and taken as it is otherwise.  For a day that
    does not end after it starts the generator returns the empty schedule. *)
Theorem C7_no_input_is_rejected :
  (forall h m p, toMinutes h m p = None <-> parseInt h = None \/ parseInt m = None) /\
  (forall h m p a b, parseInt h = Some a -> parseInt m = Some b ->
     (p = "PM"%string -> a <> 12 -> toMinutes h m p = Some ((a + 12) * 60 + b)) /\
     (p = "AM"%string -> a = 12 -> toMinutes h m p = Some b) /\
     (~ (p = "PM"%string /\ a <> 12) -> ~ (p = "AM"%string /\ a = 12) ->
      toMinutes h m p = Some (a * 60 + b))) /\
  (forall yyyymmdd dayStartMins dayEndMins evs focusGoal peak,
     dayEndMins <= dayStartMins ->
     generate yyyymmdd dayStartMins dayEndMins evs focusGoal peak = Some []).
Proof.
  split; [|split].
  - intros h m p. unfold toMinutes.
    destruct (parseInt h), (parseInt m); split; intros H;
      try discriminate H; try (destruct H as [H|H]; discriminate H); auto.
  - intros h m p a b Ha Hb. unfold toMinutes. rewrite Ha, Hb.
    destruct (String.eqb_spec p "PM") as [->|Hpm]; simpl.
    + destruct (Z.eqb_spec a 12) as [->|Hne]; simpl;
        repeat split; intros; try congruence; tauto.
    + destruct (String.eqb_spec p "AM") as [->|Ham]; simpl.
      * destruct (Z.eqb_spec a 12) as [->|Hne]; simpl;
          repeat split; intros; try congruence; tauto.
      * repeat split; intros; congruence.
  - intros yyyymmdd dayStartMins dayEndMins evs focusGoal peak Hle. unfold generate.
    destruct (fuelFor dayEndMins (initial dayStartMins focusGoal evs)); simpl;
      (destruct (Z.ltb_spec dayStartMins dayEndMins); [lia | reflexivity]).
Qed.

(** C7 (witness): hour 0 at 00 minutes AM, hour 13 PM, and the day from 18:00
    to 08:00. *)
Lemma C7_no_input_is_rejected_witness :
  toMinutes "0" "00" "AM" = Some (0 * 60 + 0) /\
  toMinutes "13" "00" "PM" = Some ((13 + 12) * 60 + 0) /\
  generate Scenario.day 1080 480 [] 7 (480, 720) = Some [].
Proof.
  destruct C7_no_input_is_rejected as (_ & H2 & H3). split; [|split].
  - destruct (H2 "0"%string "00"%string "AM"%string 0 0 eq_refl eq_refl) as (_ & _ & H).
    apply H; intros [H1 H1']; [discriminate H1 | discriminate H1'].
  - destruct (H2 "13"%string "00"%string "PM"%string 13 0 eq_refl eq_refl) as (H & _ & _).
    apply H; [reflexivity | discriminate].
  - apply H3. lia.
Defined.

End Claims.

(** C8 (counterexample): in part_001 an unknown window name resolves to
    [840, 1020], the Afternoon range of that version, not to its Morning
    range. *)
Lemma C8_part001_falls_back_to_afternoon :
  Part001.peakRange "Noon" = Normal (840, 1020) /\
  Part001.peakRange "Afternoon" = Normal (840, 1020) /\
  Part001.peakRange "Morning" = Normal (480, 720) /\
  Part001.peakRange "Noon" <> Part001.peakRange "Morning".
Proof. repeat split; try reflexivity. vm_compute. discriminate. Qed.

(** C8 (amended): each version maps the four named windows to fixed ranges.
    A window name that is none of the four and no member name of
    [Object.prototype] resolves to the Morning range in DashboardView.tsx
    ([480, 720]) and in part_002 ([420, 720]), and to the Afternoon range
    ([840, 1020]) in part_001. *)
Theorem C8_peak_window_resolver :
  (DashboardView.peakRange "Morning" = Normal (480, 720) /\
   DashboardView.peakRange "Afternoon" = Normal (720, 1020) /\
   DashboardView.peakRange "Evening" = Normal (1020, 1260) /\
   DashboardView.peakRange "Late Night" = Normal (1260, 1440)) /\
  (Part001.peakRange "Morning" = Normal (480, 720) /\
   Part001.peakRange "Afternoon" = Normal (840, 1020) /\
   Part001.peakRange "Evening" = Normal (1080, 1260) /\
   Part001.peakRange "Late Night" = Normal (1260, 1440)) /\
  (Part002.currentPeakOf "Morning" = Some (420, 720) /\
   Part002.currentPeakOf "Afternoon" = Some (720, 1020) /\
   Part002.currentPeakOf "Evening" = Some (1020, 1260) /\
   Part002.currentPeakOf "Late Night" = Some (1260, 1380)) /\
  (forall w : string,
     w <> "Morning"%string -> w <> "Afternoon"%string -> w <> "Evening"%string ->
     w <> "Late Night"%string -> inheritedMember w = false ->
     DashboardView.peakRange w = DashboardView.peakRange "Morning" /\
     Part001.peakRange w = Part001.peakRange "Afternoon" /\
     Part002.currentPeakOf w = Part002.currentPeakOf "Morning").
Proof.
  split; [repeat split|]. split; [repeat split|]. split; [repeat split|].
  intros w H1 H2 H3 H4 Hin.
  assert (D : DashboardView.peakRanges !! w = None).
  { unfold DashboardView.peakRanges.
    rewrite !lookup_insert_ne by congruence. apply lookup_singleton_ne. congruence. }
  assert (P1 : Part001.peakRanges !! w = None).
  { unfold Part001.peakRanges.
    rewrite !lookup_insert_ne by congruence. apply lookup_singleton_ne. congruence. }
  assert (P2 : Part002.peakRanges !! w = None).
  { unfold Part002.peakRanges.
    rewrite !lookup_insert_ne by congruence. apply lookup_singleton_ne. congruence. }
  unfold DashboardView.peakRange, Part001.peakRange, Part002.currentPeakOf.
  rewrite D, P1, P2, Hin. repeat split.
Qed.

(** C8 (witness): the unknown window name [Noon]. *)
Lemma C8_peak_window_resolver_witness :
  DashboardView.peakRange "Noon" = DashboardView.peakRange "Morning" /\
  Part001.peakRange "Noon" = Part001.peakRange "Afternoon" /\
  Part002.currentPeakOf "Noon" = Part002.currentPeakOf "Morning".
Proof.
  destruct C8_peak_window_resolver as (_ & _ & _ & H).
  apply H; try discriminate. reflexivity.
Defined.


Section GoalTracker.
Import Part001.

Lemma calcForSchedule_focusMins_from acc s :
  focusMins
    (fold_left
       (fun acc item =>
          match type item with
          | focus | meeting =>
              {| focusMins := focusMins acc + duration item; breakMins := breakMins acc |}
          | _ =>
              {| focusMins := focusMins acc; breakMins := breakMins acc + duration item |}
          end) s acc) =
  focusMins acc +
  sumZ (map duration (List.filter (fun it => isExertion (type it)) s)).
Proof.
  revert acc. induction s as [|x s IH]; intros acc; simpl; [lia|].
  rewrite IH. destruct (type x); simpl; lia.
Qed.

Lemma ceilDiv_lower n : 60 <= n -> 1 <= ceilDiv n 60.
Proof.
  intros H. unfold ceilDiv.
  assert ((- n) / 60 <= -1); [|lia].
  apply Z.div_le_upper_bound; lia.
Qed.

(** C9: the goal tracker of part_001.  The scheduled focus minutes are the sum
    of the durations of the Focus and Meeting blocks; in daily mode the day is
    reported on target, and no adjustment is offered, exactly when they
    differ from the goal by less than 15 minutes; adding focus raises the
    goal the active day is generated for by a whole number of hours, at least
    one, and leaves the adjustment of every other day as it was. *)
Theorem C9_goal_tracker :
  (forall s,
     focusMins (calcForSchedule s) =
     sumZ (map duration (List.filter (fun it => isExertion (type it)) s))) /\
  (forall scheduled focusGoal,
     (goalDiff daily scheduled focusGoal = Some match_ <->
      Z.abs (scheduled - focusGoal * 60) < 15) /\
     (adjustmentOffered daily (goalDiff daily scheduled focusGoal) = false <->
      Z.abs (scheduled - focusGoal * 60) < 15)) /\
  (forall scheduled focusGoal activeDay (prev : gmap string Z),
     let next := handleAdjustGoal add scheduled focusGoal activeDay prev in
     effectiveGoal focusGoal next activeDay =
       effectiveGoal focusGoal prev activeDay + adjustmentStep add scheduled focusGoal /\
     1 <= adjustmentStep add scheduled focusGoal /\
     (forall d, d <> activeDay -> next !! d = prev !! d)).
Proof.
  split; [|split].
  - intros s. unfold calcForSchedule. rewrite calcForSchedule_focusMins_from. simpl. lia.
  - intros scheduled focusGoal. unfold goalDiff, adjustmentOffered.
    destruct (Z.ltb_spec (Z.abs (scheduled - focusGoal * 60)) 15) as [H|H].
    + split; split; auto.
    + split; split; intros H'; try lia.
      * destruct (scheduled - focusGoal * 60 <? 0); discriminate H'.
      * destruct (scheduled - focusGoal * 60 <? 0); discriminate H'.
  - intros scheduled focusGoal activeDay prev next. subst next.
    unfold handleAdjustGoal, effectiveGoal, adjustmentOf. repeat split.
    + rewrite lookup_insert_eq. simpl. lia.
    + unfold adjustmentStep.
      destruct (Z.ltb_spec (Z.abs (scheduled - focusGoal * 60)) 60); [lia|].
      apply ceilDiv_lower. lia.
    + intros d Hd. rewrite lookup_insert_ne by congruence. reflexivity.
Qed.

(** C9 (witness): a day 90 minutes short of a goal of seven hours, with an
    earlier adjustment recorded for another day. *)
Lemma C9_goal_tracker_witness :
  let prev : gmap string Z := {[ "20260106"%string := 2 ]} in
  let next := handleAdjustGoal add 330 7 "20260105" prev in
  next !! "20260106"%string = prev !! "20260106"%string /\
  effectiveGoal 7 next "20260105" = 7 + 2.
Proof.
  destruct C9_goal_tracker as (_ & _ & H).
  destruct (H 330 7 "20260105"%string ({[ "20260106"%string := 2 ]} : gmap string Z))
    as (H1 & H2 & H3).
  split.
  - apply H3. discriminate.
  - rewrite H1. reflexivity.
Defined.

End GoalTracker.

(** The normaliser of part_002 sets [endMins] to [startMins + durationMinutes]. *)
Lemma insertByStart_Forall (P : DayEvent -> Prop) e l :
  P e -> Forall P l -> Forall P (insertByStart e l).
Proof.
  intros He Hl. induction Hl as [|x l Hx Hl IH]; simpl.
  - constructor; [exact He | constructor].
  - destruct (startMins e <=? startMins x); repeat constructor; auto.
Qed.

Lemma sortByStart_Forall (P : DayEvent -> Prop) l :
  Forall P l -> Forall P (sortByStart l).
Proof.
  unfold sortByStart. induction 1 as [|x l Hx Hl IH]; simpl; [constructor|].
  apply insertByStart_Forall; assumption.
Qed.

Lemma activeDayEventsOf_normalised calendarEvents yyyymmdd evs :
  Part002.activeDayEventsOf calendarEvents yyyymmdd = Some evs ->
  Part002Spec.normalised evs.
Proof.
  unfold Part002.activeDayEventsOf, Part002Spec.normalised.
  destruct (mapM Part002.toDayEvent _) as [l|] eqn:E; simpl; [|discriminate].
  intros [= <-]. apply sortByStart_Forall.
  apply mapM_Some in E. induction E as [|c e cs l Hc _ IH]; constructor; [|exact IH].
  unfold Part002.toDayEvent in Hc. destruct (eventStartMins c); [|discriminate].
  injection Hc as <-. reflexivity.
Qed.

(** C10 (counterexample): part_002 with a short break setting of zero, a day
    from 10:00 to 10:40 and a meeting from 10:00 to 10:20: the break placed
    after the meeting has duration zero. *)
Lemma C10_zero_short_break_setting :
  let settings := {| Part002.shortBreakDuration := 0;
                     Part002.hobbyBreakDuration := 45;
                     Part002.isMuted := false |} in
  let its := Part002.generate settings 600 640 [Scenario.dayEvent "Standup" 600 620]
               0 "Morning" in
  Part002Spec.outline its = [(meeting, 600, 20); (break, 620, 0)] /\
  ~ Part002Spec.positive its.
Proof.
  cbv zeta. split; [vm_compute; reflexivity|].
  intros H. vm_compute in H.
  inversion H as [|? ? _ H2]; subst. inversion H2 as [|? ? H3 _]; subst.
  discriminate H3.
Qed.

(** C10 (amended): every block has a strictly positive duration, whatever the
    durations of the input events: in DashboardView.tsx for every input; in
    part_001 for every schedule the generator returns (it returns whenever
    the short break is positive); in part_002 whenever the two break settings
    are positive (events as its normaliser builds them). *)
Theorem C10_positive_durations :
  (forall yyyymmdd dayStartMins dayEndMins evs focusGoal peak,
     exists its,
       DashboardView.generate yyyymmdd dayStartMins dayEndMins evs focusGoal peak
         = Some its /\
       Forall (fun it => 0 < DashboardView.duration it) its) /\
  (forall yyyymmdd dayStartMins dayEndMins evs focusGoal currentAdj overrideGoal peak
          shortBreak longBreak newSessionIds its,
     Part001.generate yyyymmdd dayStartMins dayEndMins evs focusGoal currentAdj
       overrideGoal peak shortBreak longBreak newSessionIds = Some its ->
     Part001Spec.positive its) /\
  (forall yyyymmdd dayStartMins dayEndMins evs focusGoal currentAdj overrideGoal peak
          shortBreak longBreak newSessionIds,
     0 < shortBreak ->
     exists its,
       Part001.generate yyyymmdd dayStartMins dayEndMins evs focusGoal currentAdj
         overrideGoal peak shortBreak longBreak newSessionIds = Some its) /\
  (forall settings userDayStart userDayEnd evs focusGoal peakWindow,
     Part002Spec.positiveSettings settings -> Part002Spec.normalised evs ->
     Part002Spec.positive
       (Part002.generate settings userDayStart userDayEnd evs focusGoal peakWindow)) /\
  (forall calendarEvents yyyymmdd evs,
     Part002.activeDayEventsOf calendarEvents yyyymmdd = Some evs ->
     Part002Spec.normalised evs).
Proof.
  split; [|split; [|split; [|split]]].
  - intros yyyymmdd dayStartMins dayEndMins evs focusGoal peak.
    destruct (generate_Inv yyyymmdd dayStartMins dayEndMins evs focusGoal peak)
      as (st' & Hg & HI & _).
    exists (DashboardView.items st'). split; [exact Hg|].
    destruct HI as [Hc _ _ _ _ _ _ _ _].
    eapply DashboardViewFacts.chain_positive. exact Hc.
  - intros. eapply Part001Facts.p1_generate_positive. eassumption.
  - intros. apply Part001Facts.p1_generate_returns. assumption.
  - intros. apply Part002Facts.p2_generate_positive; assumption.
  - intros. eapply activeDayEventsOf_normalised. eassumption.
Qed.

(** C10 (witness): an event of duration zero and one of negative duration,
    in part_001 (breaks of 5 and 30 minutes) and in part_002 (default
    settings). *)
Lemma C10_positive_durations_witness :
  let evs := [ {| event := {| summary := "Ping"; startTime := "10:00"; endTime := "10:00";
                              durationMinutes := 0; date := Scenario.day |};
                  startMins := 600; endMins := 600 |};
               {| event := {| summary := "Pong"; startTime := "11:00"; endTime := "10:30";
                              durationMinutes := -30; date := Scenario.day |};
                  startMins := 660; endMins := 630 |} ] in
  (exists its,
     Part001.generate Scenario.day 480 1080 evs 7 0 None (480, 720) 5 30 [] = Some its /\
     Part001Spec.positive its) /\
  Part002Spec.positive
    (Part002.generate Part002Spec.defaultSettings 480 1080 evs 7 "Morning").
Proof.
  cbv zeta. destruct C10_positive_durations as (_ & H2 & H3 & H4 & _). split.
  - match goal with
    | |- exists its, Part001.generate ?y ?a ?b ?e ?g ?c ?o ?p ?s ?l ?n = _ /\ _ =>
        destruct (H3 y a b e g c o p s l n ltac:(lia)) as [its Hg]
    end.
    exists its. split; [exact Hg|]. eapply H2. exact Hg.
  - apply H4.
    + unfold Part002Spec.positiveSettings. simpl. lia.
    + repeat constructor.
Defined.

(** * Further properties of the sweep of DashboardView.tsx *)

Section Further.
Import DashboardView DashboardViewSpec DashboardViewInv DashboardViewFacts.

Lemma generate_EventInv yyyymmdd dayStartMins dayEndMins evs focusGoal peak :
  validInput dayStartMins dayEndMins evs -> lunchClear evs ->
  exists st',
    generate yyyymmdd dayStartMins dayEndMins evs focusGoal peak = Some (items st') /\
    Inv dayStartMins focusGoal st' /\
    EventInv evs dayEndMins st' /\ dayEvents st' = [].
Proof.
  intros Hv Hc.
  destruct (generate_returns yyyymmdd dayStartMins dayEndMins evs focusGoal peak)
    as (st' & Hs & Hg).
  exists st'. split; [exact Hg|].
  destruct (sweep_Inv _ _ _ _ dayStartMins focusGoal _ _ _
              (Inv_initial dayStartMins focusGoal evs) Hs) as [HI _].
  destruct (sweep_EventInv _ _ _ _ evs _ _ _
              (EventInv_initial dayEndMins dayStartMins focusGoal evs Hv Hc) Hs)
    as [HE Hend].
  split; [exact HI|]. split; [exact HE|].
  pose proof (einv_ahead _ _ _ HE) as Ha.
  destruct (dayEvents st') as [|e l]; [reflexivity|]. simpl in Ha. lia.
Qed.

(** X1: the sweep terminates and covers the day: for every input the generator
    returns a schedule whose blocks, each of positive length, lie end to end
    from [dayStart] and reach [dayEnd]. *)
Theorem generate_covers_day yyyymmdd dayStartMins dayEndMins evs focusGoal peak :
  exists its,
    generate yyyymmdd dayStartMins dayEndMins evs focusGoal peak = Some its /\
    chain dayStartMins its /\
    dayEndMins <= dayStartMins + totalMinutes its.
Proof.
  destruct (generate_returns yyyymmdd dayStartMins dayEndMins evs focusGoal peak)
    as (st' & Hs & Hg).
  destruct (sweep_Inv _ _ _ _ dayStartMins focusGoal _ _ _
              (Inv_initial dayStartMins focusGoal evs) Hs) as [HI Hend].
  exists (items st'). split; [exact Hg|].
  destruct HI as [Hc Ht _ _ _ _ _ _ _]. split; [exact Hc | lia].
Qed.

(** X2: meetings verbatim: for a valid input none of whose events starts within
    [780, 900), the Meeting blocks of the schedule are the events of the day,
    one block per event and in their order, each with the start, the duration
    and the summary of its event. *)
Theorem meetings_verbatim_when_lunch_clear
    yyyymmdd dayStartMins dayEndMins evs focusGoal peak :
  validInput dayStartMins dayEndMins evs -> lunchClear evs ->
  exists its,
    generate yyyymmdd dayStartMins dayEndMins evs focusGoal peak = Some its /\
    meetingBlocks its = eventBlocks evs.
Proof.
  intros Hv Hc.
  destruct (generate_EventInv yyyymmdd dayStartMins dayEndMins evs focusGoal peak Hv Hc)
    as (st' & Hg & _ & HE & Hnil).
  exists (items st'). split; [exact Hg|].
  destruct (einv_done _ _ _ HE) as (done & Hd & Hm).
  rewrite Hnil, app_nil_r in Hd. subst done. exact Hm.
Qed.

(** X2 (witness): meetings at 09:30 and at 15:00. *)
Lemma meetings_verbatim_when_lunch_clear_witness :
  exists its,
    generate Scenario.day 480 1080
      [Scenario.dayEvent "Standup" 570 630; Scenario.dayEvent "Review" 900 960]
      7 (480, 720) = Some its /\
    meetingBlocks its = [(570, 60, "Standup"%string); (900, 60, "Review"%string)].
Proof.
  apply (meetings_verbatim_when_lunch_clear Scenario.day 480 1080
           [Scenario.dayEvent "Standup" 570 630; Scenario.dayEvent "Review" 900 960]
           7 (480, 720)).
  - unfold validInput; simpl. lia.
  - repeat constructor; simpl; lia.
Defined.

(** X3: blocks within the day: for a valid input none of whose events starts
    within [780, 900) and a day that does not end within (780, 900), every
    block lies within [dayStart, dayEnd]. *)
Theorem blocks_within_day_when_lunch_fits
    yyyymmdd dayStartMins dayEndMins evs focusGoal peak :
  validInput dayStartMins dayEndMins evs -> lunchClear evs -> lunchFits dayEndMins ->
  exists its,
    generate yyyymmdd dayStartMins dayEndMins evs focusGoal peak = Some its /\
    Forall (withinDay dayStartMins dayEndMins) its.
Proof.
  intros Hv Hc Hfit.
  destruct (generate_EventInv yyyymmdd dayStartMins dayEndMins evs focusGoal peak Hv Hc)
    as (st' & Hg & HI & HE & _).
  exists (items st'). split; [exact Hg|].
  pose proof (chain_lower _ _ (inv_chain _ _ _ HI)) as Hlow.
  pose proof (einv_ends _ _ _ HE Hfit) as Hup.
  rewrite List.Forall_forall in *. intros it Hin. split; auto.
Qed.

(** X3 (witness): the day from 08:00 to 18:00 with a meeting at 09:30. *)
Lemma blocks_within_day_when_lunch_fits_witness :
  exists its,
    generate Scenario.day 480 1080 [Scenario.dayEvent "Standup" 570 630] 7 (480, 720)
      = Some its /\
    Forall (withinDay 480 1080) its.
Proof.
  apply (blocks_within_day_when_lunch_fits Scenario.day 480 1080
           [Scenario.dayEvent "Standup" 570 630] 7 (480, 720)).
  - unfold validInput; simpl. lia.
  - repeat constructor; simpl; lia.
  - unfold lunchFits. lia.
Defined.

End Further.

(** * Times printed and read back *)

Lemma append_cons a d t : String a d +:+ t = String a (d +:+ t).
Proof. reflexivity. Qed.

Lemma isDigit_cases c :
  isDigit c = true ->
  c = "0"%char \/ c = "1"%char \/ c = "2"%char \/ c = "3"%char \/ c = "4"%char \/
  c = "5"%char \/ c = "6"%char \/ c = "7"%char \/ c = "8"%char \/ c = "9"%char.
Proof.
  destruct c as [[] [] [] [] [] [] [] []]; vm_compute; intros H; try discriminate H; tauto.
Qed.

Lemma pretty_N_char_digit x : isDigit (pretty_N_char x) = true.
Proof.
  unfold pretty_N_char.
  repeat (match goal with |- context [match ?y with _ => _ end] => destruct y end;
          try reflexivity).
Qed.

Lemma pretty_N_char_value x :
  (x < 10)%N -> Z.of_nat (nat_of_ascii (pretty_N_char x)) - 48 = Z.of_N x.
Proof.
  intros H.
  assert (x = 0 \/ x = 1 \/ x = 2 \/ x = 3 \/ x = 4 \/ x = 5 \/ x = 6 \/ x = 7 \/ x = 8
          \/ x = 9)%N as Hc by lia.
  repeat (destruct Hc as [->|Hc]; [reflexivity|]). subst. reflexivity.
Qed.

Lemma readDigits_digits s : forall acc t,
  allDigits s = true ->
  readDigits 10 (Some acc) (s +:+ t) = readDigits 10 (Some (decimalValue acc s)) t.
Proof.
  induction s as [|c s IH]; intros acc t H; [reflexivity|].
  rewrite append_cons. simpl in *.
  apply andb_true_iff in H as [Hc Hs].
  assert (radixDigit 10 c = Some (Z.of_nat (nat_of_ascii c) - 48)) as ->.
  { destruct (isDigit_cases c Hc) as [->|[->|[->|[->|[->|[->|[->|[->|[->| ->]]]]]]]]];
      reflexivity. }
  simpl. apply IH. exact Hs.
Qed.

Lemma append_snoc d c s : d +:+ String c s = (d +:+ String c EmptyString) +:+ s.
Proof. induction d as [|a d IH]; [reflexivity|]. rewrite !append_cons, IH. reflexivity. Qed.

Lemma allDigits_snoc d c : allDigits d = true -> isDigit c = true ->
  allDigits (d +:+ String c EmptyString) = true.
Proof.
  intros Hd Hc. induction d as [|a d IH]; [simpl; rewrite Hc; reflexivity|].
  rewrite append_cons. simpl in *.
  apply andb_true_iff in Hd as [-> Hd]. simpl. auto.
Qed.

Lemma decimalValue_snoc d : forall c a,
  decimalValue a (d +:+ String c EmptyString) =
  decimalValue a d * 10 + (Z.of_nat (nat_of_ascii c) - 48).
Proof.
  induction d as [|x d IH]; intros; [reflexivity|]. rewrite append_cons. simpl. apply IH.
Qed.

Lemma length_snoc d c : String.length (d +:+ String c EmptyString) = S (String.length d).
Proof.
  induction d as [|x d IH]; [reflexivity|]. rewrite append_cons. simpl. f_equal. apply IH.
Qed.

(** The digits [pretty] prints for a positive number, in front of [s]. *)
Lemma pretty_N_go_digits x : forall s,
  exists d, pretty_N_go x s = d +:+ s /\ allDigits d = true /\
            ((0 < x)%N -> d <> EmptyString) /\
            forall acc, decimalValue acc d =
                        acc * 10 ^ Z.of_nat (String.length d) + Z.of_N x.
Proof.
  induction (N.lt_wf_0 x) as [x _ IH]; intros s.
  destruct (N.eq_dec x 0%N) as [->|Hx].
  - exists EmptyString. rewrite pretty_N_go_0. repeat split; try reflexivity.
    + intros H; lia.
    + intros acc. simpl. lia.
  - rewrite pretty_N_go_step by lia.
    destruct (IH (x `div` 10)%N ltac:(apply N.div_lt; lia)
                 (String (pretty_N_char (x `mod` 10)) s)) as (d & Hd & Ha & _ & Hv).
    exists (d +:+ String (pretty_N_char (x `mod` 10)) EmptyString).
    split; [|split; [|split]].
    + rewrite Hd. apply append_snoc.
    + apply allDigits_snoc; [exact Ha | apply pretty_N_char_digit].
    + intros _. destruct d; discriminate.
    + intros acc.
      rewrite decimalValue_snoc, length_snoc, Hv, pretty_N_char_value
        by (apply N.mod_lt; lia).
      rewrite Nat2Z.inj_succ, Z.pow_succ_r by lia.
      pose proof (N.div_mod x 10 ltac:(lia)) as E.
      rewrite N2Z.inj_div, N2Z.inj_mod in *.
      assert (Z.of_N x = 10 * (Z.of_N x / 10) + Z.of_N x mod 10) by (apply Z.div_mod; lia).
      change (Z.of_N 10) with 10. lia.
Qed.

Lemma append_nil_r s : s +:+ EmptyString = s.
Proof. induction s as [|c s IH]; [reflexivity|]. rewrite append_cons, IH. reflexivity. Qed.

Lemma readDigits_allDigits s acc :
  allDigits s = true -> readDigits 10 (Some acc) s = Some (decimalValue acc s).
Proof.
  intros H. rewrite <- (append_nil_r s) at 1. rewrite readDigits_digits by exact H.
  reflexivity.
Qed.

(** [parseInt] of a non-empty string of decimal digits is its value: no
    white space, no sign and no [0x] prefix is found. *)
Lemma parseInt_allDigits d :
  allDigits d = true -> d <> EmptyString -> parseInt d = Some (decimalValue 0 d).
Proof.
  intros Hd Hne. destruct d as [|c d]; [congruence|]. simpl in Hd.
  apply andb_true_iff in Hd as [Hc Hd].
  destruct (isDigit_cases c Hc) as [->|[->|[->|[->|[->|[->|[->|[->|[->| ->]]]]]]]]];
    try (unfold parseInt; cbn [trimStart isWhiteSpace]; simpl; rewrite readDigits_allDigits by exact Hd;
         simpl; f_equal; lia).
  destruct d as [|c2 d2].
  - reflexivity.
  - simpl in Hd. apply andb_true_iff in Hd as [Hc2 Hd2].
    destruct (isDigit_cases c2 Hc2) as [->|[->|[->|[->|[->|[->|[->|[->|[->| ->]]]]]]]]];
      unfold parseInt; simpl; rewrite readDigits_allDigits by exact Hd2;
      simpl; f_equal; lia.
Qed.

(** [String(n)] for a number that is not negative: decimal digits. *)
Lemma pretty_nonneg_digits z :
  0 <= z -> allDigits (pretty z) = true /\ pretty z <> EmptyString /\
            decimalValue 0 (pretty z) = z.
Proof.
  intros Hz. destruct z as [|p|p]; [repeat split; discriminate| |lia].
  change (pretty (Z.pos p)) with (pretty_N_go (N.pos p) EmptyString).
  destruct (pretty_N_go_digits (N.pos p) EmptyString) as (d & Hd & Ha & Hne & Hv).
  rewrite Hd, append_nil_r. split; [exact Ha|]. split; [apply Hne; lia|].
  rewrite Hv. change (Z.of_N (N.pos p)) with (Z.pos p). lia.
Qed.

(** Padding with zeros changes neither the digits nor the value. *)
Lemma padStart2_digits d :
  allDigits d = true ->
  allDigits (padStart2 d) = true /\ padStart2 d <> EmptyString /\
  decimalValue 0 (padStart2 d) = decimalValue 0 d.
Proof.
  intros Hd. unfold padStart2.
  destruct d as [|c [|c2 d]]; simpl in *; repeat split; try discriminate; auto.
Qed.

Lemma parseInt_padStart2_pretty z :
  0 <= z -> parseInt (padStart2 (pretty z)) = Some z.
Proof.
  intros Hz. destruct (pretty_nonneg_digits z Hz) as (Ha & _ & Hv).
  destruct (padStart2_digits _ Ha) as (Ha' & Hne' & Hv').
  rewrite parseInt_allDigits by assumption. rewrite Hv', Hv. reflexivity.
Qed.

Lemma allDigits_lacks c d : isDigit c = false -> allDigits d = true -> lacks c d = true.
Proof.
  intros Hc. induction d as [|x d IH]; simpl; [reflexivity|]. intros H.
  apply andb_true_iff in H as [Hx Hd]. rewrite IH by exact Hd.
  destruct (Ascii.eqb_spec x c) as [->|]; [congruence | reflexivity].
Qed.

Lemma rev_app_rev_app a : forall c d,
  String.rev_app (String.rev_app a c) d = String.rev_app c (a +:+ d).
Proof.
  induction a as [|x a IH]; intros c d; [reflexivity|].
  rewrite append_cons. simpl. rewrite IH. reflexivity.
Qed.

(** [split] at the first separator. *)
Lemma splitGo_app sep a : forall cur b,
  lacks sep a = true ->
  splitGo sep cur (a +:+ String sep b) =
  String.rev_app cur a :: splitGo sep EmptyString b.
Proof.
  induction a as [|x a IH]; intros cur b Ha.
  - simpl. rewrite Ascii.eqb_refl. reflexivity.
  - rewrite append_cons. simpl in *. apply andb_true_iff in Ha as [Hx Ha].
    apply negb_true_iff in Hx. rewrite Hx. rewrite IH by exact Ha. reflexivity.
Qed.

Lemma splitGo_lacks sep a : forall cur,
  lacks sep a = true -> splitGo sep cur a = [String.rev_app cur a].
Proof.
  induction a as [|x a IH]; intros cur Ha; simpl in *.
  - reflexivity.
  - apply andb_true_iff in Ha as [Hx Ha]. apply negb_true_iff in Hx. rewrite Hx.
    rewrite IH by exact Ha. reflexivity.
Qed.

Lemma split_app sep a b :
  lacks sep a = true -> split sep (a +:+ String sep b) = a :: split sep b.
Proof. intros Ha. unfold split. rewrite splitGo_app by exact Ha. reflexivity. Qed.

Lemma split_lacks sep a : lacks sep a = true -> split sep a = [a].
Proof. intros Ha. unfold split. rewrite splitGo_lacks by exact Ha. reflexivity. Qed.

Lemma padStart2_pretty_lacks z c :
  0 <= z -> isDigit c = false -> lacks c (padStart2 (pretty z)) = true.
Proof.
  intros Hz Hc. apply allDigits_lacks; [exact Hc|].
  apply padStart2_digits. apply pretty_nonneg_digits. exact Hz.
Qed.

Lemma clockMinutes_fields a b :
  lacks ":" a = true -> lacks ":" b = true ->
  clockMinutes (a +:+ ":" +:+ b) =
  match parseInt a, parseInt b with
  | Some x, Some y => Some (x * 60 + y)
  | _, _ => None
  end.
Proof.
  intros Ha Hb. unfold clockMinutes.
  change (a +:+ ":" +:+ b) with (a +:+ String ":" b).
  rewrite split_app by exact Ha. rewrite split_lacks by exact Hb. reflexivity.
Qed.

(** X5: the [HH:mm] string [formatTime] prints for a minute count that is not
    negative reads back, through the conversion the event normaliser applies
    to a time string, as that minute count. *)
Theorem formatTime_read_back m :
  0 <= m -> clockMinutes (formatTime m) = Some m.
Proof.
  intros Hm. unfold formatTime.
  assert (0 <= m / 60) by (apply Z.div_pos; lia).
  assert (0 <= Z.rem m 60) by (apply Z.rem_nonneg; lia).
  rewrite clockMinutes_fields by (apply padStart2_pretty_lacks; [assumption | reflexivity]).
  rewrite !parseInt_padStart2_pretty by assumption.
  f_equal. rewrite Z.rem_mod_nonneg by lia. pose proof (Z.div_mod m 60). lia.
Qed.

(** The 12-hour clock: hour shown and period of a minute of the day. *)
Lemma twelve_hour_cases h :
  0 <= h < 24 ->
  let h12 := if Z.rem h 12 =? 0 then 12 else Z.rem h 12 in
  (h = 0 /\ h12 = 12) \/ (1 <= h <= 11 /\ h12 = h) \/ (h = 12 /\ h12 = 12) \/
  (13 <= h <= 23 /\ h12 = h - 12).
Proof.
  intros Hh. cbv zeta. rewrite Z.rem_mod_nonneg by lia.
  assert (h = 0 \/ 1 <= h <= 11 \/ h = 12 \/ 13 <= h <= 23) as [->|[H|[->|H]]] by lia.
  - left. split; reflexivity.
  - right; left. rewrite Z.mod_small by lia.
    destruct (Z.eqb_spec h 0); [lia|]. split; [lia | reflexivity].
  - right; right; left. split; reflexivity.
  - right; right; right.
    assert (h mod 12 = h - 12) as ->.
    { symmetry. apply Z.mod_unique_pos with (q := 1); lia. }
    destruct (Z.eqb_spec (h - 12) 0); [lia|]. split; [lia | reflexivity].
Qed.

(** X6: the 12-hour display of a minute of the day.  [formatTo12h] applied to
    the [HH:mm] string is the hour on the 12-hour clock, the minutes and the
    period; [toMinutes] reads these three fields back as the minute; and
    [formatMinutes] of part_002 prints the same text with the period in lower
    case. *)
Theorem twelve_hour_display m :
  0 <= m < 1440 ->
  let h12 := if Z.rem (m / 60) 12 =? 0 then 12 else Z.rem (m / 60) 12 in
  let hh := padStart2 (pretty h12) in
  let mm := padStart2 (pretty (Z.rem m 60)) in
  let p := if 12 <=? m / 60 then "PM"%string else "AM"%string in
  App.formatTo12h (formatTime m) = hh +:+ ":" +:+ mm +:+ " " +:+ p /\
  toMinutes hh mm p = Some m /\
  Part002.formatMinutes m =
    hh +:+ ":" +:+ mm +:+ " " +:+ Part002.toLowerCase p.
Proof.
  intros Hm. cbv zeta.
  assert (Hh : 0 <= m / 60 < 24).
  { split; [apply Z.div_pos; lia | apply Z.div_lt_upper_bound; lia]. }
  assert (Hr : 0 <= Z.rem m 60 < 60).
  { rewrite Z.rem_mod_nonneg by lia. apply Z.mod_pos_bound. lia. }
  assert (Hmm : m = m / 60 * 60 + Z.rem m 60).
  { rewrite Z.rem_mod_nonneg by lia. pose proof (Z.div_mod m 60). lia. }
  pose proof (twelve_hour_cases (m / 60) Hh) as Hc. cbv zeta in Hc.
  set (h12 := if Z.rem (m / 60) 12 =? 0 then 12 else Z.rem (m / 60) 12) in *.
  assert (H12 : 0 <= h12) by lia.
  split; [|split].
  - unfold App.formatTo12h, formatTime.
    change (padStart2 (pretty (m / 60)) +:+ ":" +:+ padStart2 (pretty (Z.rem m 60)))
      with (padStart2 (pretty (m / 60)) +:+ String ":" (padStart2 (pretty (Z.rem m 60)))).
    rewrite split_app by (apply padStart2_pretty_lacks; [lia | reflexivity]).
    rewrite split_lacks by (apply padStart2_pretty_lacks; [lia | reflexivity]).
    cbn [nth]. rewrite parseInt_padStart2_pretty by lia. reflexivity.
  - unfold toMinutes. rewrite !parseInt_padStart2_pretty by lia.
    destruct (Z.leb_spec 12 (m / 60)) as [Hpm|Ham]; cbn [String.eqb Ascii.eqb Bool.eqb andb negb];
      destruct (Z.eqb_spec h12 12); cbn [andb negb]; f_equal; lia.
  - unfold Part002.formatMinutes. fold h12.
    destruct (12 <=? m / 60); reflexivity.
Qed.

(** * The events of the calendar import *)

Module AppFacts.
Import App.

Lemma eventOf_duration title sp ep : 1 <= durationMinutes (eventOf title sp ep).
Proof.
  unfold eventOf. destruct (endFieldsOf sp ep) as [endH endM]. simpl.
  destruct (startTotalOf sp) as [s|]; [|lia].
  destruct (endTotalOf sp ep) as [t|]; [|lia].
  destruct (Z.eqb_spec (Z.max 0 (t - s)) 0); lia.
Qed.

Section ParseICS.
Variable parseToISTDate : string -> option DateParts.

Lemma finish_Forall (P : CalendarEvent -> Prop) evs ce :
  (forall title sp ep, P (eventOf title sp ep)) ->
  Forall P evs -> Forall P (finish parseToISTDate evs ce).
Proof.
  intros HP H. unfold finish. destruct ce as [ce|]; [|exact H].
  destruct (String.eqb (Pending.dtStart ce) ""); [exact H|].
  destruct (parseToISTDate (Pending.dtStart ce)); [|exact H].
  apply Forall_app. split; [exact H|]. constructor; [apply HP | constructor].
Qed.

Lemma processLine_Forall (P : CalendarEvent -> Prop) st line :
  (forall title sp ep, P (eventOf title sp ep)) ->
  Forall P (events st) -> Forall P (events (processLine parseToISTDate st line)).
Proof.
  intros HP H. unfold processLine.
  destruct (String.eqb (trim line) ""); [exact H|].
  destruct (cut ":" line) as [[keyPart rest]|]; [|exact H].
  destruct (_ && _); [exact H|].
  destruct (_ && _); [apply finish_Forall; assumption|].
  destruct (currentEvent st); [|exact H].
  repeat (match goal with |- context [if ?c then _ else _] => destruct c end;
          try exact H).
Qed.

Lemma parseLines_Forall (P : CalendarEvent -> Prop) lines :
  (forall title sp ep, P (eventOf title sp ep)) ->
  Forall P (parseLines parseToISTDate lines).
Proof.
  intros HP. unfold parseLines.
  assert (H : forall st, Forall P (events st) ->
                         Forall P (events (fold_left (processLine parseToISTDate) lines st))).
  { induction lines as [|l lines IH]; intros st Hst; simpl; [exact Hst|].
    apply IH. apply processLine_Forall; assumption. }
  apply H. constructor.
Qed.

End ParseICS.
End AppFacts.

(** X7: every event the import produces lasts at least a minute, whatever the
    text and whatever the date conversion. *)
Theorem imported_events_last (parseToISTDate : string -> option App.DateParts) data :
  Forall (fun e => 1 <= durationMinutes e) (App.parseICS parseToISTDate data).
Proof.
  unfold App.parseICS. apply AppFacts.parseLines_Forall. apply AppFacts.eventOf_duration.
Qed.

Lemma clockField_parseInt s : clockField s -> parseInt s = Some (fieldValue s).
Proof. intros [Ha Hne]. apply parseInt_allDigits; assumption. Qed.

Lemma clockField_lacks s : clockField s -> lacks ":" s = true.
Proof. intros [Ha _]. apply allDigits_lacks; [reflexivity | exact Ha]. Qed.

Lemma clockField_padStart2_pretty z : 0 <= z -> clockField (padStart2 (pretty z)).
Proof.
  intros Hz. destruct (pretty_nonneg_digits z Hz) as (Ha & _ & _).
  destruct (padStart2_digits _ Ha) as (Ha' & Hne & _). split; assumption.
Qed.

Lemma fieldValue_padStart2_pretty z : 0 <= z -> fieldValue (padStart2 (pretty z)) = z.
Proof.
  intros Hz. destruct (pretty_nonneg_digits z Hz) as (Ha & _ & Hv).
  destruct (padStart2_digits _ Ha) as (_ & _ & Hv'). unfold fieldValue. congruence.
Qed.

Lemma fieldValue_nonneg s : clockField s -> 0 <= fieldValue s.
Proof.
  intros [Ha _]. unfold fieldValue.
  assert (H : forall d acc, allDigits d = true -> 0 <= acc -> 0 <= decimalValue acc d).
  { clear. induction d as [|c d IH]; intros acc Hd Hacc; simpl in *; [exact Hacc|].
    apply andb_true_iff in Hd as [Hc Hd]. apply IH; [exact Hd|].
    unfold isDigit in Hc. apply andb_true_iff in Hc as [H1 H2].
    apply Nat.leb_le in H1, H2. lia. }
  apply H; [exact Ha | lia].
Qed.

Lemma clockMinutes_clockFields a b :
  clockField a -> clockField b ->
  clockMinutes (a +:+ ":" +:+ b) = Some (fieldValue a * 60 + fieldValue b).
Proof.
  intros Ha Hb. rewrite clockMinutes_fields by (apply clockField_lacks; assumption).
  rewrite !clockField_parseInt by assumption. reflexivity.
Qed.

(** X8: an event with an end date: what the import computes agrees with what the
    generators read back from its two time strings. *)
Theorem imported_event_with_end title sp ep :
  clockField (App.hour sp) -> clockField (App.minute sp) ->
  clockField (App.hour ep) -> clockField (App.minute ep) ->
  let e := App.eventOf title sp (Some ep) in
  let S := fieldValue (App.hour sp) * 60 + fieldValue (App.minute sp) in
  let E := fieldValue (App.hour ep) * 60 + fieldValue (App.minute ep) in
  toDayEvent e = Some {| event := e; startMins := S; endMins := E |} /\
  Part002.toDayEvent e =
    Some {| event := e; startMins := S; endMins := S + durationMinutes e |} /\
  (App.yyyymmdd ep = App.yyyymmdd sp ->
     durationMinutes e = if S <? E then E - S else 60) /\
  (App.yyyymmdd ep <> App.yyyymmdd sp ->
     durationMinutes e = if S <? E + 1440 then E + 1440 - S else 60).
Proof.
  intros Hsh Hsm Heh Hem. cbv zeta.
  assert (Hs : eventStartMins (App.eventOf title sp (Some ep)) =
               Some (fieldValue (App.hour sp) * 60 + fieldValue (App.minute sp))).
  { unfold eventStartMins. simpl. apply clockMinutes_clockFields; assumption. }
  assert (He : eventEndMins (App.eventOf title sp (Some ep)) =
               Some (fieldValue (App.hour ep) * 60 + fieldValue (App.minute ep))).
  { unfold eventEndMins. simpl. apply clockMinutes_clockFields; assumption. }
  assert (Hd : durationMinutes (App.eventOf title sp (Some ep)) =
               let S := fieldValue (App.hour sp) * 60 + fieldValue (App.minute sp) in
               let E := fieldValue (App.hour ep) * 60 + fieldValue (App.minute ep) in
               let T := if String.eqb (App.yyyymmdd ep) (App.yyyymmdd sp) then E
                        else E + 1440 in
               if Z.max 0 (T - S) =? 0 then 60 else Z.max 0 (T - S)).
  { unfold App.eventOf, App.endFieldsOf, App.startTotalOf, App.endTotalOf, App.endFieldsOf.
    simpl. rewrite !clockField_parseInt by assumption. simpl.
    destruct (String.eqb (App.yyyymmdd ep) (App.yyyymmdd sp)); reflexivity. }
  split; [|split; [|split]].
  - unfold toDayEvent. rewrite Hs, He. reflexivity.
  - unfold Part002.toDayEvent. rewrite Hs. reflexivity.
  - intros Heq. rewrite Hd. cbv zeta. rewrite Heq, String.eqb_refl.
    destruct (Z.ltb_spec (fieldValue (App.hour sp) * 60 + fieldValue (App.minute sp))
                (fieldValue (App.hour ep) * 60 + fieldValue (App.minute ep)));
      destruct (Z.eqb_spec (Z.max 0 (fieldValue (App.hour ep) * 60 + fieldValue (App.minute ep)
                              - (fieldValue (App.hour sp) * 60 + fieldValue (App.minute sp)))) 0);
      lia.
  - intros Hne. rewrite Hd. cbv zeta.
    destruct (String.eqb_spec (App.yyyymmdd ep) (App.yyyymmdd sp)); [congruence|].
    destruct (Z.ltb_spec (fieldValue (App.hour sp) * 60 + fieldValue (App.minute sp))
                (fieldValue (App.hour ep) * 60 + fieldValue (App.minute ep) + 1440));
      destruct (Z.eqb_spec (Z.max 0 (fieldValue (App.hour ep) * 60 + fieldValue (App.minute ep)
                              + 1440
                              - (fieldValue (App.hour sp) * 60 + fieldValue (App.minute sp)))) 0);
      lia.
Qed.

(** X9: an event without an end date lasts an hour; its end string is the start
    an hour later on the 24-hour clock, which wraps at midnight. *)
Theorem imported_event_without_end title sp :
  clockField (App.hour sp) -> clockField (App.minute sp) ->
  let e := App.eventOf title sp None in
  let h := fieldValue (App.hour sp) in
  let m := fieldValue (App.minute sp) in
  durationMinutes e = 60 /\
  endTime e = padStart2 (pretty ((h + 1) mod 24)) +:+ ":" +:+ App.minute sp /\
  toDayEvent e =
    Some {| event := e; startMins := h * 60 + m; endMins := (h + 1) mod 24 * 60 + m |}.
Proof.
  intros Hh Hm. cbv zeta.
  pose proof (fieldValue_nonneg _ Hh) as Hh0.
  assert (Hmod : 0 <= (fieldValue (App.hour sp) + 1) mod 24 < 24)
    by (apply Z.mod_pos_bound; lia).
  assert (Hle : (fieldValue (App.hour sp) + 1) mod 24 <= fieldValue (App.hour sp) + 1)
    by (apply Z.mod_le; lia).
  assert (Hend : App.endFieldsOf sp None =
                 (padStart2 (pretty ((fieldValue (App.hour sp) + 1) mod 24)), App.minute sp)).
  { unfold App.endFieldsOf. rewrite clockField_parseInt by exact Hh. simpl.
    rewrite Z.rem_mod_nonneg by lia. reflexivity. }
  pose proof (clockField_padStart2_pretty _ (proj1 Hmod)) as Hf.
  split; [|split].
  - unfold App.eventOf, App.endTotalOf, App.startTotalOf. rewrite Hend. simpl.
    rewrite !clockField_parseInt by assumption. simpl.
    rewrite fieldValue_padStart2_pretty by lia.
    match goal with |- (if ?c =? 0 then _ else _) = _ => destruct (Z.eqb_spec c 0) end;
      [reflexivity|].
    assert ((fieldValue (App.hour sp) + 1) mod 24 = fieldValue (App.hour sp) + 1
            \/ (fieldValue (App.hour sp) + 1) mod 24 <= fieldValue (App.hour sp)) as [E|E]
      by lia; lia.
  - unfold App.eventOf. rewrite Hend. reflexivity.
  - unfold toDayEvent, eventStartMins, eventEndMins, App.eventOf. rewrite Hend. simpl.
    rewrite !clockMinutes_clockFields by assumption.
    rewrite fieldValue_padStart2_pretty by lia. reflexivity.
Qed.

(** * Identifiers and completion in DashboardView.tsx *)

(** The [id] template is injective on the blocks of one day. *)
Lemma idString_inj a b : id_date a = id_date b -> idString a = idString b -> a = b.
Proof.
  destruct a as [da ta xa], b as [db tb xb]. simpl. intros <- H.
  unfold idString in H. simpl in H.
  apply (inj (String.append da)) in H.
  assert (ta = tb /\ xa = xb) as [-> ->]; [|reflexivity].
  destruct ta, tb; cbv [typeName String.append] in H; try discriminate H;
    (split; [reflexivity|]); apply (inj pretty); congruence.
Qed.

Module DashboardViewBlockFacts.
Import DashboardView DashboardViewSpec DashboardViewInv DashboardViewFacts DashboardViewBlocks.

Lemma Transition_items yyyymmdd dayEndMins st st' :
  Transition yyyymmdd dayEndMins st st' ->
  items st' = items st \/
  exists ty lbl d col, 0 < d /\ items st' = items (push yyyymmdd st ty lbl d col).
Proof.
  intros T. destruct T as [Hc Ha Hb | e He Hs Hd | e He Hs Hd | d lbl Hd Hx
                          | d lbl col Hd Hr Hx | d Hd Hr Hx].
  - right. exists break, "Lunch Break"%string, 60, None. split; [lia | reflexivity].
  - left. reflexivity.
  - right. exists meeting, (summary (event e)), (durationMinutes (event e)), None.
    split; [lia | reflexivity].
  - right. exists break, lbl, d, None. split; [lia | reflexivity].
  - right. exists focus, lbl, d, col. split; [lia | reflexivity].
  - right. exists hobby, "Creative Hobby Block"%string, d, (Some "bg-[#E1EED9]"%string).
    split; [lia | reflexivity].
Qed.

Lemma stamped_Transition yyyymmdd dayEndMins st st' :
  Forall (stamped yyyymmdd) (items st) -> Transition yyyymmdd dayEndMins st st' ->
  Forall (stamped yyyymmdd) (items st').
Proof.
  intros H T. destruct (Transition_items _ _ _ _ T) as [->|(ty & lbl & d & col & _ & ->)];
    [exact H|].
  simpl. apply Forall_app. split; [exact H|]. repeat constructor.
Qed.

Lemma generate_stamped yyyymmdd dayStartMins dayEndMins evs focusGoal peak :
  exists its,
    generate yyyymmdd dayStartMins dayEndMins evs focusGoal peak = Some its /\
    chain dayStartMins its /\ Forall (stamped yyyymmdd) its.
Proof.
  destruct (generate_returns yyyymmdd dayStartMins dayEndMins evs focusGoal peak)
    as (st' & Hs & Hg).
  exists (items st'). split; [exact Hg|].
  destruct (sweep_Inv _ _ _ _ dayStartMins focusGoal _ _ _
              (Inv_initial dayStartMins focusGoal evs) Hs) as [HI _].
  split; [apply (inv_chain _ _ _ HI)|].
  refine (proj1 (sweep_invariant yyyymmdd dayEndMins (fst peak) (snd peak)
                   (fun st => Forall (stamped yyyymmdd) (items st)) _ _ _ _ _ Hs)).
  - intros st st'' H _ T. eapply stamped_Transition; eauto.
  - constructor.
Qed.

Lemma ids_NoDup yyyymmdd t its :
  chain t its -> Forall (stamped yyyymmdd) its ->
  NoDup (map (fun it => idString (id it)) its).
Proof.
  intros Hc Hs. apply NoDup_alt. intros i j x Hi Hj.
  rewrite list_lookup_fmap in Hi, Hj.
  destruct (its !! i) as [a|] eqn:Ea; [|discriminate].
  destruct (its !! j) as [b|] eqn:Eb; [|discriminate].
  simpl in Hi, Hj. injection Hi as Hi. injection Hj as Hj.
  assert (Hab : id a = id b).
  { rewrite List.Forall_forall in Hs.
    destruct (Hs a) as (Da & _ & _); [apply list_elem_of_In; eapply list_elem_of_lookup_2; eauto|].
    destruct (Hs b) as (Db & _ & _); [apply list_elem_of_In; eapply list_elem_of_lookup_2; eauto|].
    apply idString_inj; congruence. }
  pose proof (chain_ascending _ _ Hc) as Hasc.
  destruct (Nat.lt_trichotomy i j) as [Hlt|[->|Hlt]]; [|reflexivity|].
  - specialize (Hasc i j a b Hlt Ea Eb). unfold startMinute in Hasc. rewrite Hab in Hasc. lia.
  - specialize (Hasc j i b a Hlt Eb Ea). unfold startMinute in Hasc. rewrite Hab in Hasc. lia.
Qed.

End DashboardViewBlockFacts.

Section DashboardViewBlockTheorems.
Import DashboardView DashboardViewSpec DashboardViewBlocks DashboardViewSessions.

Lemma handleSessionComplete_elem id x (completed : gset string) :
  x ∈ handleSessionComplete id completed <->
  (x = id /\ id ∉ completed) \/ (x <> id /\ x ∈ completed).
Proof.
  unfold handleSessionComplete.
  destruct (decide (id ∈ completed)) as [Hin|Hout].
  - rewrite elem_of_difference, elem_of_singleton.
    destruct (decide (x = id)) as [->|]; tauto.
  - rewrite elem_of_union, elem_of_singleton.
    destruct (decide (x = id)) as [->|]; tauto.
Qed.

(** X10: the identifiers of the blocks of a schedule are pairwise distinct. *)
Theorem block_ids_distinct yyyymmdd dayStartMins dayEndMins evs focusGoal peak :
  exists its,
    generate yyyymmdd dayStartMins dayEndMins evs focusGoal peak = Some its /\
    NoDup (map (fun it => idString (id it)) its).
Proof.
  destruct (DashboardViewBlockFacts.generate_stamped yyyymmdd dayStartMins dayEndMins evs
              focusGoal peak) as (its & Hg & Hc & Hs).
  exists its. split; [exact Hg|]. eapply DashboardViewBlockFacts.ids_NoDup; eauto.
Qed.

(** X11: marking a block done changes the state of that block and of no other,
    and marking it again undoes it. *)
Theorem completion_toggles_one_block yyyymmdd dayStartMins dayEndMins evs focusGoal peak :
  exists its,
    generate yyyymmdd dayStartMins dayEndMins evs focusGoal peak = Some its /\
    forall (completed : gset string) i a, its !! i = Some a ->
      let completed' := handleSessionComplete (idString (id a)) completed in
      isDone completed' a = negb (isDone completed a) /\
      (forall j b, its !! j = Some b -> j <> i -> isDone completed' b = isDone completed b) /\
      handleSessionComplete (idString (id a)) completed' = completed.
Proof.
  destruct (DashboardViewBlockFacts.generate_stamped yyyymmdd dayStartMins dayEndMins evs
              focusGoal peak) as (its & Hg & Hc & Hs).
  exists its. split; [exact Hg|].
  pose proof (DashboardViewBlockFacts.ids_NoDup _ _ _ Hc Hs) as Hnd.
  intros completed i a Hi. cbv zeta. unfold isDone.
  split; [|split].
  - destruct (decide (idString (id a) ∈ completed)) as [Hin|Hout].
    + rewrite (bool_decide_eq_true_2 _ Hin). simpl. apply bool_decide_eq_false_2.
      rewrite handleSessionComplete_elem. tauto.
    + rewrite (bool_decide_eq_false_2 _ Hout). simpl. apply bool_decide_eq_true_2.
      rewrite handleSessionComplete_elem. tauto.
  - intros j b Hj Hne.
    assert (Hd : idString (id b) <> idString (id a)).
    { intros E. apply Hne.
      apply (proj1 (NoDup_alt _) Hnd j i (idString (id a)));
        rewrite list_lookup_fmap; [rewrite Hj | rewrite Hi]; simpl; congruence. }
    apply bool_decide_ext. rewrite handleSessionComplete_elem. tauto.
  - apply set_eq. intros x. rewrite !handleSessionComplete_elem.
    destruct (decide (x = idString (id a))) as [->|Hx]; [|tauto].
    destruct (decide (idString (id a) ∈ completed)); tauto.
Qed.

End DashboardViewBlockTheorems.

(** * Focus before Hobby in DashboardView.tsx *)

Module DashboardViewOrderFacts.
Import DashboardView DashboardViewSpec DashboardViewInv DashboardViewFacts DashboardViewBlocks.

Lemma hasHobby_snoc l x : hasHobby (l ++ [x]) <-> hasHobby l \/ type x = hobby.
Proof.
  unfold hasHobby. rewrite Exists_app, Exists_cons, Exists_nil. tauto.
Qed.

Lemma focusBeforeHobby_snoc l x :
  focusBeforeHobby l -> (type x = focus -> ~ hasHobby l) -> focusBeforeHobby (l ++ [x]).
Proof.
  intros Hl Hx i j a b Hij Hi Hj Ha Hb.
  destruct (decide (j < length l)%nat) as [Hlt|Hge].
  - rewrite lookup_app_l in Hi, Hj by lia. exact (Hl i j a b Hij Hi Hj Ha Hb).
  - assert (Hjl : j = length l).
    { apply lookup_lt_Some in Hj. rewrite length_app in Hj. simpl in Hj. lia. }
    subst j. rewrite lookup_app_l in Hi by lia.
    rewrite list_lookup_middle in Hj by reflexivity. injection Hj as <-.
    apply (Hx Hb). unfold hasHobby. apply List.Exists_exists. exists a. split; [|exact Ha].
    apply list_elem_of_In. eapply list_elem_of_lookup_2; eauto.
Qed.

Lemma HobbyInv_Transition yyyymmdd dayEndMins st st' :
  HobbyInv st -> Transition yyyymmdd dayEndMins st st' -> HobbyInv st'.
Proof.
  intros [Hord Hrem] T.
  destruct T as [Hc Ha Hb | e He Hs Hd | e He Hs Hd | d lbl Hd Hx
                | d lbl col Hd Hr Hx | d Hd Hr Hx]; unfold HobbyInv; simpl.
  - split; [apply focusBeforeHobby_snoc; [exact Hord | discriminate]|].
    rewrite hasHobby_snoc. simpl. intros [H|H]; [auto | discriminate].
  - split; assumption.
  - split; [apply focusBeforeHobby_snoc; [exact Hord | discriminate]|].
    rewrite hasHobby_snoc. simpl. intros [H|H]; [auto | discriminate].
  - split; [apply focusBeforeHobby_snoc; [exact Hord | discriminate]|].
    rewrite hasHobby_snoc. simpl. intros [H|H]; [auto | discriminate].
  - split; [apply focusBeforeHobby_snoc; [exact Hord|]; intros _ H; specialize (Hrem H); lia|].
    rewrite hasHobby_snoc. simpl. intros [H|H]; [specialize (Hrem H); lia | discriminate].
  - split; [apply focusBeforeHobby_snoc; [exact Hord | discriminate]|].
    intros _. exact Hr.
Qed.

End DashboardViewOrderFacts.

Section DashboardViewOrderTheorems.
Import DashboardView DashboardViewSpec DashboardViewInv DashboardViewFacts DashboardViewBlocks.

(** X12: hobby blocks only fill what is left once the goal is scheduled: no Focus
    block comes after a Hobby block, and a schedule that holds a Hobby block
    holds the whole goal. *)
Theorem hobby_only_after_goal yyyymmdd dayStartMins dayEndMins evs focusGoal peak :
  exists its,
    generate yyyymmdd dayStartMins dayEndMins evs focusGoal peak = Some its /\
    focusBeforeHobby its /\
    (0 <= focusGoal -> hasHobby its -> focusMinutes its = focusGoal * 60).
Proof.
  destruct (generate_returns yyyymmdd dayStartMins dayEndMins evs focusGoal peak)
    as (st' & Hs & Hg).
  exists (items st'). split; [exact Hg|].
  destruct (sweep_Inv _ _ _ _ dayStartMins focusGoal _ _ _
              (Inv_initial dayStartMins focusGoal evs) Hs) as [HI _].
  assert (HH : HobbyInv st').
  { refine (proj1 (sweep_invariant yyyymmdd dayEndMins (fst peak) (snd peak)
                     HobbyInv _ _ _ _ _ Hs)).
    - intros st st'' H _ T. eapply DashboardViewOrderFacts.HobbyInv_Transition; eauto.
    - split; [intros i j a b _ Hi; discriminate Hi|].
      intros H. inversion H. }
  destruct HH as [Hord Hrem]. split; [exact Hord|].
  intros Hg0 Hh. specialize (Hrem Hh).
  pose proof (inv_focus _ _ _ HI). pose proof (inv_remaining _ _ _ HI). lia.
Qed.

End DashboardViewOrderTheorems.

(** * The catalogue of blocks of DashboardView.tsx *)

Module DashboardViewCatalogueFacts.
Import DashboardView DashboardViewSpec DashboardViewInv DashboardViewFacts DashboardViewBlocks.

Section Sweep.
Variable yyyymmdd : string.
Variable dayEndMins : Z.
Variables peakStart peakEnd : Z.
Variable evs : list DayEvent.

Local Abbreviation Cat := (CatalogueInv evs peakStart peakEnd).

(** A generic form of the loop invariant rule, on the loop body itself. *)
Lemma sweep_step_invariant (P : State -> Prop) :
  (forall st, P st -> currentTime st < dayEndMins ->
              P (step yyyymmdd dayEndMins peakStart peakEnd st)) ->
  forall fuel st st', P st ->
    sweep yyyymmdd dayEndMins peakStart peakEnd fuel st = Some st' -> P st'.
Proof.
  intros Hstep. induction fuel as [|fuel IH]; intros st st' HP; simpl;
    destruct (currentTime st <? dayEndMins) eqn:E.
  - discriminate.
  - intros [= <-]. exact HP.
  - apply Z.ltb_lt in E. apply IH. apply Hstep; assumption.
  - intros [= <-]. exact HP.
Qed.

Lemma Cat_push st ty lbl d col :
  Cat st ->
  catalogued evs peakStart peakEnd
    {| id := {| id_date := yyyymmdd; id_type := ty; id_time := currentTime st |};
       type := ty; label := lbl; duration := d;
       color := match col with
                | Some c => c
                | None => nth (colorIdx st mod 4) eventColors ""
                end;
       startTime := formatTime (currentTime st) |} ->
  Cat (push yyyymmdd st ty lbl d col).
Proof.
  intros [Hc He] Hx. split; [|exact He].
  simpl. apply Forall_app. split; [exact Hc|]. constructor; [exact Hx | constructor].
Qed.

Lemma Cat_setFocusRemaining st f : Cat st -> Cat (setFocusRemaining st f).
Proof. intros [H1 H2]. split; [exact H1 | exact H2]. Qed.

Lemma Cat_fillGap st nm :
  Cat st -> Cat (fillGap yyyymmdd dayEndMins peakStart peakEnd st nm).
Proof.
  intros HC. unfold fillGap. cbv zeta.
  set (gap := match nm with
              | Some e => startMins e - currentTime st
              | None => dayEndMins - currentTime st
              end).
  destruct (Z.ltb_spec 0 gap) as [Hgap|Hgap].
  - assert (Hbreak : Cat (addSession yyyymmdd st break
               (if 45 <=? Z.min (if 45 <=? gap then 45 else 15) gap
                then "Wellness Break" else "Short break")
               (Z.min (if 45 <=? gap then 45 else 15) gap) None)).
    { destruct (Z.leb_spec 45 gap) as [H45|H45].
      - rewrite Z.min_l by lia. rewrite addSession_pos by lia.
        apply Cat_push; [exact HC|]. unfold catalogued. simpl. right; left. split; reflexivity.
      - rewrite addSession_pos by lia. apply Cat_push; [exact HC|].
        unfold catalogued. simpl.
        destruct (Z.leb_spec 45 (Z.min 15 gap)); [lia|]. right; right.
        split; [reflexivity | lia]. }
    assert (Hwork : Cat
      (let inPeak := (peakStart <=? currentTime st) && (currentTime st <? peakEnd) in
       let focusDur := Z.min (if inPeak then 90 else 45) gap in
       if 0 <? focusRemaining st then
         let focusDur := Z.min focusDur (focusRemaining st) in
         let st' := addSession yyyymmdd st focus
                      (if inPeak then "Peak Focus Session" else "Standard Focus")
                      focusDur (Some "bg-white") in
         setFocusRemaining st' (focusRemaining st' - focusDur)
       else
         addSession yyyymmdd st hobby "Creative Hobby Block" (Z.min gap 60)
           (Some "bg-[#E1EED9]"))).
    { cbv zeta. destruct (Z.ltb_spec 0 (focusRemaining st)) as [Hrem|Hrem].
      - set (inPeak := (peakStart <=? currentTime st) && (currentTime st <? peakEnd)).
        assert (Hin : inPeak = true <-> peakStart <= currentTime st < peakEnd)
          by (unfold inPeak; rewrite andb_true_iff, Z.leb_le, Z.ltb_lt; tauto).
        set (d := Z.min (Z.min (if inPeak then 90 else 45) gap) (focusRemaining st)).
        assert (Hd : 0 < d <= if inPeak then 90 else 45) by (unfold d; destruct inPeak; lia).
        rewrite addSession_pos by lia.
        apply Cat_setFocusRemaining. apply Cat_push; [exact HC|].
        unfold catalogued, startMinute. simpl.
        destruct inPeak eqn:Ei; [left | right]; (split; [reflexivity|]); (split; [|lia]).
        + apply Hin. reflexivity.
        + rewrite <- Hin. congruence.
      - rewrite addSession_pos by lia. apply Cat_push; [exact HC|].
        unfold catalogued. simpl. split; [reflexivity | lia]. }
    destruct (lastType st) as [[]|]; first [exact Hbreak | exact Hwork].
  - destruct nm; (split; [apply HC | apply HC]).
Qed.

Lemma Cat_step st :
  Cat st -> Cat (step yyyymmdd dayEndMins peakStart peakEnd st).
Proof.
  intros HC. unfold step.
  destruct ((780 <=? currentTime st) && (currentTime st <? 840)
            && negb (hasLongBreakAnchor st) && negb (isBreakType (lastType st))) eqn:E.
  - repeat (apply andb_prop in E as [E ?]).
    apply Z.leb_le in E. apply Z.ltb_lt in H1.
    rewrite addSession_pos by lia.
    assert (H' : Cat (push yyyymmdd st break "Lunch Break" 60 None)).
    { apply Cat_push; [exact HC|]. unfold catalogued. simpl. left.
      unfold startMinute. simpl. repeat split; lia. }
    split; apply H'.
  - cbv zeta. destruct (nextMeetingOf st) as [e|] eqn:En; [|apply Cat_fillGap; exact HC].
    destruct (Z.eqb_spec (startMins e) (currentTime st)) as [Ee|Ee];
      [|apply Cat_fillGap; exact HC].
    apply nextMeetingOf_Some in En as [Hin _].
    assert (Hsh : forall st0, Cat st0 -> Cat (shiftEvents st0)).
    { intros st0 [H1 H2]. split; [exact H1|]. simpl. intros e' He'. apply H2.
      destruct (dayEvents st0); [destruct He' | right; exact He']. }
    apply Hsh.
    destruct (Z_lt_le_dec 0 (durationMinutes (event e))) as [Hd|Hd].
    + rewrite addSession_pos by exact Hd. apply Cat_push; [exact HC|].
      unfold catalogued. simpl. exists e. unfold startMinute. simpl.
      repeat split; auto. apply HC. exact Hin.
    + rewrite addSession_nonpos by exact Hd. exact HC.
Qed.

End Sweep.
End DashboardViewCatalogueFacts.

Section DashboardViewCatalogueTheorems.
Import DashboardView DashboardViewSpec DashboardViewInv DashboardViewFacts DashboardViewBlocks.

(** X13: the catalogue of blocks: every block of a schedule is an event of the
    day placed at its start, the lunch anchor, a Wellness Break of 45 minutes,
    a Short break of at most 15, a Focus block of at most 90 minutes within
    the peak window and of at most 45 outside it, or a Hobby block of at most
    60. *)
Theorem blocks_catalogued yyyymmdd dayStartMins dayEndMins evs focusGoal peak :
  exists its,
    generate yyyymmdd dayStartMins dayEndMins evs focusGoal peak = Some its /\
    Forall (catalogued evs (fst peak) (snd peak)) its.
Proof.
  destruct (generate_returns yyyymmdd dayStartMins dayEndMins evs focusGoal peak)
    as (st' & Hs & Hg).
  exists (items st'). split; [exact Hg|].
  refine (proj1 (DashboardViewCatalogueFacts.sweep_step_invariant yyyymmdd dayEndMins
                   (fst peak) (snd peak) (CatalogueInv evs (fst peak) (snd peak))
                   _ _ _ _ _ Hs)).
  - intros st H _. apply DashboardViewCatalogueFacts.Cat_step. exact H.
  - split; [constructor | auto].
Qed.

End DashboardViewCatalogueTheorems.

(** * The timeline of part_001 *)

Module Part001TimelineFacts.
Import Part001 Part001Timeline.

Lemma p1_totalMinutes_app l1 l2 :
  totalMinutes (l1 ++ l2) = totalMinutes l1 + totalMinutes l2.
Proof. unfold totalMinutes. rewrite map_app. apply sumZ_app. Qed.

Lemma p1_minutesWhere_snoc f l x :
  minutesWhere f (l ++ [x]) =
  minutesWhere f l + (if f (type x) then duration x else 0).
Proof.
  unfold minutesWhere. rewrite List.filter_app, map_app, sumZ_app. simpl.
  destruct (f (type x)); simpl; lia.
Qed.

Lemma p1_chain_app t l1 l2 :
  chain t (l1 ++ l2) <-> chain t l1 /\ chain (t + totalMinutes l1) l2.
Proof.
  revert t. induction l1 as [|x l1 IH]; intros t; simpl.
  - unfold totalMinutes; simpl. rewrite Z.add_0_r. tauto.
  - rewrite IH. unfold totalMinutes; simpl.
    replace (t + duration x + sumZ (map duration l1))
      with (t + (duration x + sumZ (map duration l1))) by lia.
    tauto.
Qed.

Lemma p1_chain_positive t l : chain t l -> Forall (fun it => 0 < duration it) l.
Proof.
  revert t. induction l as [|x l IH]; intros t; simpl; [constructor|].
  intros (_ & Hd & Hc). constructor; eauto.
Qed.

Lemma p1_chain_lower t l : chain t l -> Forall (fun it => t <= startMinute it) l.
Proof.
  revert t. induction l as [|x l IH]; intros t; simpl; [constructor|].
  intros (Hs & Hd & Hc). constructor; [lia|].
  eapply Forall_impl; [apply (IH _ Hc)|]. simpl. intros; lia.
Qed.

Lemma p1_chain_contiguous t l : chain t l -> contiguous l.
Proof.
  revert t. induction l as [|x l IH]; intros t Hc i a b Ha Hb.
  - discriminate.
  - simpl in Hc. destruct Hc as (Hs & Hd & Hc). destruct i as [|i]; simpl in Ha, Hb.
    + injection Ha as <-. destruct l as [|y l]; [discriminate|].
      simpl in Hb. injection Hb as <-. simpl in Hc. lia.
    + eapply IH; eauto.
Qed.

Lemma p1_chain_ascending t l : chain t l -> strictlyAscending l.
Proof.
  revert t. induction l as [|x l IH]; intros t Hc i j a b Hij Ha Hb.
  - discriminate.
  - simpl in Hc. destruct Hc as (Hs & Hd & Hc).
    destruct j as [|j]; [lia|]. simpl in Hb. destruct i as [|i]; simpl in Ha.
    + injection Ha as <-.
      pose proof (p1_chain_lower _ _ Hc) as Hl.
      rewrite Forall_forall in Hl.
      assert (Hin : b ∈ l) by (eapply list_elem_of_lookup_2; eauto).
      specialize (Hl b Hin). simpl in Hl. lia.
    + eapply (IH _ Hc i j); eauto. lia.
Qed.

Section Sweep.

Variable yyyymmdd : string.
Variable dayEndMins : Z.
Variables peakStart peakEnd : Z.
Variables shortBreak longBreak : Z.
Variables focusGoal currentAdj : Z.
Variable newSessionIds : list ItemId.
Variables dayStartMins goal : Z.

Local Abbreviation addSession := (addSession yyyymmdd newSessionIds).
Local Abbreviation fillGap :=
  (fillGap yyyymmdd dayEndMins peakStart peakEnd shortBreak focusGoal currentAdj
     newSessionIds).
Local Abbreviation step :=
  (step yyyymmdd dayEndMins peakStart peakEnd shortBreak longBreak focusGoal currentAdj
     newSessionIds).
Local Abbreviation sweep :=
  (sweep yyyymmdd dayEndMins peakStart peakEnd shortBreak longBreak focusGoal currentAdj
     newSessionIds).
Local Abbreviation Inv := (Inv yyyymmdd newSessionIds dayStartMins goal).

Lemma p1_Inv_ext st1 st2 :
  Inv st1 -> items st2 = items st1 -> currentTime st2 = currentTime st1 ->
  focusRemaining st2 = focusRemaining st1 -> Inv st2.
Proof.
  intros [Hc Ht Hs Hf Hr] Hi Hct Hfr.
  split; rewrite ?Hi, ?Hct, ?Hfr; assumption.
Qed.

(** [addSession] of a block that is no Focus block. *)
Lemma p1_Inv_addSession st ty lbl d col :
  Inv st -> ty <> focus -> Inv (addSession st ty lbl d col).
Proof.
  intros HI Hty. unfold Part001.addSession.
  destruct (Z.leb_spec d 0) as [Hd|Hd]; [exact HI|].
  destruct HI as [Hc Ht Hs Hf Hr]. split; simpl.
  - apply p1_chain_app. split; [exact Hc|]. simpl. unfold startMinute. simpl.
    repeat split; lia.
  - rewrite p1_totalMinutes_app. unfold totalMinutes at 2. simpl. lia.
  - apply Forall_app. split; [exact Hs|]. repeat constructor.
  - unfold focusMinutes in *. rewrite p1_minutesWhere_snoc. simpl.
    destruct ty; try congruence; simpl; lia.
  - exact Hr.
Qed.

(** [addSession] of a Focus block, followed by the update of the budget. *)
Lemma p1_Inv_focus st lbl d col :
  Inv st -> 0 < d <= focusRemaining st ->
  Inv (setFocusRemaining (addSession st focus lbl d col)
         (focusRemaining (addSession st focus lbl d col) - d)).
Proof.
  intros [Hc Ht Hs Hf Hr] Hd. unfold Part001.addSession.
  destruct (Z.leb_spec d 0) as [Hd'|Hd']; [lia|].
  split; simpl.
  - apply p1_chain_app. split; [exact Hc|]. simpl. unfold startMinute. simpl.
    repeat split; lia.
  - rewrite p1_totalMinutes_app. unfold totalMinutes at 2. simpl. lia.
  - apply Forall_app. split; [exact Hs|]. repeat constructor.
  - unfold focusMinutes in *. rewrite p1_minutesWhere_snoc. simpl. lia.
  - lia.
Qed.

Lemma p1_Inv_fillGap st :
  Inv st -> currentTime st < dayEndMins ->
  (forall e, nextMeetingOf st = Some e -> startMins e <> currentTime st) ->
  Inv (fillGap st (nextMeetingOf st)).
Proof.
  intros HI Hlt Hne. unfold Part001.fillGap.
  set (gap := match nextMeetingOf st with
              | Some e => startMins e - currentTime st
              | None => dayEndMins - currentTime st
              end).
  assert (Hgap : 0 < gap).
  { subst gap. destruct (nextMeetingOf st) as [e|] eqn:E; [|lia].
    pose proof (Part001Facts.p1_nextMeetingOf_Some _ _ E) as [_ Hle].
    specialize (Hne e eq_refl). lia. }
  clearbody gap.
  destruct (Z.ltb_spec 0 gap); [|lia].
  destruct (lastType st) as [[]|]; try (apply p1_Inv_addSession; [exact HI | discriminate]);
    (destruct (Z.ltb_spec 0 (focusRemaining st));
     [|apply p1_Inv_addSession; [exact HI | discriminate]]);
    cbv zeta; (apply p1_Inv_focus; [exact HI|]); repeat case_match; lia.
Qed.

Lemma p1_Inv_step st : Inv st -> currentTime st < dayEndMins -> Inv (step st).
Proof.
  intros HI Hlt. unfold Part001.step.
  destruct ((780 <=? currentTime st) && (currentTime st <? 840)
            && negb (hasLongBreakAnchor st) && negb (isBreakType (lastType st))) eqn:E.
  - eapply p1_Inv_ext; [apply (p1_Inv_addSession st break "Lunch Break" longBreak None);
                        [exact HI | discriminate] | reflexivity..].
  - cbv zeta. destruct (nextMeetingOf st) as [e|] eqn:En.
    + destruct (Z.eqb_spec (startMins e) (currentTime st)) as [Ee|Ee].
      * eapply p1_Inv_ext;
          [apply (p1_Inv_addSession st meeting (summary (event e))
                    (durationMinutes (event e)) None); [exact HI | discriminate]
          | reflexivity..].
      * rewrite <- En. apply p1_Inv_fillGap; [exact HI | exact Hlt |].
        intros e' He'. rewrite En in He'. injection He' as <-. exact Ee.
    + rewrite <- En. apply p1_Inv_fillGap; [exact HI | exact Hlt |].
      intros e' He'. rewrite En in He'. discriminate.
Qed.

Lemma p1_sweep_Inv fuel : forall st st',
  Inv st -> sweep fuel st = Some st' -> Inv st' /\ dayEndMins <= currentTime st'.
Proof.
  induction fuel as [|fuel IH]; intros st st' HI; simpl;
    destruct (Z.ltb_spec (currentTime st) dayEndMins); try discriminate;
    try (intros [= <-]; split; [exact HI | lia]).
  apply IH. apply p1_Inv_step; assumption.
Qed.

End Sweep.

Lemma p1_generate_Inv yyyymmdd dayStartMins dayEndMins evs focusGoal currentAdj
    overrideGoal peak shortBreak longBreak newSessionIds its :
  generate yyyymmdd dayStartMins dayEndMins evs focusGoal currentAdj overrideGoal
    peak shortBreak longBreak newSessionIds = Some its ->
  exists st',
    its = items st' /\
    Inv yyyymmdd newSessionIds dayStartMins (goalOf focusGoal currentAdj overrideGoal) st' /\
    dayEndMins <= currentTime st'.
Proof.
  unfold generate.
  destruct (sweep _ _ _ _ _ _ _ _ _ _ _) as [st'|] eqn:E; simpl; [|discriminate].
  intros [= <-]. exists st'. split; [reflexivity|].
  eapply p1_sweep_Inv; [|exact E].
  split; simpl.
  - exact I.
  - unfold totalMinutes. simpl. lia.
  - apply Forall_nil_2.
  - unfold focusMinutes, minutesWhere, goalOf. simpl. destruct overrideGoal; lia.
  - unfold goalOf. destruct overrideGoal; lia.
Qed.

End Part001TimelineFacts.

Section Part001Theorems.
Import Part001 Part001Timeline Part001Sessions.

(** X14: the timeline of part_001: for a positive short break the generator
    returns; the blocks lie end to end from the start of the day, each of
    positive length, and reach its end; the Focus minutes do not exceed the
    goal the day is generated for (the goal with the adjustment of the day,
    or the override). *)
Theorem part001_timeline yyyymmdd dayStartMins dayEndMins evs focusGoal currentAdj
    overrideGoal peak shortBreak longBreak newSessionIds :
  0 < shortBreak ->
  exists its,
    generate yyyymmdd dayStartMins dayEndMins evs focusGoal currentAdj overrideGoal
      peak shortBreak longBreak newSessionIds = Some its /\
    chain dayStartMins its /\ contiguous its /\ strictlyAscending its /\
    dayEndMins <= dayStartMins + totalMinutes its /\
    focusMinutes its <= Z.max 0 (goalOf focusGoal currentAdj overrideGoal * 60).
Proof.
  intros Hsb.
  destruct (Part001Facts.p1_generate_returns yyyymmdd dayStartMins dayEndMins evs focusGoal
              currentAdj overrideGoal peak shortBreak longBreak newSessionIds Hsb)
    as [its Hg].
  exists its. split; [exact Hg|].
  destruct (Part001TimelineFacts.p1_generate_Inv _ _ _ _ _ _ _ _ _ _ _ _ Hg)
    as (st' & -> & [Hc Ht Hs Hf Hr] & Hend).
  split; [exact Hc|].
  split; [eapply Part001TimelineFacts.p1_chain_contiguous; exact Hc|].
  split; [eapply Part001TimelineFacts.p1_chain_ascending; exact Hc|].
  split; lia.
Qed.

Lemma calcForSchedule_from acc s :
  let r := fold_left
       (fun acc item =>
          match type item with
          | focus | meeting =>
              {| focusMins := focusMins acc + duration item; breakMins := breakMins acc |}
          | _ =>
              {| focusMins := focusMins acc; breakMins := breakMins acc + duration item |}
          end) s acc in
  focusMins r = focusMins acc + focusMinutes s + meetingMinutes s /\
  focusMins r + breakMins r = focusMins acc + breakMins acc + totalMinutes s.
Proof.
  cbv zeta. revert acc. induction s as [|x s IH]; intros acc.
  - unfold focusMinutes, meetingMinutes, minutesWhere, totalMinutes. simpl. lia.
  - simpl. destruct (IH (match type x with
          | focus | meeting =>
              {| focusMins := focusMins acc + duration x; breakMins := breakMins acc |}
          | _ =>
              {| focusMins := focusMins acc; breakMins := breakMins acc + duration x |}
          end)) as [-> ->].
    unfold focusMinutes, meetingMinutes, minutesWhere, totalMinutes. simpl.
    destruct (type x); simpl; lia.
Qed.

(** X15: the daily figures of the summary: Total Focus is the minutes of the
    Focus and Meeting blocks, and Total Focus and Total Breaks together are
    the length of the timeline, which is at least the length of the day. *)
Theorem stats_account_for_timeline yyyymmdd dayStartMins dayEndMins evs focusGoal
    currentAdj overrideGoal peak shortBreak longBreak newSessionIds its :
  generate yyyymmdd dayStartMins dayEndMins evs focusGoal currentAdj overrideGoal
    peak shortBreak longBreak newSessionIds = Some its ->
  let s := stats daily its [] in
  focusMins s = focusMinutes its + meetingMinutes its /\
  focusMins s + breakMins s = totalMinutes its /\
  dayEndMins - dayStartMins <= focusMins s + breakMins s.
Proof.
  intros Hg. cbv zeta. simpl. unfold calcForSchedule.
  destruct (calcForSchedule_from {| focusMins := 0; breakMins := 0 |} its) as [H1 H2].
  cbv zeta in H1, H2. simpl in H1, H2.
  destruct (Part001TimelineFacts.p1_generate_Inv _ _ _ _ _ _ _ _ _ _ _ _ Hg)
    as (st' & E & [Hc Ht Hs Hf Hr] & Hend).
  rewrite <- E in *. repeat split; lia.
Qed.

Lemma minutesWhere_nonneg f its :
  Forall (fun it => 0 < duration it) its -> 0 <= minutesWhere f its.
Proof.
  unfold minutesWhere. induction 1 as [|x l Hx Hl IH]; simpl; [lia|].
  destruct (f (type x)); simpl; lia.
Qed.

Lemma ceilDiv_positive n : 1 <= n -> 1 <= ceilDiv n 60.
Proof.
  intros H. unfold ceilDiv.
  assert ((- n) / 60 < 0); [|lia].
  apply Z.div_lt_upper_bound; lia.
Qed.

(** X16: meetings count as focus in the summary.  When the Meeting blocks of a
    day alone exceed the goal by a quarter of an hour or more, the day is
    reported over the goal whatever adjustment it was generated with, the
    adjustment is offered, and each use of it lowers the adjustment by an
    hour or more. *)
Theorem meetings_above_goal_stay_over yyyymmdd dayStartMins dayEndMins evs focusGoal
    currentAdj overrideGoal peak shortBreak longBreak newSessionIds its :
  generate yyyymmdd dayStartMins dayEndMins evs focusGoal currentAdj overrideGoal
    peak shortBreak longBreak newSessionIds = Some its ->
  focusGoal * 60 + 15 <= meetingMinutes its ->
  let scheduled := focusMins (stats daily its []) in
  goalDiff daily scheduled focusGoal = Some over /\
  adjustmentOffered daily (goalDiff daily scheduled focusGoal) = true /\
  adjustmentStep reduce scheduled focusGoal <= -1.
Proof.
  intros Hg Hm. cbv zeta.
  assert (Hsch : focusMins (stats daily its []) = focusMinutes its + meetingMinutes its).
  { destruct (calcForSchedule_from {| focusMins := 0; breakMins := 0 |} its) as [H1 _].
    cbv zeta in H1. simpl in H1. exact H1. }
  rewrite Hsch. clear Hsch.
  pose proof (minutesWhere_nonneg (ItemType_eqb focus) its
                (Part001Facts.p1_generate_positive _ _ _ _ _ _ _ _ _ _ _ _ Hg)) as Hf.
  fold (focusMinutes its) in Hf.
  assert (Hover : goalDiff daily (focusMinutes its + meetingMinutes its) focusGoal
                  = Some over).
  { unfold goalDiff.
    destruct (Z.ltb_spec (Z.abs (focusMinutes its + meetingMinutes its - focusGoal * 60)) 15);
      [lia|].
    destruct (Z.ltb_spec (focusMinutes its + meetingMinutes its - focusGoal * 60) 0);
      [lia | reflexivity]. }
  rewrite Hover. split; [reflexivity|]. split; [reflexivity|].
  unfold adjustmentStep.
  pose proof (ceilDiv_positive
                (Z.abs (focusMinutes its + meetingMinutes its - focusGoal * 60))
                ltac:(lia)).
  lia.
Qed.

End Part001Theorems.

(** * The stall and the auto-play of part_001 *)

Section Part001Stall.
Import Part001.

Variable yyyymmdd : string.
Variable dayEndMins : Z.
Variables peakStart peakEnd : Z.
Variables shortBreak longBreak : Z.
Variables focusGoal currentAdj : Z.
Variable newSessionIds : list ItemId.

Local Abbreviation step :=
  (step yyyymmdd dayEndMins peakStart peakEnd shortBreak longBreak focusGoal currentAdj
     newSessionIds).
Local Abbreviation sweep :=
  (sweep yyyymmdd dayEndMins peakStart peakEnd shortBreak longBreak focusGoal currentAdj
     newSessionIds).

Lemma sweep_fixed_point st :
  currentTime st < dayEndMins -> step st = st -> forall fuel, sweep fuel st = None.
Proof.
  intros Hlt Hfix. induction fuel as [|fuel IH]; simpl;
    destruct (Z.ltb_spec (currentTime st) dayEndMins); try lia; [reflexivity|].
  rewrite Hfix. exact IH.
Qed.

(** X17: with a short break setting that is not positive the loop does not
    terminate: at a point after a Focus or Meeting block (or at the start of
    the day) that lies less than 45 minutes before the next event or the end
    of the day, and where the lunch anchor does not apply, the break to place
    has no length, [addSession] returns without a change, and the iteration
    repeats. *)
Theorem short_break_stall st :
  shortBreak <= 0 ->
  currentTime st < dayEndMins ->
  lastType st = None \/ lastType st = Some focus \/ lastType st = Some meeting ->
  currentTime st < 780 \/ 840 <= currentTime st \/ hasLongBreakAnchor st = true ->
  (forall e, nextMeetingOf st = Some e -> currentTime st < startMins e < currentTime st + 45) ->
  (nextMeetingOf st = None -> dayEndMins < currentTime st + 45) ->
  forall fuel, sweep fuel st = None.
Proof.
  intros Hsb Hlt Hlast Hlunch Hnext Hend. apply sweep_fixed_point; [exact Hlt|].
  unfold Part001.step.
  assert (((780 <=? currentTime st) && (currentTime st <? 840)
           && negb (hasLongBreakAnchor st) && negb (isBreakType (lastType st))) = false) as ->.
  { destruct Hlunch as [H|[H|H]].
    - destruct (Z.leb_spec 780 (currentTime st)); [lia | reflexivity].
    - destruct (Z.ltb_spec (currentTime st) 840); [lia|]. rewrite andb_false_r. reflexivity.
    - rewrite H. simpl. rewrite andb_false_r. reflexivity. }
  cbv zeta.
  assert (Hfill : fillGap yyyymmdd dayEndMins peakStart peakEnd shortBreak focusGoal
                    currentAdj newSessionIds st (nextMeetingOf st) = st).
  { unfold fillGap.
    set (gap := match nextMeetingOf st with
                | Some e => startMins e - currentTime st
                | None => dayEndMins - currentTime st
                end).
    assert (Hgap : 0 < gap < 45).
    { subst gap. destruct (nextMeetingOf st) as [e|]; [specialize (Hnext e eq_refl); lia|].
      specialize (Hend eq_refl). lia. }
    clearbody gap.
    destruct (Z.ltb_spec 0 gap); [|lia].
    assert (Hb : addSession yyyymmdd newSessionIds st break
                   (if 45 <=? Z.min (if 45 <=? gap then 45 else shortBreak) gap
                    then "Wellness Break" else "Short break")
                   (Z.min (if 45 <=? gap then 45 else shortBreak) gap) None = st).
    { unfold addSession. destruct (Z.leb_spec 45 gap); [lia|].
      destruct (Z.leb_spec (Z.min shortBreak gap) 0); [reflexivity | lia]. }
    destruct Hlast as [->|[->| ->]]; exact Hb. }
  destruct (nextMeetingOf st) as [e|] eqn:En; [|exact Hfill].
  destruct (Z.eqb_spec (startMins e) (currentTime st)) as [Ee|Ee]; [|exact Hfill].
  specialize (Hnext e eq_refl). lia.
Qed.

End Part001Stall.

Section Part001AutoPlay.
Import Part001 Part001Timeline Part001Sessions.





End Part001AutoPlay.

(** * The timer of part_002 *)

Module Part002TimerFacts.
Import Part002 Part002Timer.

Lemma run_app schedule n : forall m st,
  run schedule (n + m) st =
  match run schedule n st with
  | Normal st' => run schedule m st'
  | TypeError => TypeError
  end.
Proof.
  induction n as [|n IH]; intros m st; simpl; [reflexivity|].
  destruct (effect schedule st); [apply IH | reflexivity].
Qed.

(** While the timer runs, each run of the effect takes a second off. *)
Lemma run_ticks schedule k : forall st,
  isPaused st = false -> timeLeft st = Z.of_nat k ->
  run schedule k st =
  Normal {| activeItemIndex := activeItemIndex st; timeLeft := 0;
            isPaused := false; completedIds := completedIds st |}.
Proof.
  induction k as [|k IH]; intros st Hp Ht.
  - simpl. destruct st; simpl in *. subst. reflexivity.
  - simpl. unfold effect. rewrite Hp. simpl.
    destruct (Z.ltb_spec 0 (timeLeft st)); [|lia].
    rewrite IH by (simpl; lia). reflexivity.
Qed.

Lemma play_from schedule :
  Forall (fun it => 0 <= duration it) schedule ->
  forall n i item (completed : gset string),
    (length schedule - i = n)%nat -> schedule !! i = Some item ->
    run schedule (secondsToPlay (drop i schedule))
      {| activeItemIndex := Some i; timeLeft := duration item * 60;
         isPaused := false; completedIds := completed |} =
    Normal {| activeItemIndex := None; timeLeft := 0; isPaused := true;
              completedIds := completed ∪ list_to_set (map id (drop i schedule)) |}.
Proof.
  intros Hpos. induction n as [|n IH]; intros i item completed Hn Hi.
  - apply lookup_lt_Some in Hi. lia.
  - assert (Hd : 0 <= duration item).
    { rewrite List.Forall_forall in Hpos. apply Hpos. apply list_elem_of_In.
      eapply list_elem_of_lookup_2; eauto. }
    rewrite (drop_S _ _ _ Hi).
    change (secondsToPlay (item :: drop (S i) schedule))
      with (S (Z.to_nat (duration item * 60)) + secondsToPlay (drop (S i) schedule))%nat.
    replace (S (Z.to_nat (duration item * 60)) + secondsToPlay (drop (S i) schedule))%nat
      with (Z.to_nat (duration item * 60) + S (secondsToPlay (drop (S i) schedule)))%nat
      by lia.
    rewrite run_app. rewrite run_ticks by (simpl; lia).
    cbn [run map list_to_set activeItemIndex completedIds].
    unfold effect at 1. cbn [isPaused timeLeft activeItemIndex completedIds negb andb].
    change (0 <? 0) with false. change (0 =? 0) with true. cbn [andb]. rewrite Hi.
    destruct (Nat.ltb_spec (S i) (length schedule)) as [Hlt|Hge].
    + destruct (lookup_lt_is_Some_2 schedule (S i) Hlt) as [next Hnext].
      rewrite Hnext. rewrite (IH (S i) next) by (auto; lia).
      f_equal. f_equal. rewrite (assoc_L (∪)). reflexivity.
    + rewrite drop_ge by lia. simpl. rewrite (right_id_L ∅ (∪)). reflexivity.
Qed.

End Part002TimerFacts.

Section Part002TimerTheorems.
Import Part002 Part002Timer.

(** X19: started on a block, the timer plays the schedule through: block after
    block is counted down and marked done, and after the last one the timer
    is paused with no active block. *)
Theorem timer_plays_through schedule i item st :
  Forall (fun it => 0 <= duration it) schedule ->
  schedule !! i = Some item ->
  activeItemIndex st <> Some i ->
  exists st1,
    toggleTimer schedule i st = Normal st1 /\
    run schedule (secondsToPlay (drop i schedule)) st1 =
    Normal {| activeItemIndex := None; timeLeft := 0; isPaused := true;
              completedIds := completedIds st ∪ list_to_set (map id (drop i schedule)) |}.
Proof.
  intros Hpos Hi Hne. eexists. split.
  - unfold toggleTimer. rewrite bool_decide_eq_false_2 by exact Hne. rewrite Hi. reflexivity.
  - eapply Part002TimerFacts.play_from; eauto.
Qed.

(** X20: the timer outlives a change of day.  The active index and the seconds
    left are kept when another day is selected; when the countdown ends, the
    block at that index of the schedule then shown is the one marked done,
    and with no block at that index the lookup of its [id] throws. *)
Theorem timer_outlives_day_switch (scheduleA scheduleB : list ScheduleItem) i item st :
  scheduleA !! i = Some item -> 0 <= duration item ->
  activeItemIndex st <> Some i ->
  exists st1,
    toggleTimer scheduleA i st = Normal st1 /\
    match scheduleB !! i with
    | None => run scheduleB (S (Z.to_nat (duration item * 60))) st1 = TypeError
    | Some other =>
        exists st2,
          run scheduleB (S (Z.to_nat (duration item * 60))) st1 = Normal st2 /\
          completedIds st2 = completedIds st ∪ {[ id other ]}
    end.
Proof.
  intros Hi Hd Hne. eexists. split.
  - unfold toggleTimer. rewrite bool_decide_eq_false_2 by exact Hne. rewrite Hi. reflexivity.
  - replace (S (Z.to_nat (duration item * 60)))
      with (Z.to_nat (duration item * 60) + 1)%nat by lia.
    destruct (scheduleB !! i) as [other|] eqn:Eb.
    + rewrite Part002TimerFacts.run_app.
      rewrite Part002TimerFacts.run_ticks by (simpl; lia). simpl.
      unfold effect. simpl. rewrite Eb.
      destruct (Nat.ltb_spec (S i) (length scheduleB)) as [Hlt|Hge].
      * destruct (lookup_lt_is_Some_2 scheduleB (S i) Hlt) as [next Hnext].
        rewrite Hnext. eexists. split; reflexivity.
      * eexists. split; reflexivity.
    + rewrite Part002TimerFacts.run_app.
      rewrite Part002TimerFacts.run_ticks by (simpl; lia). simpl.
      unfold effect. simpl. rewrite Eb. reflexivity.
Qed.

End Part002TimerTheorems.

(** * The order of the schedule of part_002 *)

Module Part002OrderFacts.
Import Part002 Part002Spec Part002Order.

(** The final sort. *)
Lemma insertItem_Permutation x l : insertItem x l ≡ₚ x :: l.
Proof.
  induction l as [|y l IH]; simpl; [reflexivity|].
  destruct (startTimeMins x <=? startTimeMins y); [reflexivity|].
  rewrite IH. apply Permutation_swap.
Qed.

Lemma sortItems_Permutation l : sortItems l ≡ₚ l.
Proof.
  induction l as [|x l IH]; simpl; [reflexivity|].
  rewrite insertItem_Permutation, IH. reflexivity.
Qed.

Lemma insertItem_ascending x l : ascending l -> ascending (insertItem x l).
Proof.
  unfold ascending. induction l as [|y l IH]; simpl; intros H.
  - repeat constructor.
  - destruct (Z.leb_spec (startTimeMins x) (startTimeMins y)); simpl.
    + constructor; [exact H | constructor; exact H0].
    + inversion H as [|? ? Hs Hh]; subst. constructor; [apply IH; exact Hs|].
      destruct l as [|z l]; simpl.
      * constructor. lia.
      * destruct (Z.leb_spec (startTimeMins x) (startTimeMins z)); simpl; constructor.
        -- lia.
        -- inversion Hh; subst. assumption.
Qed.

Lemma sortItems_ascending l : ascending (sortItems l).
Proof.
  induction l as [|x l IH]; simpl; [constructor|].
  apply insertItem_ascending. exact IH.
Qed.

Lemma sortItems_id l : ascending l -> sortItems l = l.
Proof.
  unfold ascending. induction l as [|x l IH]; simpl; intros H; [reflexivity|].
  inversion H as [|? ? Hs Hh]; subst. rewrite IH by exact Hs.
  destruct l as [|y l]; simpl; [reflexivity|].
  inversion Hh; subst. destruct (Z.leb_spec (startTimeMins x) (startTimeMins y));
    [reflexivity | lia].
Qed.

(** [addItem] appends the block, merges it into the last one, or drops it. *)
Lemma addItem_cases l x :
  addItem l x = l \/ addItem l x = l ++ [x] \/
  exists l' y, l = l' ++ [y] /\ type y = type x /\ isBreak y = true /\
               addItem l x = l' ++ [addDuration y (duration x)].
Proof.
  unfold addItem. destruct (last l) as [y|] eqn:El.
  - destruct (includesType BREAK_TYPES (type x) && includesType BREAK_TYPES (type y)) eqn:Eb;
      [|right; left; reflexivity].
    destruct (ItemType_eqb (type x) (type y)) eqn:Et; [|left; reflexivity].
    right; right. apply last_Some in El as [l' ->].
    exists l', y. rewrite removelast_last.
    apply ItemType_eqb_eq in Et. apply andb_true_iff in Eb as [_ Hy].
    repeat split; auto.
  - destruct (includesType [hobby; wellness; break] (type x));
      [left | right; left]; reflexivity.
Qed.

Lemma addItem_starts l x :
  map startTimeMins (addItem l x) = map startTimeMins l \/
  map startTimeMins (addItem l x) = map startTimeMins l ++ [startTimeMins x].
Proof.
  destruct (addItem_cases l x) as [->|[->|(l' & y & -> & _ & _ & ->)]].
  - left; reflexivity.
  - right. rewrite map_app. reflexivity.
  - left. rewrite !map_app. reflexivity.
Qed.

Lemma Forall_starts (P : Z -> Prop) l :
  Forall (fun it => P (startTimeMins it)) l <-> Forall P (map startTimeMins l).
Proof. rewrite List.Forall_map. reflexivity. Qed.

Lemma addItem_Forall_start (P : Z -> Prop) l x :
  Forall (fun it => P (startTimeMins it)) l -> P (startTimeMins x) ->
  Forall (fun it => P (startTimeMins it)) (addItem l x).
Proof.
  rewrite !Forall_starts. intros Hl Hx.
  destruct (addItem_starts l x) as [->| ->]; [exact Hl|].
  apply Forall_app. split; [exact Hl | repeat constructor; exact Hx].
Qed.

Lemma addItem_ascending l x :
  ascending l -> Forall (fun it => startTimeMins it <= startTimeMins x) l ->
  ascending (addItem l x).
Proof.
  unfold ascending. intros Hs Hx.
  destruct (addItem_starts l x) as [->| ->]; [exact Hs|].
  apply Sorted_snoc; [exact Hs|].
  apply (Forall_starts (fun z => z <= startTimeMins x)) in Hx.
  destruct (map startTimeMins l) as [|z zs _] using rev_ind; [constructor|].
  constructor. apply Forall_app in Hx as [_ Hx]. inversion Hx; subst. assumption.
Qed.

Lemma find_split {A} (p : A -> bool) l x :
  List.find p l = Some x ->
  exists l1 l2, l = l1 ++ x :: l2 /\ Forall (fun y => p y = false) l1 /\ p x = true.
Proof.
  induction l as [|y l IH]; simpl; [discriminate|].
  destruct (p y) eqn:E.
  - intros [= ->]. exists [], l. repeat split; auto.
  - intros H. destruct (IH H) as (l1 & l2 & -> & H1 & H2).
    exists (y :: l1), l2. repeat split; auto.
Qed.

Lemma find_none_all {A} (p : A -> bool) l x :
  List.find p l = None -> In x l -> p x = false.
Proof. intros H Hin. exact (find_none p l H x Hin). Qed.

Section Events.
Variable evs : list DayEvent.
Hypothesis Hsorted : sortedEvents evs.

(** The event found at the cursor starts before every event not over yet. *)
Lemma eventAt_first t e' :
  eventAt evs t = Some e' ->
  startMins e' <= t < endMins e' /\
  forall e, In e evs -> t < endMins e -> startMins e' <= startMins e.
Proof.
  unfold eventAt. intros H.
  destruct (find_split _ _ _ H) as (l1 & l2 & E & H1 & H2).
  apply andb_true_iff in H2 as [Ha Hb]. apply Z.leb_le in Ha. apply Z.ltb_lt in Hb.
  split; [lia|]. intros e Hin He.
  rewrite E in Hin. apply in_app_or in Hin as [Hin|[<-|Hin]].
  - rewrite List.Forall_forall in H1. specialize (H1 e Hin).
    apply andb_false_iff in H1 as [H1|H1]; [apply Z.leb_gt in H1 | apply Z.ltb_ge in H1]; lia.
  - lia.
  - unfold sortedEvents in Hsorted. rewrite E in Hsorted.
    pose proof (StronglySorted_app_1_r _ _ _ Hsorted) as Hs.
    apply StronglySorted_inv in Hs as [_ Hs]. rewrite List.Forall_forall in Hs.
    apply Hs. exact Hin.
Qed.

Lemma eventAt_none t e :
  eventAt evs t = None -> In e evs -> t < endMins e -> t < startMins e.
Proof.
  unfold eventAt. intros H Hin He.
  pose proof (find_none_all _ _ _ H Hin) as Hp. simpl in Hp.
  apply andb_false_iff in Hp as [Hp|Hp]; [apply Z.leb_gt in Hp | apply Z.ltb_ge in Hp]; lia.
Qed.

(** The end of the gap lies before every event that starts after the cursor. *)
Lemma gapEnd_first t dayEndMins e :
  In e evs -> t < startMins e ->
  match List.find (fun e => t <? startMins e) evs with
  | Some ne => Z.min (startMins ne) dayEndMins
  | None => dayEndMins
  end <= startMins e.
Proof.
  intros Hin He.
  destruct (List.find (fun e => t <? startMins e) evs) as [ne|] eqn:E.
  - destruct (find_split _ _ _ E) as (l1 & l2 & E' & H1 & H2).
    rewrite E' in Hin. apply in_app_or in Hin as [Hin|[<-|Hin]].
    + rewrite List.Forall_forall in H1. specialize (H1 e Hin).
      apply Z.ltb_ge in H1. lia.
    + lia.
    + unfold sortedEvents in Hsorted. rewrite E' in Hsorted.
      pose proof (StronglySorted_app_1_r _ _ _ Hsorted) as Hs.
      apply StronglySorted_inv in Hs as [_ Hs]. rewrite List.Forall_forall in Hs.
      specialize (Hs e Hin). lia.
  - pose proof (find_none_all _ _ _ E Hin) as Hp. simpl in Hp.
    apply Z.ltb_ge in Hp. lia.
Qed.

Lemma OrderInv_push st st' x :
  OrderInv evs st ->
  items st' = addItem (items st) x ->
  currentTime st <= currentTime st' ->
  startTimeMins x <= currentTime st' ->
  Forall (fun it => startTimeMins it <= startTimeMins x) (items st) ->
  (forall e, In e evs -> currentTime st' < endMins e -> startTimeMins x <= startMins e) ->
  OrderInv evs st'.
Proof.
  intros [K1 K2 K3] Hi Ht Hx Hle He. split; rewrite Hi.
  - apply addItem_ascending; assumption.
  - apply (addItem_Forall_start (fun z => z <= currentTime st')); [|exact Hx].
    eapply Forall_impl; [exact K2|]. simpl. intros; lia.
  - intros e Hin Hend.
    apply (addItem_Forall_start (fun z => z <= startMins e)); [|apply He; assumption].
    apply K3; [exact Hin | lia].
Qed.

(** A block placed at the cursor, where no event is under way. *)
Lemma OrderInv_push_here st st' x :
  OrderInv evs st ->
  eventAt evs (currentTime st) = None ->
  items st' = addItem (items st) x ->
  startTimeMins x = currentTime st ->
  currentTime st <= currentTime st' ->
  OrderInv evs st'.
Proof.
  intros HK Hnone Hi Hx Ht. eapply OrderInv_push; eauto.
  - lia.
  - rewrite Hx. apply (oinv_behind _ _ HK).
  - intros e Hin He. rewrite Hx.
    pose proof (eventAt_none _ e Hnone Hin ltac:(lia)). lia.
Qed.

End Events.

End Part002OrderFacts.

Module Part002SweepFacts.
Import Part002 Part002Spec Part002Order Part002OrderFacts.

Lemma startTimeMins_mkItem i t l s start d : startTimeMins (mkItem i t l s start d) = start.
Proof. reflexivity. Qed.

Lemma OrderInv_ext evs st1 st2 :
  OrderInv evs st1 -> items st2 = items st1 -> currentTime st2 = currentTime st1 ->
  OrderInv evs st2.
Proof. intros [K1 K2 K3] Hi Ht. split; rewrite ?Hi, ?Ht; assumption. Qed.

Section Sweep.

Variable settings : AppSettings.
Variable evs : list DayEvent.
Variables dayStartMins dayEndMins : Z.
Variable currentPeak : option (Z * Z).

Hypothesis Hsorted : sortedEvents evs.
Hypothesis Hhobby : 0 <= hobbyBreakDuration settings.

Local Abbreviation fillGap := (fillGap settings currentPeak).
Local Abbreviation step := (step settings evs dayStartMins dayEndMins currentPeak).
Local Abbreviation sweep := (sweep settings evs dayStartMins dayEndMins currentPeak).

Lemma OrderInv_fillGap st gapEnd :
  OrderInv evs st ->
  eventAt evs (currentTime st) = None ->
  currentTime st < gapEnd ->
  (forall e, In e evs -> currentTime st < startMins e -> gapEnd <= startMins e) ->
  OrderInv evs (fillGap st gapEnd).
Proof.
  intros HK Hnone Hgap Hfirst. unfold Part002.fillGap. cbv zeta.
  destruct (Z.ltb_spec 0 (gapEnd - currentTime st)); [|lia].
  destruct ((0 <? remainingFocusMinutes st) && (20 <=? gapEnd - currentTime st)) eqn:Ef.
  - apply andb_prop in Ef as [Ef1 Ef2]. apply Z.ltb_lt in Ef1. apply Z.leb_le in Ef2.
    set (isPeak := inPeak currentPeak (currentTime st)).
    set (focusBlock :=
           if isPeak
           then Z.min (Z.min 90 (gapEnd - currentTime st)) (remainingFocusMinutes st)
           else Z.min (Z.min 45 (gapEnd - currentTime st)) (remainingFocusMinutes st)).
    assert (Hfb : 0 < focusBlock <= gapEnd - currentTime st)
      by (unfold focusBlock; destruct isPeak; lia).
    set (wellnessDuration := if isPeak then 15 else 10).
    assert (Hw : 0 < wellnessDuration) by (unfold wellnessDuration; destruct isPeak; lia).
    clearbody focusBlock wellnessDuration.
    set (x1 := mkItem ("focus-" +:+ pretty (currentTime st)) focus
                 (if isPeak then "Peak Window Deep Work" else "Focus Sprint")
                 (Some (if isPeak then "High-impact productivity" else "Execution focus"))
                 (currentTime st) focusBlock).
    assert (HK1 : OrderInv evs (setItemsTime st (addItem (items st) x1)
                                  (currentTime st + focusBlock))).
    { eapply (OrderInv_push_here evs st _ x1); eauto; unfold x1; rewrite ?startTimeMins_mkItem; simpl; lia. }
    match goal with
    | |- context [if ?c then (_, _) else _] => destruct c eqn:Ew
    end.
    + apply andb_prop in Ew as [Ew1 Ew2]. apply Z.ltb_lt in Ew1. apply Z.leb_le in Ew2.
      eapply (OrderInv_push evs _ _ _ HK1); [reflexivity | | | |];
        rewrite ?startTimeMins_mkItem; cbn [currentTime setItemsTime].
      * lia.
      * lia.
      * apply (oinv_behind _ _ HK1).
      * intros e Hin He.
        assert (currentTime st < startMins e).
        { apply (eventAt_none evs _ e Hnone Hin). lia. }
        specialize (Hfirst e Hin ltac:(assumption)). lia.
    + eapply OrderInv_ext; [exact HK1 | reflexivity | reflexivity].
  - destruct ((90 <? gapEnd - currentTime st) && (0 <? length (items st))%nat).
    + eapply (OrderInv_push_here evs st); eauto; rewrite ?startTimeMins_mkItem; simpl; lia.
    + eapply (OrderInv_push_here evs st); eauto; rewrite ?startTimeMins_mkItem; simpl; lia.
Qed.

Lemma OrderInv_step st :
  OrderInv evs st -> currentTime st < dayEndMins -> OrderInv evs (step st).
Proof.
  intros HK Hlt. unfold Part002.step. cbv zeta.
  destruct (eventAt evs (currentTime st)) as [ce|] eqn:Ece.
  - (* an event is under way: neither anchor applies *)
    assert (Hb : bool_decide (is_Some (Some ce)) = true)
      by (apply bool_decide_eq_true_2; eauto).
    rewrite Hb. simpl. rewrite !andb_false_r.
    destruct (eventAt_first evs Hsorted _ _ Ece) as [Hin Hfirst].
    assert (Hce : In ce evs).
    { unfold eventAt in Ece. apply find_some in Ece as [H _]. exact H. }
    eapply (OrderInv_push evs st); [exact HK | reflexivity | | | |];
      rewrite ?startTimeMins_mkItem; cbn [currentTime setItemsTime].
    + lia.
    + lia.
    + apply (oinv_events _ _ HK); [exact Hce | lia].
    + intros e He Hend. apply Hfirst; [exact He | lia].
  - assert (Hb : bool_decide (is_Some (@None DayEvent)) = false).
    { apply bool_decide_eq_false_2. intros [x Hx]. discriminate Hx. }
    rewrite Hb. simpl. rewrite !andb_true_r.
    destruct (isMorningStart dayStartMins && negb (hasBreakfastBeenAdded st)
              && (420 <=? currentTime st) && (currentTime st <? 540)).
    { eapply (OrderInv_push_here evs st); eauto; rewrite ?startTimeMins_mkItem; simpl; lia. }
    destruct (negb (hasLunchBeenAdded st) && (720 <=? currentTime st)
              && (currentTime st <? 840)).
    { eapply (OrderInv_push_here evs st); eauto; rewrite ?startTimeMins_mkItem; simpl; lia. }
    apply OrderInv_fillGap; [exact HK | exact Ece | |].
    + destruct (List.find (fun e => currentTime st <? startMins e) evs) as [ne|] eqn:En;
        [|exact Hlt].
      apply find_some in En as [_ En]. apply Z.ltb_lt in En. lia.
    + intros e Hin He. apply gapEnd_first; assumption.
Qed.

Lemma OrderInv_sweep budget : forall st, OrderInv evs st -> OrderInv evs (sweep budget st).
Proof.
  induction budget as [|budget IH]; intros st HK; simpl; [exact HK|].
  destruct (Z.ltb_spec (currentTime st) dayEndMins); [|exact HK].
  apply IH. apply OrderInv_step; assumption.
Qed.

End Sweep.
End Part002SweepFacts.

Module Part002MergeFacts.
Import Part002 Part002Spec Part002Order Part002OrderFacts.

(** Every iteration changes the list of blocks through [addItem] only. *)
Lemma fillGap_items settings currentPeak st gapEnd :
  exists xs, items (fillGap settings currentPeak st gapEnd) = fold_left addItem xs (items st).
Proof.
  unfold fillGap. cbv zeta.
  destruct (0 <? gapEnd - currentTime st); [|exists []; reflexivity].
  destruct ((0 <? remainingFocusMinutes st) && (20 <=? gapEnd - currentTime st)).
  - match goal with
    | |- context [if ?c then (_, _) else _] => destruct c
    end; [eexists [_; _] | eexists [_]]; reflexivity.
  - destruct ((90 <? gapEnd - currentTime st) && (0 <? length (items st))%nat);
      eexists [_]; reflexivity.
Qed.

Lemma step_items settings evs dayStartMins dayEndMins currentPeak st :
  exists xs, items (step settings evs dayStartMins dayEndMins currentPeak st)
             = fold_left addItem xs (items st).
Proof.
  unfold step. cbv zeta.
  repeat (match goal with
          | |- context [if ?c then _ else _] => destruct c
          end; try (eexists [_]; reflexivity)).
  destruct (eventAt evs (currentTime st)); [eexists [_]; reflexivity|].
  apply fillGap_items.
Qed.

Lemma sweep_items_invariant (P : list ScheduleItem -> Prop)
    settings evs dayStartMins dayEndMins currentPeak :
  (forall l x, P l -> P (addItem l x)) ->
  forall budget st, P (items st) ->
    P (items (sweep settings evs dayStartMins dayEndMins currentPeak budget st)).
Proof.
  intros Hadd. induction budget as [|budget IH]; intros st HP; simpl; [exact HP|].
  destruct (currentTime st <? dayEndMins); [|exact HP].
  apply IH. destruct (step_items settings evs dayStartMins dayEndMins currentPeak st)
    as [xs ->].
  clear IH. revert HP. generalize (items st). induction xs as [|x xs IHx]; intros l HP;
    simpl; [exact HP|]. apply IHx. apply Hadd. exact HP.
Qed.

Lemma noAdjacentRest_snoc l x :
  noAdjacentRest l ->
  (forall y, last l = Some y -> ~ (isBreak y = true /\ isBreak x = true)) ->
  noAdjacentRest (l ++ [x]).
Proof.
  intros Hl Hx i a b Ha Hb.
  destruct (DashboardViewFacts.lookup_snoc_pair l x i a b Ha Hb) as [[H1 H2]|[H1 ->]].
  - exact (Hl i a b H1 H2).
  - apply Hx. exact H1.
Qed.

Lemma noAdjacentRest_kinds l1 l2 :
  map type l1 = map type l2 -> noAdjacentRest l1 -> noAdjacentRest l2.
Proof.
  intros E H i a b Ha Hb.
  assert (Hk : forall j c, l2 !! j = Some c -> exists c', l1 !! j = Some c' /\ type c' = type c).
  { intros j c Hc.
    assert (Hm : map type l1 !! j = Some (type c))
      by (rewrite E, list_lookup_fmap, Hc; reflexivity).
    rewrite list_lookup_fmap in Hm. destruct (l1 !! j) as [c'|]; [|discriminate].
    exists c'. split; [reflexivity|]. simpl in Hm. congruence. }
  destruct (Hk _ _ Ha) as (a' & Ha' & Eta). destruct (Hk _ _ Hb) as (b' & Hb' & Etb).
  specialize (H i a' b' Ha' Hb'). unfold isBreak in *. rewrite Eta, Etb in H. exact H.
Qed.

Lemma addItem_MergeInv l x : MergeInv l -> MergeInv (addItem l x).
Proof.
  intros [Hadj Hhead]. unfold addItem. destruct (last l) as [y|] eqn:El.
  - apply last_Some in El as [l' ->].
    destruct (includesType BREAK_TYPES (type x) && includesType BREAK_TYPES (type y)) eqn:Eb.
    + destruct (ItemType_eqb (type x) (type y)) eqn:Et; [|split; assumption].
      rewrite removelast_last. split.
      * eapply noAdjacentRest_kinds; [|exact Hadj]. rewrite !map_app. reflexivity.
      * destruct l' as [|z l']; [exact Hhead | exact Hhead].
    + split.
      * apply noAdjacentRest_snoc; [exact Hadj|].
        intros y' Hy'. rewrite last_snoc in Hy'. injection Hy' as <-.
        unfold isBreak. intros [H1 H2]. rewrite H1, H2 in Eb. discriminate Eb.
      * destruct l' as [|z l']; exact Hhead.
  - apply last_None in El. subst l.
    destruct (includesType [hobby; wellness; break] (type x)) eqn:E.
    + split; [intros i a b Ha; discriminate Ha | exact I].
    + split; [|exact E].
      intros i a b Ha Hb. destruct i; discriminate Hb.
Qed.

Lemma insertByStart_sortedEvents e l : sortedEvents l -> sortedEvents (insertByStart e l).
Proof.
  unfold sortedEvents. induction l as [|x l IH]; simpl; intros H.
  - repeat constructor.
  - apply StronglySorted_inv in H as [Hs Hf].
    destruct (Z.leb_spec (startMins e) (startMins x)).
    + constructor; [constructor; assumption|].
      constructor; [assumption|]. eapply Forall_impl; [exact Hf|]. simpl. intros; lia.
    + constructor; [apply IH; exact Hs|].
      apply insertByStart_Forall; [lia | exact Hf].
Qed.

Lemma sortByStart_sortedEvents l : sortedEvents (sortByStart l).
Proof.
  unfold sortByStart. induction l as [|x l IH]; simpl; [constructor|].
  apply insertByStart_sortedEvents. exact IH.
Qed.

End Part002MergeFacts.

Section Part002OrderTheorems.
Import Part002 Part002Spec Part002Order.

(** X21: the order of the schedule of part_002.  The schedule is ascending by
    start and holds the blocks the sweep placed, each once.  The normaliser
    leaves the events ascending by start; for such events, and a hobby break
    setting that is not negative, the sweep places the blocks in ascending
    order already: the final sort changes nothing. *)
Theorem part002_schedule_order settings userDayStart userDayEnd evs focusGoal peakWindow :
  let its := generate settings userDayStart userDayEnd evs focusGoal peakWindow in
  let placed := sweepItems settings userDayStart userDayEnd evs focusGoal peakWindow in
  ascending its /\ its ≡ₚ placed /\
  (0 <= hobbyBreakDuration settings -> sortedEvents evs -> its = placed) /\
  (forall calendarEvents yyyymmdd,
     activeDayEventsOf calendarEvents yyyymmdd = Some evs -> sortedEvents evs).
Proof.
  cbv zeta.
  assert (E : generate settings userDayStart userDayEnd evs focusGoal peakWindow =
              sortItems (sweepItems settings userDayStart userDayEnd evs focusGoal peakWindow)).
  { unfold generate, sweepItems. destruct (dayWindow _ _ _). reflexivity. }
  rewrite E. split; [apply Part002OrderFacts.sortItems_ascending|].
  split; [apply Part002OrderFacts.sortItems_Permutation|]. split.
  - intros Hh Hs. apply Part002OrderFacts.sortItems_id.
    unfold sweepItems. destruct (dayWindow _ _ _) as [ds de].
    apply (oinv_sorted evs). apply Part002SweepFacts.OrderInv_sweep; [exact Hs | exact Hh |].
    split; simpl; [constructor | constructor | intros; constructor].
  - intros calendarEvents yyyymmdd H. unfold activeDayEventsOf in H.
    destruct (mapM toDayEvent _) as [l|]; simpl in H; [|discriminate].
    injection H as <-. apply Part002MergeFacts.sortByStart_sortedEvents.
Qed.

(** X22: rest blocks are merged: for events ascending by start and a hobby break
    setting that is not negative, no two neighbours of the schedule are both
    rest blocks, and the schedule does not open with a Hobby, Wellness or
    Break block. *)
Theorem part002_rest_blocks_merged settings userDayStart userDayEnd evs focusGoal
    peakWindow :
  0 <= hobbyBreakDuration settings -> sortedEvents evs ->
  let its := generate settings userDayStart userDayEnd evs focusGoal peakWindow in
  noAdjacentRest its /\ startsWithWork its.
Proof.
  intros Hh Hs. cbv zeta.
  assert (E : generate settings userDayStart userDayEnd evs focusGoal peakWindow =
              sweepItems settings userDayStart userDayEnd evs focusGoal peakWindow).
  { assert (E' : generate settings userDayStart userDayEnd evs focusGoal peakWindow =
              sortItems (sweepItems settings userDayStart userDayEnd evs focusGoal peakWindow)).
    { unfold generate, sweepItems. destruct (dayWindow _ _ _). reflexivity. }
    rewrite E'. apply Part002OrderFacts.sortItems_id.
    unfold sweepItems. destruct (dayWindow _ _ _) as [ds de].
    apply (oinv_sorted evs). apply Part002SweepFacts.OrderInv_sweep; [exact Hs | exact Hh |].
    split; simpl; [constructor | constructor | intros; constructor]. }
  rewrite E. unfold sweepItems. destruct (dayWindow _ _ _) as [ds de].
  apply (Part002MergeFacts.sweep_items_invariant MergeInv).
  - apply Part002MergeFacts.addItem_MergeInv.
  - split; [intros i a b Ha; discriminate Ha | exact I].
Qed.

End Part002OrderTheorems.

(** * Facts about the lines of a calendar file *)

Module AppLineFacts.
Import App.








End AppLineFacts.

Section AppImportTheorems.
Import App.

Variable parseToISTDate : string -> option DateParts.


End AppImportTheorems.

(** * Worked instances *)

(** X5 (witness): 09:05. *)
Lemma formatTime_read_back_witness : clockMinutes (formatTime 545) = Some 545.
Proof. apply (formatTime_read_back 545). lia. Defined.

(** X6 (witness): half past one in the afternoon. *)
Lemma twelve_hour_display_witness :
  App.formatTo12h (formatTime 810) = "01:30 PM"%string /\
  toMinutes "01" "30" "PM" = Some 810 /\
  Part002.formatMinutes 810 = "01:30 pm"%string.
Proof. apply (twelve_hour_display 810). lia. Defined.

(** X8 (witness): an event from 09:30 to 10:15. *)
Lemma imported_event_with_end_witness :
  let e := App.eventOf "Standup" Instances.at0930 (Some Instances.at1015) in
  toDayEvent e = Some {| event := e; startMins := 570; endMins := 615 |} /\
  durationMinutes e = 45.
Proof.
  cbv zeta.
  destruct (imported_event_with_end "Standup" Instances.at0930 Instances.at1015)
    as (H1 & _ & H3 & _).
  - split; [reflexivity | discriminate].
  - split; [reflexivity | discriminate].
  - split; [reflexivity | discriminate].
  - split; [reflexivity | discriminate].
  - split; [exact H1 | exact (H3 eq_refl)].
Defined.

(** X9 (witness): an event at 23:30 without an end ends at 00:30. *)
Lemma imported_event_without_end_witness :
  let e := App.eventOf "Night shift" Instances.at2330 None in
  durationMinutes e = 60 /\ endTime e = "00:30"%string.
Proof.
  cbv zeta.
  destruct (imported_event_without_end "Night shift" Instances.at2330) as (H1 & H2 & _).
  - split; [reflexivity | discriminate].
  - split; [reflexivity | discriminate].
  - split; [exact H1 | exact H2].
Defined.

(** X14 (witness): the day from 08:00 to 18:00 with a meeting at 09:30 and
    breaks of 5 and 30 minutes. *)
Lemma part001_timeline_witness :
  exists its,
    Part001.generate Scenario.day 480 1080 [Scenario.dayEvent "Standup" 570 630]
      7 0 None (480, 720) 5 30 [] = Some its /\
    Part001Timeline.chain 480 its /\ Part001Timeline.contiguous its /\
    Part001Timeline.strictlyAscending its /\
    1080 <= 480 + Part001Timeline.totalMinutes its /\
    Part001Timeline.focusMinutes its <= Z.max 0 (Part001Timeline.goalOf 7 0 None * 60).
Proof.
  apply (part001_timeline Scenario.day 480 1080 [Scenario.dayEvent "Standup" 570 630]
           7 0 None (480, 720) 5 30 []).
  lia.
Defined.

(** X15 (witness): the same day. *)
Lemma stats_account_for_timeline_witness :
  exists its,
    Part001.generate Scenario.day 480 1080 [Scenario.dayEvent "Standup" 570 630]
      7 0 None (480, 720) 5 30 [] = Some its /\
    600 <= Part001.focusMins (Part001.stats Part001.daily its []) +
           Part001.breakMins (Part001.stats Part001.daily its []).
Proof.
  destruct (Part001.generate Scenario.day 480 1080 [Scenario.dayEvent "Standup" 570 630]
              7 0 None (480, 720) 5 30 []) as [its|] eqn:E;
    [|vm_compute in E; discriminate E].
  exists its. split; [reflexivity|].
  apply (stats_account_for_timeline Scenario.day 480 1080
           [Scenario.dayEvent "Standup" 570 630] 7 0 None (480, 720) 5 30 [] its E).
Defined.

(** X16 (witness): a goal of one hour and a workshop of two. *)
Lemma meetings_above_goal_stay_over_witness :
  exists its,
    Part001.generate Scenario.day 480 1080 [Scenario.dayEvent "Workshop" 540 660]
      1 0 None (480, 720) 5 30 [] = Some its /\
    Part001.goalDiff Part001.daily
      (Part001.focusMins (Part001.stats Part001.daily its [])) 1 = Some Part001.over.
Proof.
  destruct (Part001.generate Scenario.day 480 1080 [Scenario.dayEvent "Workshop" 540 660]
              1 0 None (480, 720) 5 30 []) as [its|] eqn:E;
    [|vm_compute in E; discriminate E].
  exists its. split; [reflexivity|].
  apply (meetings_above_goal_stay_over Scenario.day 480 1080
           [Scenario.dayEvent "Workshop" 540 660] 1 0 None (480, 720) 5 30 [] its E).
  vm_compute in E. injection E as <-. vm_compute. discriminate.
Defined.

(** X17 (witness): a short break setting of zero and a meeting twenty
    minutes after the start of the day. *)
Lemma short_break_stall_witness :
  Part001.sweep Scenario.day 1080 480 720 0 30 7 0 [] 1000
    (Part001.initial 480 7 [Scenario.dayEvent "Standup" 500 560]) = None.
Proof.
  apply (short_break_stall Scenario.day 1080 480 720 0 30 7 0 []
           (Part001.initial 480 7 [Scenario.dayEvent "Standup" 500 560])).
  - lia.
  - simpl. lia.
  - left. reflexivity.
  - left. simpl. lia.
  - intros e H. vm_compute in H. injection H as <-. simpl. lia.
  - intros H. vm_compute in H. discriminate H.
Defined.


(** X19 (witness): two blocks of a minute each, started on the first. *)
Lemma timer_plays_through_witness :
  exists st1,
    Part002Timer.toggleTimer Instances.twoBlocks 0 Part002Timer.idle = Normal st1 /\
    Part002Timer.run Instances.twoBlocks
      (Part002Timer.secondsToPlay (drop 0 Instances.twoBlocks)) st1 =
    Normal {| Part002Timer.activeItemIndex := None; Part002Timer.timeLeft := 0;
              Part002Timer.isPaused := true;
              Part002Timer.completedIds :=
                Part002Timer.completedIds Part002Timer.idle ∪
                list_to_set (map Part002.id (drop 0 Instances.twoBlocks)) |}.
Proof.
  apply (timer_plays_through Instances.twoBlocks 0
           (Part002.mkItem "focus-480" focus "Focus Block" None 480 1) Part002Timer.idle).
  - repeat constructor; simpl; lia.
  - reflexivity.
  - discriminate.
Defined.

(** X20 (witness): the timer is started on the second block of a day and a
    day without blocks is selected. *)
Lemma timer_outlives_day_switch_witness :
  exists st1,
    Part002Timer.toggleTimer Instances.twoBlocks 1 Part002Timer.idle = Normal st1 /\
    Part002Timer.run [] 61 st1 = TypeError.
Proof.
  apply (timer_outlives_day_switch Instances.twoBlocks [] 1
           (Part002.mkItem "break-481" break "Short Break" None 481 1) Part002Timer.idle).
  - reflexivity.
  - simpl. lia.
  - discriminate.
Defined.

(** X22 (witness): the day from 08:00 to 18:00 with a meeting at 09:30 and a
    review at 15:00, default settings. *)
Lemma part002_rest_blocks_merged_witness :
  Part002Order.noAdjacentRest
    (Part002.generate Part002Spec.defaultSettings 480 1080
       [Scenario.dayEvent "Standup" 570 630; Scenario.dayEvent "Review" 900 960]
       7 "Morning") /\
  Part002Order.startsWithWork
    (Part002.generate Part002Spec.defaultSettings 480 1080
       [Scenario.dayEvent "Standup" 570 630; Scenario.dayEvent "Review" 900 960]
       7 "Morning").
Proof.
  apply (part002_rest_blocks_merged Part002Spec.defaultSettings 480 1080
           [Scenario.dayEvent "Standup" 570 630; Scenario.dayEvent "Review" 900 960]
           7 "Morning").
  - simpl. lia.
  - repeat constructor; simpl; lia.
Defined.

